(** * Risk-scoring engine of the whistleblower workbench

    A shallow embedding of the feature extractor
    (ml/training/feature-extractor.js), the [FraudDetector] class
    (ml/models/fraud-detector.js), the scoring route
    (app/api/ml/score/route.js) and the feature and validation steps of
    the training script (ml/training/train-model.js), followed by the
    properties the specification states about them and by further
    properties of the code.

    Numbers.  An ECMAScript number is modelled by [num]: the three
    special values NaN, +Infinity, -Infinity, or a finite value.  A
    finite double is represented by the rational it denotes and finite
    arithmetic is exact: binary64 rounding and overflow to infinity are
    not modelled, and the two zeros are identified (every divisor in the
    embedded code is a length, a left-to-right sum started at 0, or an
    operand guarded by [|| 1], none of which is ever -0).  [Math.sqrt]
    is a parameter on the finite non-negative numbers, and [Math.log1p]
    on the finite numbers above -1.

    Values.  A feature vector, a threshold table and the maps the code
    accumulates are objects with string keys: association lists in
    property order, since the order of [Object.entries] decides the
    order of the factors and the ties among learned patterns.  Every
    value of a feature vector is a number; an absent property reads as
    [undefined], which compares as NaN.  The text of a template literal
    is kept as its pieces, without formatting the numbers.

    Files.  The text of a file is identified with the JSON value it
    parses to, or is unparseable; [JSON.stringify] followed by
    [JSON.parse] acts on values. *)

From Stdlib Require Import ZArith QArith Qround Qabs Lqa Lia Bool List String Ascii.
From Stdlib Require Import OrdersEx Sorted RelationClasses Permutation.
Import ListNotations.
Open Scope string_scope.
Open Scope Q_scope.

(* ================================================================== *)
(** ** ECMAScript numbers *)

Module Num.

Inductive num : Type :=
| NaN
| PInf
| NInf
| Fin (q : Q).

Definition Qlt_bool (x y : Q) : bool := negb (Qle_bool y x).

Definition of_Z (z : Z) : num := Fin (inject_Z z).
Definition of_nat (n : nat) : num := of_Z (Z.of_nat n).

Definition isNaN (x : num) : bool :=
  match x with NaN => true | _ => false end.

Definition isFinite (x : num) : bool :=
  match x with Fin _ => true | _ => false end.

(** Unary minus. *)
Definition neg (x : num) : num :=
  match x with
  | NaN => NaN
  | PInf => NInf
  | NInf => PInf
  | Fin q => Fin (- q)
  end.

(** [x + y]. *)
Definition add (x y : num) : num :=
  match x, y with
  | NaN, _ | _, NaN => NaN
  | PInf, NInf | NInf, PInf => NaN
  | PInf, _ | _, PInf => PInf
  | NInf, _ | _, NInf => NInf
  | Fin a, Fin b => Fin (a + b)
  end.

(** [x - y]. *)
Definition sub (x y : num) : num := add x (neg y).

(** An infinity of the sign of [c], where [c] compares 0 with the
    finite factor; 0 times infinity is NaN. *)
Definition inf_times (positive : bool) (q : Q) : num :=
  match 0 ?= q with
  | Eq => NaN
  | Lt => if positive then PInf else NInf
  | Gt => if positive then NInf else PInf
  end.

(** [x * y]. *)
Definition mul (x y : num) : num :=
  match x, y with
  | NaN, _ | _, NaN => NaN
  | PInf, PInf | NInf, NInf => PInf
  | PInf, NInf | NInf, PInf => NInf
  | PInf, Fin q | Fin q, PInf => inf_times true q
  | NInf, Fin q | Fin q, NInf => inf_times false q
  | Fin a, Fin b => Fin (a * b)
  end.

(** [x / y].  A zero divisor is +0: 0/0 is NaN, a positive dividend
    gives +Infinity and a negative one -Infinity. *)
Definition div (x y : num) : num :=
  match x, y with
  | NaN, _ | _, NaN => NaN
  | Fin a, Fin b =>
      if Qeq_bool b 0 then
        match 0 ?= a with Eq => NaN | Lt => PInf | Gt => NInf end
      else Fin (a / b)
  | Fin _, _ => Fin 0
  | PInf, Fin b => if Qlt_bool b 0 then NInf else PInf
  | NInf, Fin b => if Qlt_bool b 0 then PInf else NInf
  | _, _ => NaN
  end.

(** [x < y]; false as soon as one side is NaN. *)
Definition ltb (x y : num) : bool :=
  match x, y with
  | NaN, _ | _, NaN => false
  | _, NInf => false
  | NInf, _ => true
  | PInf, _ => false
  | _, PInf => true
  | Fin a, Fin b => Qlt_bool a b
  end.

(** [x <= y]; false as soon as one side is NaN. *)
Definition leb (x y : num) : bool :=
  match x, y with
  | NaN, _ | _, NaN => false
  | NInf, _ => true
  | _, PInf => true
  | _, NInf => false
  | PInf, _ => false
  | Fin a, Fin b => Qle_bool a b
  end.

Definition gtb (x y : num) : bool := ltb y x.
Definition geb (x y : num) : bool := leb y x.

(** [x === y] on numbers: NaN differs from itself. *)
Definition eqb (x y : num) : bool :=
  match x, y with
  | PInf, PInf | NInf, NInf => true
  | Fin a, Fin b => Qeq_bool a b
  | _, _ => false
  end.

(** ToBoolean on a number: 0 and NaN are falsy. *)
Definition truthy (x : num) : bool :=
  match x with
  | NaN => false
  | Fin q => negb (Qeq_bool q 0)
  | _ => true
  end.

(** [x || d] on numbers. *)
Definition or_else (x d : num) : num := if truthy x then x else d.

(** [Math.abs]. *)
Definition abs (x : num) : num :=
  match x with
  | NaN => NaN
  | PInf | NInf => PInf
  | Fin q => Fin (Qabs q)
  end.

(** [Math.round]: the nearest integer, ties towards +Infinity. *)
Definition round (x : num) : num :=
  match x with
  | Fin q => of_Z (Qfloor (q + (1 # 2)))
  | _ => x
  end.

(** [Math.floor]. *)
Definition floor (x : num) : num :=
  match x with
  | Fin q => of_Z (Qfloor q)
  | _ => x
  end.

(** [Math.min(x, y)]. *)
Definition min2 (x y : num) : num :=
  match x, y with
  | NaN, _ | _, NaN => NaN
  | _, _ => if leb x y then x else y
  end.

(** [Math.max(x, y)]. *)
Definition max2 (x y : num) : num :=
  match x, y with
  | NaN, _ | _, NaN => NaN
  | _, _ => if leb x y then y else x
  end.

(** [Math.max(...l)] and [Math.min(...l)]; -Infinity and +Infinity on
    the empty list. *)
Definition maxl (l : list num) : num := fold_left max2 l NInf.
Definition minl (l : list num) : num := fold_left min2 l PInf.

(** [Math.pow(x, 2)]. *)
Definition pow2 (x : num) : num := mul x x.

(** [l.reduce((a, b) => a + b, 0)]. *)
Definition total (l : list num) : num := fold_left add l (Fin 0).

(** [Math.sqrt], given its value on the finite non-negative numbers. *)
Definition sqrt (sqrt_fin : Q -> Q) (x : num) : num :=
  match x with
  | NaN | NInf => NaN
  | PInf => PInf
  | Fin q => if Qlt_bool q 0 then NaN else Fin (sqrt_fin q)
  end.

(** The index [Math.floor(x)] of an array access, for [x >= 0]. *)
Definition to_index (x : num) : option nat :=
  match x with
  | Fin q => if Qlt_bool q 0 then None else Some (Z.to_nat (Qfloor q))
  | _ => None
  end.

(** Semantic equality: the same special value or equal rationals. *)
Definition same (x y : num) : Prop :=
  match x, y with
  | NaN, NaN | PInf, PInf | NInf, NInf => True
  | Fin a, Fin b => a == b
  | _, _ => False
  end.

(** [Math.log1p], given its value on the finite numbers above -1. *)
Definition log1p (log1p_fin : Q -> Q) (x : num) : num :=
  match x with
  | NaN | NInf => NaN
  | PInf => PInf
  | Fin q =>
      if Qlt_bool q (-1) then NaN
      else if Qeq_bool q (-1) then NInf
      else Fin (log1p_fin q)
  end.

End Num.
Export Num.

Declare Scope num_scope.
Delimit Scope num_scope with num.
Bind Scope num_scope with num.
Infix "+" := add : num_scope.
Infix "-" := sub : num_scope.
Infix "*" := mul : num_scope.
Infix "/" := div : num_scope.
Infix ">?" := gtb (at level 70) : num_scope.
Infix ">=?" := geb (at level 70) : num_scope.
Infix "<?" := ltb (at level 70) : num_scope.
Infix "<=?" := leb (at level 70) : num_scope.
Notation "x '|||' d" := (or_else x d) (at level 50, left associativity) : num_scope.

(** Decimal literals of the source: [dec 3 10] is 0.3. *)
Definition dec (n : Z) (d : positive) : num := Fin (n # d).

(* ================================================================== *)
(** ** Strings, objects and arrays *)

Module Js.

(** [s.toLowerCase()] on ASCII text. *)
Definition lower_ascii (c : ascii) : ascii :=
  let n := nat_of_ascii c in
  if (Nat.leb 65 n && Nat.leb n 90)%bool then ascii_of_nat (n + 32) else c.

Fixpoint toLowerCase (s : string) : string :=
  match s with
  | EmptyString => EmptyString
  | String c s' => String (lower_ascii c) (toLowerCase s')
  end.

(** [s.includes(sub)]. *)
Fixpoint includes (s sub : string) : bool :=
  (String.prefix sub s ||
   match s with
   | EmptyString => false
   | String _ s' => includes s' sub
   end)%bool.

(** [kws.some(kw => s.includes(kw))]. *)
Definition includes_some (s : string) (kws : list string) : bool :=
  existsb (includes s) kws.

(** The ASCII members of the regular-expression class [\s]. *)
Definition is_space (c : ascii) : bool :=
  let n := nat_of_ascii c in
  (Nat.eqb n 32 || (Nat.leb 9 n && Nat.leb n 13))%bool.

(** [s.replace(/\s+/g, '_')]: every maximal run of white space becomes
    one underscore. *)
Fixpoint replace_spaces_from (in_run : bool) (s : string) : string :=
  match s with
  | EmptyString => EmptyString
  | String c s' =>
      if is_space c then
        if in_run then replace_spaces_from true s'
        else String "_" (replace_spaces_from true s')
      else String c (replace_spaces_from false s')
  end.

Definition replace_spaces (s : string) : string := replace_spaces_from false s.

(** [o || d] when [o] is a string or absent: the empty string is falsy. *)
Definition str_or (o : option string) (d : string) : string :=
  match o with
  | Some s => if String.eqb s "" then d else s
  | None => d
  end.

(** An object with string keys, in property order: the order of
    insertion, as JavaScript keeps it for keys that are not array
    indices. *)
Definition object (A : Type) : Type := list (string * A).

Section Objects.
Context {A : Type}.

(** [o[k]]; [None] is [undefined].  Only the properties of the object
    itself are modelled: for a key that names a property every object
    inherits ('constructor' and the like) and that the object does not
    own, the code reads the inherited value where [get] gives [None].
    The properties of the loops that read and write computed keys are
    stated for keys that are no such names. *)
Fixpoint get (k : string) (o : object A) : option A :=
  match o with
  | [] => None
  | (k', v) :: o' => if String.eqb k k' then Some v else get k o'
  end.

(** [o[k] = v]: an existing property keeps its place, a new one is
    appended.  This is the order of the code for keys that are not
    integer-like (those an object lists first) and not ['__proto__']
    (an assignment to which creates no property). *)
Fixpoint set (k : string) (v : A) (o : object A) : object A :=
  match o with
  | [] => [(k, v)]
  | (k', v') :: o' =>
      if String.eqb k k' then (k, v) :: o' else (k', v') :: set k v o'
  end.

Definition keys (o : object A) : list string := map fst o.
Definition values (o : object A) : list A := map snd o.

(** [l.sort(cmp)]: a stable insertion sort, [cmp a b > 0] moving [a]
    behind [b].  The order ECMAScript leaves to the implementation when
    the comparator is inconsistent (NaN differences) is the one of this
    algorithm. *)
Fixpoint insert_by (cmp : A -> A -> num) (x : A) (l : list A) : list A :=
  match l with
  | [] => [x]
  | y :: l' => if (cmp x y >? Fin 0)%num then y :: insert_by cmp x l' else x :: l
  end.

Definition sort_by (cmp : A -> A -> num) (l : list A) : list A :=
  fold_right (insert_by cmp) [] l.

(** [l.filter(p).length]. *)
Definition count_if (p : A -> bool) (l : list A) : nat :=
  List.length (filter p l).
End Objects.

(** [keys.sort()]: ascending in code-unit order. *)
Fixpoint insert_str (x : string) (l : list string) : list string :=
  match l with
  | [] => [x]
  | y :: l' => if String.ltb y x then y :: insert_str x l' else x :: l
  end.

Definition sort_strings (l : list string) : list string :=
  fold_right insert_str [] l.

(** [ToNumber(v)] when [v] is a number or [undefined]. *)
Definition toNumber (v : option num) : num :=
  match v with Some x => x | None => NaN end.

(** ToBoolean of a number or [undefined]. *)
Definition truthy_opt (v : option num) : bool :=
  match v with Some x => truthy x | None => false end.

(** Distinct members of a list, first occurrences kept
    ([new Set(l)], [l.filter((v, i, a) => a.indexOf(v) === i)]). *)
Fixpoint distinct {A : Type} (eqb : A -> A -> bool) (l : list A) : list A :=
  match l with
  | [] => []
  | x :: l' => x :: filter (fun y => negb (eqb x y)) (distinct eqb l')
  end.

Definition opt_str_eqb (a b : option string) : bool :=
  match a, b with
  | Some x, Some y => String.eqb x y
  | None, None => true
  | _, _ => false
  end.

End Js.
Export Js.

(* ================================================================== *)
(** ** Feature extractor (ml/training/feature-extractor.js) *)

(** One award row.  [Award_Amount] is the number
    [parseFloat(a['Award Amount'])] evaluates to, NaN when the field is
    missing or is not numeric text; the other fields are [None] when the
    property is absent. *)
Record Award : Type := {
  Award_Amount : num;
  Awarding_Agency : option string;
  Description : option string;
  Start_Date : option string
}.

(** [parseFloat(a['Award Amount']) || 0]. *)
Definition amount_of (a : Award) : num := (Award_Amount a ||| Fin 0)%num.

Definition agency_is_defense (agency : string) : bool :=
  (includes agency "defense" || includes agency "army" ||
   includes agency "navy" || includes agency "air force")%bool.

(** The loop [awards.forEach(a => { agencyCounts[agency] = (agencyCounts[agency] || 0) + 1 })]. *)
Definition count_agencies (awards : list Award) : object num :=
  fold_left
    (fun agencyCounts a =>
       let agency := str_or (Awarding_Agency a) "Unknown" in
       set agency ((toNumber (get agency agencyCounts) ||| Fin 0) + of_Z 1)%num agencyCounts)
    awards [].

Module FeatureExtractor.

Section Extractor.
(** [Math.sqrt] on the finite non-negative numbers. *)
Variable sqrt_fin : Q -> Q.

(** [calculateStdDev(values)]. *)
Definition calculateStdDev (values : list num) : num :=
  let n := List.length values in
  if Nat.eqb n 0 then Fin 0
  else
    let mean := (total values / of_nat n)%num in
    let squareDiffs := map (fun v => pow2 (v - mean)%num) values in
    Num.sqrt sqrt_fin (total squareDiffs / of_nat n)%num.

(** [groupByYear(items, 'Start Date')]. *)
Definition groupByYear (items : list Award) : object num :=
  fold_left
    (fun byYear item =>
       match Start_Date item with
       | Some date =>
           if String.eqb date "" then byYear
           else
             let year := String.substring 0 4 date in
             set year ((toNumber (get year byYear) ||| Fin 0) + amount_of item)%num byYear
       | None => byYear
       end)
    items [].

(** [calculateGrowthRate(byYear)]. *)
Definition calculateGrowthRate (byYear : object num) : num :=
  let years := sort_strings (keys byYear) in
  let len := List.length years in
  if Nat.ltb len 2 then Fin 0
  else
    let lastYear := (toNumber (get (nth (len - 1) years "") byYear) ||| Fin 0)%num in
    let prevYear := (toNumber (get (nth (len - 2) years "") byYear) ||| of_Z 1)%num in
    (lastYear / prevYear)%num.

Definition highRiskKeywords : list string :=
  ["consulting"; "advisory"; "professional services";
   "it services"; "software"; "support"; "emergency"].

(** [extractContractorFeatures(contractor, awards)]; the contractor
    argument is not read. *)
Definition extractContractorFeatures (awards : list Award) : object num :=
  let amounts := map amount_of awards in
  let totalAwarded := total amounts in
  let avgAward := (totalAwarded / of_nat (List.length amounts) ||| Fin 0)%num in
  let awardShares := map (fun a => (a / totalAwarded)%num) amounts in
  let agencyCounts := count_agencies awards in
  let maxAgencyShare := (maxl (values agencyCounts) / of_nat (List.length awards))%num in
  let awardsByYear := groupByYear awards in
  let largeAwardThreshold := (avgAward * of_Z 3)%num in
  [ ("totalAwarded", totalAwarded);
    ("avgAward", avgAward);
    ("awardCount", of_nat (List.length awards));
    ("maxAward", maxl amounts);
    ("minAward", minl amounts);
    ("awardStdDev", calculateStdDev amounts);
    ("concentrationIndex",
      fold_left (fun sum s => (sum + s * s)%num) awardShares (Fin 0));
    ("agencyConcentration", maxAgencyShare);
    ("yearOverYearGrowth", calculateGrowthRate awardsByYear);
    ("soleSourceRatio",
      (of_nat (count_if (fun a => includes (toLowerCase (str_or (Description a) "")) "sole source") awards)
       / of_nat (List.length awards))%num);
    ("highRiskCategoryRatio",
      (of_nat (count_if (fun a => includes_some (toLowerCase (str_or (Description a) "")) highRiskKeywords) awards)
       / of_nat (List.length awards))%num);
    ("defenseRatio",
      (of_nat (count_if (fun a => agency_is_defense (toLowerCase (str_or (Awarding_Agency a) ""))) awards)
       / of_nat (List.length awards))%num);
    ("largeAwardRatio",
      (of_nat (count_if (fun a => (a >? largeAwardThreshold)%num) amounts)
       / of_nat (List.length amounts))%num) ].
End Extractor.

(** A billing row: [amount], [code] (as the text [code.toString()]
    gives), [serviceType] and [patientId]; [None] is an absent property. *)
Record Billing : Type := {
  b_amount : option num;
  b_code : option string;
  b_serviceType : option string;
  b_patientId : option string
}.

(** An Open Payments row. *)
Record Payment : Type := {
  p_amount : option num;
  p_company : option string;
  p_type : option string
}.

(** The provider properties the extractor reads, by truthiness. *)
Record Provider : Type := {
  excludedPreviously : bool;
  relatedPartyExcluded : bool
}.

(** [codeStr.match(/<stem>[1-5]/)]: the four-character stem followed by
    a digit from 1 to 5, anywhere in the text. *)
Fixpoint matches_stem (stem s : string) : bool :=
  (match s with
   | EmptyString => false
   | String _ s' =>
       (String.prefix stem s &&
        match String.get 4 s with
        | Some c => Nat.leb 49 (nat_of_ascii c) && Nat.leb (nat_of_ascii c) 53
        | None => false
        end) || matches_stem stem s'
   end)%bool.

(** [parseInt(c)] for the one-character string [c]; [undefined] gives NaN. *)
Definition parseInt_char (c : option ascii) : num :=
  match c with
  | Some c =>
      let n := nat_of_ascii c in
      if (Nat.leb 48 n && Nat.leb n 57)%bool then of_nat (n - 48) else NaN
  | None => NaN
  end.

(** [getCodeComplexity(code)]. *)
Definition getCodeComplexity (code : option string) : num :=
  match code with
  | None => of_Z 1
  | Some codeStr =>
      if String.eqb codeStr "" then of_Z 1
      else if matches_stem "9920" codeStr then parseInt_char (String.get 4 codeStr)
      else if matches_stem "9921" codeStr then parseInt_char (String.get 4 codeStr)
      else of_Z 3
  end.

(** The property key [p.company] is converted to. *)
Definition company_key (p : Payment) : string :=
  match p_company p with Some c => c | None => "undefined" end.

Definition type_mentions (p : Payment) (word : string) : bool :=
  includes (toLowerCase (str_or (p_type p) "")) word.

(** [extractHealthcareFeatures(provider, billingData, openPayments)];
    [None] is a null or undefined collection, which skips its block,
    while an empty array does not. *)
Definition extractHealthcareFeatures (provider : Provider)
    (billingData : option (list Billing)) (openPayments : option (list Payment))
    : object num :=
  let billing :=
    match billingData with
    | None => []
    | Some billingData =>
        let totalBilled :=
          fold_left (fun sum b => (sum + (toNumber (b_amount b) ||| Fin 0))%num)
                    billingData (Fin 0) in
        let codeLevels := map (fun b => getCodeComplexity (b_code b)) billingData in
        let avgComplexity := (total codeLevels / of_nat (List.length codeLevels))%num in
        let patients := distinct opt_str_eqb (map b_patientId billingData) in
        [ ("totalBilled", totalBilled);
          ("avgClaim", (totalBilled / of_nat (List.length billingData))%num);
          ("claimCount", of_nat (List.length billingData));
          ("avgCodeComplexity", avgComplexity);
          ("highComplexityRatio",
            (of_nat (count_if (fun c => (c >=? of_Z 4)%num) codeLevels)
             / of_nat (List.length codeLevels))%num);
          ("uniqueServiceTypes",
            of_nat (List.length (distinct opt_str_eqb (map b_serviceType billingData))));
          ("avgServicesPerPatient",
            (of_nat (List.length billingData)
             / (of_nat (List.length patients) ||| of_Z 1))%num) ]
    end in
  let payments :=
    match openPayments with
    | None => []
    | Some openPayments =>
        let totalPayments :=
          fold_left (fun sum p => (sum + (toNumber (p_amount p) ||| Fin 0))%num)
                    openPayments (Fin 0) in
        let paymentsByCompany :=
          fold_left
            (fun byCompany p =>
               set (company_key p)
                   ((toNumber (get (company_key p) byCompany) ||| Fin 0)
                    + toNumber (p_amount p))%num byCompany)
            openPayments [] in
        let maxCompanyShare := (maxl (values paymentsByCompany) / totalPayments)%num in
        [ ("totalPharmaPayments", totalPayments);
          ("pharmaPaymentCount", of_nat (List.length openPayments));
          ("uniquePharmaCompanies",
            of_nat (List.length (distinct opt_str_eqb (map p_company openPayments))));
          ("pharmaConcentration", (maxCompanyShare ||| Fin 0)%num);
          ("consultingPaymentRatio",
            (of_nat (count_if (fun p => (type_mentions p "consulting" || type_mentions p "speaking")%bool)
                           openPayments)
             / of_nat (List.length openPayments))%num) ]
    end in
  (billing ++ payments ++
   [ ("hasExclusionHistory", if excludedPreviously provider then of_Z 1 else of_Z 0);
     ("relatedPartyExcluded", if relatedPartyExcluded provider then of_Z 1 else of_Z 0) ])%list.

(** [if (cond) score += points]. *)
Definition add_if (cond : bool) (points : num) (score : num) : num :=
  if cond then (score + points)%num else score.

(** [calculateFraudScore(features, featureType)]; [None] is an omitted
    type, for which the default 'contractor' stands.  The weights looked
    up in [FEATURE_DEFINITIONS] are not used by the function. *)
Definition calculateFraudScore (features : object num) (featureType : option string) : num :=
  let featureType := match featureType with Some t => t | None => "contractor" end in
  let f name := toNumber (get name features) in
  let score := Fin 0 in
  let score :=
    if String.eqb featureType "contractor" then
      let score := add_if (f "concentrationIndex" >? dec 5 10)%num (of_Z 15) score in
      let score := add_if (f "agencyConcentration" >? dec 8 10)%num (of_Z 10) score in
      let score := add_if (f "yearOverYearGrowth" >? of_Z 2)%num (of_Z 15) score in
      let score := add_if (f "soleSourceRatio" >? dec 5 10)%num (of_Z 20) score in
      let score := (score + f "highRiskCategoryRatio" * of_Z 15)%num in
      let score := add_if (f "largeAwardRatio" >? dec 3 10)%num (of_Z 15) score in
      let score := add_if (f "defenseRatio" >? dec 7 10)%num (of_Z 5) score in
      score
    else score in
  let score :=
    if String.eqb featureType "healthcare" then
      let score := add_if (f "highComplexityRatio" >? dec 4 10)%num (of_Z 20) score in
      let score := add_if (f "avgServicesPerPatient" >? of_Z 10)%num (of_Z 15) score in
      let score := add_if (f "totalPharmaPayments" >? of_Z 50000)%num (of_Z 15) score in
      let score := add_if (f "totalPharmaPayments" >? of_Z 100000)%num (of_Z 10) score in
      let score := add_if (f "pharmaConcentration" >? dec 7 10)%num (of_Z 10) score in
      let score := add_if (f "consultingPaymentRatio" >? dec 3 10)%num (of_Z 10) score in
      let score := add_if (truthy_opt (get "hasExclusionHistory" features)) (of_Z 30) score in
      let score := add_if (truthy_opt (get "relatedPartyExcluded" features)) (of_Z 20) score in
      score
    else score in
  min2 score (of_Z 100).

End FeatureExtractor.

(* ================================================================== *)
(** ** JSON documents and the file system *)

Module Json.

(** A JavaScript value as [JSON.parse] builds them, with [undefined]
    for what a property read can give. *)
#[local] Set Warnings "-register-all".
Inductive jsval : Type :=
| JUndefined
| JNull
| JBool (b : bool)
| JNum (x : num)
| JStr (s : string)
| JArr (l : list jsval)
| JObj (props : list (string * jsval)).

(** [JSON.parse(JSON.stringify(v))]: a number that is not finite is
    written as [null], an [undefined] array element as [null], and a
    property whose value is [undefined] is left out.  A finite number
    is read back as itself. *)
Definition is_undefined (v : jsval) : bool :=
  match v with JUndefined => true | _ => false end.

Fixpoint reparse (v : jsval) : jsval :=
  match v with
  | JNum x => if isFinite x then JNum x else JNull
  | JArr l =>
      JArr (map (fun e => if is_undefined e then JNull else reparse e) l)
  | JObj props =>
      JObj (flat_map
              (fun kv : string * jsval =>
                 let (k, e) := kv in
                 if is_undefined e then [] else [(k, reparse e)])
              props)
  | _ => v
  end.

(** ToBoolean. *)
Definition truthy_js (v : jsval) : bool :=
  match v with
  | JUndefined | JNull => false
  | JBool b => b
  | JNum x => truthy x
  | JStr s => negb (String.eqb s "")
  | JArr _ | JObj _ => true
  end.

Inductive error : Type :=
| ENOENT
| EACCES
| SyntaxError
| TypeError.

(** The outcome of a call that may throw (or of a promise that may
    reject). *)
Inductive exc (A : Type) : Type :=
| OK (a : A)
| Throw (e : error).
Arguments OK {A} a.
Arguments Throw {A} e.

Definition bind {A B : Type} (m : exc A) (k : A -> exc B) : exc B :=
  match m with
  | OK a => k a
  | Throw e => Throw e
  end.

(** [v.k]: reading a property of [null] or [undefined] throws; a value
    that is not an object has none of the properties read here. *)
Definition prop (v : jsval) (k : string) : exc jsval :=
  match v with
  | JUndefined | JNull => Throw TypeError
  | JObj props => OK (match get k props with Some e => e | None => JUndefined end)
  | _ => OK JUndefined
  end.

(** [v?.k]. *)
Definition opt_prop (v : jsval) (k : string) : jsval :=
  match v with
  | JObj props => match get k props with Some e => e | None => JUndefined end
  | _ => JUndefined
  end.

(** The text of a file: either one [JSON.parse] rejects, or the text of
    the document [v], identified with the value it parses to. *)
Inductive text : Type :=
| Garbage
| Document (v : jsval).

(** [JSON.parse(t)]. *)
Definition parse (t : text) : exc jsval :=
  match t with
  | Garbage => Throw SyntaxError
  | Document v => OK v
  end.

(** [JSON.stringify(v)], for a value that is not [undefined]. *)
Definition stringify (v : jsval) : text := Document (reparse v).

(** The files by path, and the paths that can be written. *)
Record FS : Type := {
  content : string -> option text;
  writable : string -> bool
}.

(** [fs.readFile(path, 'utf-8')]. *)
Definition readFile (fs : FS) (path : string) : exc text :=
  match content fs path with
  | Some t => OK t
  | None => Throw ENOENT
  end.

(** [fs.writeFile(path, t)]: the file system afterwards. *)
Definition writeFile (fs : FS) (path : string) (t : text) : exc FS :=
  if writable fs path then
    OK {| content := fun p => if String.eqb p path then Some t else content fs p;
          writable := writable fs |}
  else Throw EACCES.

End Json.
Export Json.

Notation "x <- m ;; k" := (bind m (fun x => k))
  (at level 61, m at next level, right associativity).

(* ================================================================== *)
(** ** The detector (ml/models/fraud-detector.js) *)

(** A template literal: its text and the values it interpolates, with
    the formatting method applied to each. *)
Inductive piece : Type :=
| Txt (s : string)
| Val (x : num)
| Fixed (digits : nat) (x : num)
| Locale (x : num).

(** A risk factor pushed by a scorer. *)
Record Factor : Type := {
  type : string;
  description : list piece;
  contribution : num;
  severity : string
}.

(** The running [score] and [factors] of a scorer. *)
Definition Acc : Type := (num * list Factor)%type.

(** [if (cond) { score += contribution; factors.push(f) }]. *)
Definition push_if (cond : bool) (f : Factor) (acc : Acc) : Acc :=
  if cond then ((fst acc + contribution f)%num, (snd acc ++ [f])%list) else acc.

(** [factors.sort((a, b) => b.contribution - a.contribution)]. *)
Definition sort_factors (factors : list Factor) : list Factor :=
  sort_by (fun a b => (contribution b - contribution a)%num) factors.

Record ScoreResult : Type := {
  score : num;
  riskLevel : string;
  factors : list Factor;
  confidence : num
}.

(** [${Math.round(x * 100)}<text>]. *)
Definition percent_of (x : num) (text : string) : list piece :=
  [Val (round (x * of_Z 100)%num); Txt text].

Module FraudDetector.

(** One entry of [featureStats]. *)
Record FeatureStat : Type := {
  mean : num;
  std : num;
  s_min : num;
  s_max : num;
  median : num;
  p25 : num;
  p75 : num;
  p90 : num;
  p95 : num;
  s_count : nat
}.

(** One entry of [fraudPatterns.commonFactors]. *)
Record FraudPatternEntry : Type := {
  indicator : string;
  count : num;
  weight : num
}.

(** An entry of [byFraudType]; its [indicators] property is always the
    empty object. *)
Record FraudTypeAgg : Type := {
  ft_count : num;
  ft_totalAmount : num;
  ft_avgAmount : num
}.

(** An entry of [byIndustry]; its [fraudTypes] property is always the
    empty object. *)
Record IndustryAgg : Type := {
  in_count : num;
  in_totalAmount : num
}.

Record Patterns : Type := {
  byFraudType : object FraudTypeAgg;
  byIndustry : object IndustryAgg;
  indicators : object num;
  commonFactors : list FraudPatternEntry
}.

(** The instance state.  [fraudPatterns] is [None] for the empty object
    the constructor assigns. *)
Record t : Type := {
  trained : bool;
  featureStats : object FeatureStat;
  fraudPatterns : option Patterns;
  thresholds : object num;
  modelVersion : string
}.

(** [new FraudDetector()]. *)
Definition constructor : t := {|
  trained := false;
  featureStats := [];
  fraudPatterns := None;
  thresholds := [];
  modelVersion := "1.0.0"
|}.

(** A record of the training data; [features] is [None] when the
    property is missing.  Every value of a feature object is a number. *)
Record TrainingRecord : Type := {
  features : option (object num)
}.

(** A known fraud case. *)
Record FraudCase : Type := {
  fraud_type : option (list string);
  industry : option string;
  amount : option num;
  fc_indicators : option (list string)
}.

(** [sorted[Math.floor(x)]]; the index is within the array at every
    use, the array holding at least one value. *)
Definition at_floor (sorted : list num) (x : num) : num :=
  match to_index x with
  | Some i => nth i sorted NaN
  | None => NaN
  end.

Section Training.
(** [Math.sqrt] on the finite non-negative numbers. *)
Variable sqrt_fin : Q -> Q.

(** The first loop of [calculateFeatureStats]: the values of each
    feature, in the order met. *)
Definition collectFeatureValues (data : list TrainingRecord) : object (list num) :=
  fold_left
    (fun featureValues record =>
       match features record with
       | Some fs =>
           fold_left
             (fun featureValues kv =>
                let '(key, value) := kv in
                let seen := match get key featureValues with Some l => l | None => [] end in
                set key (seen ++ [value])%list featureValues)
             fs featureValues
       | None => featureValues
       end)
    data [].

(** The body of the second loop of [calculateFeatureStats]. *)
Definition statsOf (values : list num) : FeatureStat :=
  let n := List.length values in
  let mean := (total values / of_nat n)%num in
  let variance :=
    (fold_left (fun sum v => (sum + pow2 (v - mean))%num) values (Fin 0) / of_nat n)%num in
  let sorted := sort_by (fun a b => (a - b)%num) values in
  {| mean := mean;
     std := Num.sqrt sqrt_fin variance;
     s_min := nth 0 sorted NaN;
     s_max := nth (n - 1) sorted NaN;
     median := at_floor sorted (of_nat n / of_Z 2)%num;
     p25 := at_floor sorted (of_nat n * dec 1 4)%num;
     p75 := at_floor sorted (of_nat n * dec 3 4)%num;
     p90 := at_floor sorted (of_nat n * dec 9 10)%num;
     p95 := at_floor sorted (of_nat n * dec 95 100)%num;
     s_count := n |}.

(** [calculateFeatureStats(data)]. *)
Definition calculateFeatureStats (data : list TrainingRecord) : object FeatureStat :=
  fold_left (fun stats kv => set (fst kv) (statsOf (snd kv)) stats)
            (collectFeatureValues data) [].

(** [fc.amount || 0]. *)
Definition amount_or_0 (fc : FraudCase) : num := (toNumber (amount fc) ||| Fin 0)%num.

(** The tallying loop of [learnFraudPatterns] for one case. *)
Definition tallyCase (patterns : Patterns) (fc : FraudCase) : Patterns :=
  let byFraudType :=
    fold_left
      (fun byFraudType ft =>
         let cur :=
           match get ft byFraudType with
           | Some e => e
           | None => {| ft_count := Fin 0; ft_totalAmount := Fin 0; ft_avgAmount := Fin 0 |}
           end in
         set ft {| ft_count := (ft_count cur + of_Z 1)%num;
                   ft_totalAmount := (ft_totalAmount cur + amount_or_0 fc)%num;
                   ft_avgAmount := ft_avgAmount cur |} byFraudType)
      (match fraud_type fc with Some l => l | None => [] end)
      (byFraudType patterns) in
  let industry := str_or (industry fc) "unknown" in
  let cur :=
    match get industry (byIndustry patterns) with
    | Some e => e
    | None => {| in_count := Fin 0; in_totalAmount := Fin 0 |}
    end in
  let byIndustry :=
    set industry {| in_count := (in_count cur + of_Z 1)%num;
                    in_totalAmount := (in_totalAmount cur + amount_or_0 fc)%num |}
        (byIndustry patterns) in
  let indicators :=
    fold_left
      (fun indicators ind =>
         set ind ((toNumber (get ind indicators) ||| Fin 0) + of_Z 1)%num indicators)
      (match fc_indicators fc with Some l => l | None => [] end)
      (indicators patterns) in
  {| byFraudType := byFraudType;
     byIndustry := byIndustry;
     indicators := indicators;
     commonFactors := commonFactors patterns |}.

(** [learnFraudPatterns(knownFraudCases)]. *)
Definition learnFraudPatterns (knownFraudCases : list FraudCase) : Patterns :=
  let patterns :=
    fold_left tallyCase knownFraudCases
      {| byFraudType := []; byIndustry := []; indicators := []; commonFactors := [] |} in
  let byFraudType :=
    map (fun kv =>
           (fst kv,
            {| ft_count := ft_count (snd kv);
               ft_totalAmount := ft_totalAmount (snd kv);
               ft_avgAmount := (ft_totalAmount (snd kv) / ft_count (snd kv))%num |}))
        (byFraudType patterns) in
  let ranked :=
    firstn 20 (sort_by (fun a b => (snd b - snd a)%num) (indicators patterns)) in
  {| byFraudType := byFraudType;
     byIndustry := byIndustry patterns;
     indicators := indicators patterns;
     commonFactors :=
       map (fun kv =>
              {| indicator := fst kv;
                 count := snd kv;
                 weight := (snd kv / of_nat (List.length knownFraudCases))%num |})
           ranked |}.

(** [optimizeThresholds(trainingData, knownFraudCases)]: the table does
    not depend on the arguments. *)
Definition optimizeThresholds : object num :=
  [ ("largeAwardMultiple", of_Z 3);
    ("growthRateAnomaly", of_Z 2);
    ("agencyConcentration", dec 8 10);
    ("soleSourceRatio", dec 5 10);
    ("billingZScore", of_Z 2);
    ("highComplexityRatio", dec 4 10);
    ("pharmaPaymentHigh", of_Z 50000);
    ("pharmaPaymentVeryHigh", of_Z 100000);
    ("lowRiskMax", of_Z 25);
    ("mediumRiskMax", of_Z 50);
    ("highRiskMin", of_Z 50);
    ("zScoreThreshold", dec 25 10);
    ("isolationThreshold", dec 6 10) ].

(** [train(trainingData, knownFraudCases)]: the instance afterwards. *)
Definition train (this : t) (trainingData : list TrainingRecord)
    (knownFraudCases : list FraudCase) : t :=
  {| trained := true;
     featureStats := calculateFeatureStats trainingData;
     fraudPatterns := Some (learnFraudPatterns knownFraudCases);
     thresholds := optimizeThresholds;
     modelVersion := modelVersion this |}.
End Training.

Section Scoring.
Variable this : t.

(** [this.thresholds.<name>] as a comparison operand. *)
Definition threshold (name : string) : num := toNumber (get name (thresholds this)).

(** [getRiskLevel(score)]. *)
Definition getRiskLevel (score : num) : string :=
  if (score >=? threshold "highRiskMin")%num then "High"
  else if (score >=? threshold "lowRiskMax")%num then "Medium"
  else "Low".

(** [calculateConfidence(features)]; every value of a feature object is
    a number, so no key is filtered out. *)
Definition calculateConfidence (features : object num) : num :=
  let featureCount := List.length (keys features) in
  let expectedFeatures := of_Z 10 in
  let dataCompleteness := min2 (of_nat featureCount / expectedFeatures)%num (of_Z 1) in
  let baseConfidence := if trained this then dec 85 100 else dec 70 100 in
  (round ((baseConfidence * dataCompleteness) * of_Z 100) / of_Z 100)%num.

(** [defaultContractorScoring(features)]. *)
Definition defaultContractorScoring (features : object num) : ScoreResult :=
  let f name := toNumber (get name features) in
  let acc : Acc := (Fin 0, []) in
  let acc :=
    let contribution := round (f "largeAwardRatio" * of_Z 30)%num in
    push_if (f "largeAwardRatio" >? dec 3 10)%num
      {| type := "LARGE_AWARD_CONCENTRATION";
         description := percent_of (f "largeAwardRatio") "% of awards significantly above average";
         contribution := contribution;
         severity := if (contribution >? of_Z 15)%num then "high" else "medium" |} acc in
  let acc :=
    push_if (f "agencyConcentration" >? dec 8 10)%num
      {| type := "AGENCY_CONCENTRATION";
         description := percent_of (f "agencyConcentration") "% from single agency";
         contribution := of_Z 10;
         severity := "low" |} acc in
  let acc :=
    let contribution := round (f "soleSourceRatio" * of_Z 25)%num in
    push_if (f "soleSourceRatio" >? dec 5 10)%num
      {| type := "HIGH_SOLE_SOURCE";
         description := percent_of (f "soleSourceRatio") "% sole source contracts";
         contribution := contribution;
         severity := "medium" |} acc in
  let acc :=
    let contribution :=
      min2 (round ((f "yearOverYearGrowth" - of_Z 1) * of_Z 15)%num) (of_Z 25) in
    push_if (f "yearOverYearGrowth" >? of_Z 2)%num
      {| type := "RAPID_GROWTH";
         description := percent_of (f "yearOverYearGrowth") "% year-over-year growth";
         contribution := contribution;
         severity := if (contribution >? of_Z 15)%num then "high" else "medium" |} acc in
  let acc :=
    let contribution := round (f "highRiskCategoryRatio" * of_Z 20)%num in
    push_if (f "highRiskCategoryRatio" >? dec 3 10)%num
      {| type := "HIGH_RISK_CATEGORY";
         description := percent_of (f "highRiskCategoryRatio") "% in high-risk categories";
         contribution := contribution;
         severity := "low" |} acc in
  let acc :=
    push_if (f "defenseRatio" >? dec 7 10)%num
      {| type := "DEFENSE_CONCENTRATION";
         description := [Txt "Primarily defense contracts (historically higher fraud rates)"];
         contribution := of_Z 5;
         severity := "low" |} acc in
  let score := min2 (round (fst acc)) (of_Z 100) in
  {| score := score;
     riskLevel := getRiskLevel score;
     factors := snd acc;
     confidence := dec 7 10 |}.

(** The body of the loop of [detectAnomalies] for one entry of
    [features]. *)
Definition anomalyStep (acc : Acc) (kv : string * num) : Acc :=
  let '(key, value) := kv in
  match get key (featureStats this) with
  | None => acc
  | Some stats =>
      let zScore := ((value - mean stats) / (std stats ||| of_Z 1))%num in
      let contribution := min2 (round (abs zScore * of_Z 5)%num) (of_Z 15) in
      push_if (abs zScore >? threshold "zScoreThreshold")%num
        {| type := "STATISTICAL_ANOMALY";
           description := [Txt key; Txt ": "; Fixed 2 value; Txt " is ";
                           Fixed 1 zScore; Txt " std devs from mean"];
           contribution := contribution;
           severity := if (abs zScore >? of_Z 3)%num then "high" else "medium" |} acc
  end.

(** [detectAnomalies(features, type)]. *)
Definition detectAnomalies (features : object num) : Acc :=
  fold_left anomalyStep features (Fin 0, []).

(** The body of the loop of [matchFraudPatterns] for one common
    factor. *)
Definition patternStep (features : object num) (acc : Acc) (factor : FraudPatternEntry) : Acc :=
  let indicatorKey := replace_spaces (toLowerCase (indicator factor)) in
  let contribution := round (weight factor * of_Z 20)%num in
  push_if (truthy_opt (get indicatorKey features)
           && (toNumber (get indicatorKey features) >? Fin 0)%num)%bool
    {| type := "FRAUD_PATTERN_MATCH";
       description := [Txt "Matches known fraud indicator: "; Txt (indicator factor)];
       contribution := contribution;
       severity := if (weight factor >? dec 3 10)%num then "high" else "medium" |} acc.

(** [matchFraudPatterns(features, type)]. *)
Definition matchFraudPatterns (features : object num) : Acc :=
  match fraudPatterns this with
  | Some patterns => fold_left (patternStep features) (commonFactors patterns) (Fin 0, [])
  | None => (Fin 0, [])
  end.

(** [applyContractorRules(features)]. *)
Definition applyContractorRules (features : object num) : Acc := (Fin 0, []).

(** [scoreContractor(features)]. *)
Definition scoreContractor (features : object num) : ScoreResult :=
  if (negb (trained this) && Nat.eqb (List.length (keys (featureStats this))) 0)%bool then
    defaultContractorScoring features
  else
    let score := Fin 0 in
    let factors : list Factor := [] in
    let anomalyScore := detectAnomalies features in
    let score := (score + fst anomalyScore)%num in
    let factors := (factors ++ snd anomalyScore)%list in
    let patternScore := matchFraudPatterns features in
    let score := (score + fst patternScore)%num in
    let factors := (factors ++ snd patternScore)%list in
    let ruleScore := applyContractorRules features in
    let score := (score + fst ruleScore)%num in
    let factors := (factors ++ snd ruleScore)%list in
    let score := min2 (round score) (of_Z 100) in
    {| score := score;
       riskLevel := getRiskLevel score;
       factors := sort_factors factors;
       confidence := calculateConfidence features |}.

(** [scoreHealthcareProvider(features)]. *)
Definition scoreHealthcareProvider (features : object num) : ScoreResult :=
  let f name := toNumber (get name features) in
  let acc : Acc := (Fin 0, []) in
  let acc :=
    let contribution := round ((f "highComplexityRatio" - dec 2 10) * of_Z 40)%num in
    push_if (f "highComplexityRatio" >? threshold "highComplexityRatio")%num
      {| type := "HIGH_COMPLEXITY_BILLING";
         description := percent_of (f "highComplexityRatio") "% high complexity codes";
         contribution := contribution;
         severity := if (contribution >? of_Z 15)%num then "high" else "medium" |} acc in
  let acc :=
    let contribution :=
      if (f "totalPharmaPayments" >? threshold "pharmaPaymentVeryHigh")%num
      then of_Z 25 else of_Z 15 in
    push_if (f "totalPharmaPayments" >? threshold "pharmaPaymentHigh")%num
      {| type := "HIGH_PHARMA_PAYMENTS";
         description := [Txt "$"; Locale (f "totalPharmaPayments");
                         Txt " in pharmaceutical payments"];
         contribution := contribution;
         severity := if (contribution >? of_Z 15)%num then "high" else "medium" |} acc in
  let acc :=
    push_if (f "pharmaConcentration" >? dec 7 10)%num
      {| type := "PHARMA_CONCENTRATION";
         description := percent_of (f "pharmaConcentration") "% payments from single company";
         contribution := of_Z 10;
         severity := "medium" |} acc in
  let acc :=
    push_if (truthy_opt (get "hasExclusionHistory" features))
      {| type := "PRIOR_EXCLUSION";
         description := [Txt "Provider has prior exclusion history"];
         contribution := of_Z 30;
         severity := "high" |} acc in
  let acc :=
    push_if (truthy_opt (get "relatedPartyExcluded" features))
      {| type := "RELATED_PARTY_EXCLUDED";
         description := [Txt "Related party has been excluded"];
         contribution := of_Z 20;
         severity := "high" |} acc in
  let acc :=
    push_if (f "avgServicesPerPatient" >? of_Z 10)%num
      {| type := "HIGH_SERVICE_VOLUME";
         description := [Fixed 1 (f "avgServicesPerPatient");
                         Txt " services per patient (above average)"];
         contribution := of_Z 15;
         severity := "medium" |} acc in
  let score := min2 (round (fst acc)) (of_Z 100) in
  {| score := score;
     riskLevel := getRiskLevel score;
     factors := snd acc;
     confidence := calculateConfidence features |}.

(** The object literal [modelData] of [save], [now] being
    [new Date().toISOString()]. *)
Definition js_stat (st : FeatureStat) : jsval :=
  JObj [ ("mean", JNum (mean st)); ("std", JNum (std st));
         ("min", JNum (s_min st)); ("max", JNum (s_max st));
         ("median", JNum (median st));
         ("p25", JNum (p25 st)); ("p75", JNum (p75 st));
         ("p90", JNum (p90 st)); ("p95", JNum (p95 st));
         ("count", JNum (of_nat (s_count st))) ].

Definition js_featureStats (stats : object FeatureStat) : jsval :=
  JObj (map (fun kv => (fst kv, js_stat (snd kv))) stats).

Definition js_entry (e : FraudPatternEntry) : jsval :=
  JObj [ ("indicator", JStr (indicator e)); ("count", JNum (count e));
         ("weight", JNum (weight e)) ].

Definition js_fraudPatterns (patterns : option Patterns) : jsval :=
  match patterns with
  | None => JObj []
  | Some p =>
      JObj [ ("byFraudType",
               JObj (map (fun kv =>
                            (fst kv,
                             JObj [ ("count", JNum (ft_count (snd kv)));
                                    ("totalAmount", JNum (ft_totalAmount (snd kv)));
                                    ("avgAmount", JNum (ft_avgAmount (snd kv)));
                                    ("indicators", JObj []) ]))
                         (byFraudType p)));
             ("byIndustry",
               JObj (map (fun kv =>
                            (fst kv,
                             JObj [ ("count", JNum (in_count (snd kv)));
                                    ("totalAmount", JNum (in_totalAmount (snd kv)));
                                    ("fraudTypes", JObj []) ]))
                         (byIndustry p)));
             ("indicators", JObj (map (fun kv => (fst kv, JNum (snd kv))) (indicators p)));
             ("commonFactors", JArr (map js_entry (commonFactors p))) ]
  end.

Definition js_thresholds (table : object num) : jsval :=
  JObj (map (fun kv => (fst kv, JNum (snd kv))) table).

Definition modelData (now : string) : jsval :=
  JObj [ ("version", JStr (modelVersion this));
         ("trained", JBool (trained this));
         ("featureStats", js_featureStats (featureStats this));
         ("fraudPatterns", js_fraudPatterns (fraudPatterns this));
         ("thresholds", js_thresholds (thresholds this));
         ("savedAt", JStr now) ].

(** [save(filepath)]: the file system afterwards, unless the write is
    rejected. *)
Definition save (fs : FS) (filepath : string) (now : string) : exc FS :=
  writeFile fs filepath (stringify (modelData now)).
End Scoring.

(** The properties of an instance after [load]: the parsed values, as
    they were read from the document. *)
Record Loaded : Type := {
  l_modelVersion : jsval;
  l_trained : jsval;
  l_featureStats : jsval;
  l_fraudPatterns : jsval;
  l_thresholds : jsval
}.

(** [load(filepath)]. *)
Definition load (fs : FS) (filepath : string) : exc Loaded :=
  txt <- readFile fs filepath ;;
  data <- parse txt ;;
  version <- prop data "version" ;;
  trained <- prop data "trained" ;;
  featureStats <- prop data "featureStats" ;;
  fraudPatterns <- prop data "fraudPatterns" ;;
  thresholds <- prop data "thresholds" ;;
  OK {| l_modelVersion := version;
        l_trained := trained;
        l_featureStats := featureStats;
        l_fraudPatterns := fraudPatterns;
        l_thresholds := thresholds |}.

End FraudDetector.

(* ================================================================== *)
(** ** Normalisation (normalizeFeatures of ml/training/feature-extractor.js) *)

(** The function stands here because its [stats] argument has the shape
    of the detector's profile, of which it reads [mean], [std], [min]
    and [max]. *)
Module Normalizer.

Section Normalize.
(** [Math.log1p] on the finite numbers above -1. *)
Variable log1p_fin : Q -> Q.

(** The value stored for one entry.  Every value of a feature object
    is a number, so the branch for other values is not taken. *)
Definition normalizeValue (method : string) (stats : option (object FraudDetector.FeatureStat))
    (key : string) (value : num) : num :=
  let entry := match stats with Some stats => get key stats | None => None end in
  if String.eqb method "log" then log1p log1p_fin value
  else if String.eqb method "zscore" then
    match entry with
    | Some st =>
        ((value - FraudDetector.mean st) / (FraudDetector.std st ||| of_Z 1))%num
    | None => value
    end
  else if String.eqb method "minmax" then
    match entry with
    | Some st =>
        let range := ((FraudDetector.s_max st - FraudDetector.s_min st) ||| of_Z 1)%num in
        ((value - FraudDetector.s_min st) / range)%num
    | None => value
    end
  else value.

(** [normalizeFeatures(features, method, stats)]; [None] is an omitted
    method, for which the default 'minmax' stands, and a null or omitted
    [stats]. *)
Definition normalizeFeatures (features : object num) (method : option string)
    (stats : option (object FraudDetector.FeatureStat)) : object num :=
  let method := match method with Some m => m | None => "minmax" end in
  fold_left
    (fun normalized kv =>
       set (fst kv) (normalizeValue method stats (fst kv) (snd kv)) normalized)
    features [].
End Normalize.

End Normalizer.

(* ================================================================== *)
(** ** The scoring route (app/api/ml/score/route.js) *)

Module Route.

(** [MODEL_PATH], relative to the working directory of the process. *)
Definition MODEL_PATH : string := "src/ml/models/fraud-detector-trained.json".

(** [loadModel()], threading the module variable [modelData]: the
    variable afterwards and the value returned. *)
Definition loadModel (fs : FS) (modelData : jsval) : jsval * jsval :=
  if truthy_js modelData then (modelData, modelData)
  else
    match (data <- readFile fs MODEL_PATH ;; parse data) with
    | OK parsed => (parsed, parsed)
    | Throw _ => (modelData, JNull)
    end.

Definition highRiskKeywords : list string :=
  ["consulting"; "advisory"; "professional services";
   "it services"; "software"; "support"; "sole source"].

(** [extractFeatures(contracts)]; [None] is a null or undefined
    argument. *)
Definition extractFeatures (contracts : option (list Award)) : object num :=
  match contracts with
  | None | Some [] => []
  | Some contracts =>
      let amounts := map amount_of contracts in
      let totalAwarded := total amounts in
      let avgAward := (totalAwarded / of_nat (List.length amounts))%num in
      let agencyCounts := count_agencies contracts in
      let maxAgencyShare :=
        (maxl (values agencyCounts) / of_nat (List.length contracts))%num in
      let byYear :=
        fold_left
          (fun byYear c =>
             match Start_Date c with
             | Some date =>
                 if String.eqb date "" then byYear
                 else
                   let year := String.substring 0 4 date in
                   set year ((toNumber (get year byYear) ||| Fin 0) + amount_of c)%num byYear
             | None => byYear
             end)
          contracts [] in
      let years := sort_strings (keys byYear) in
      let growthRate :=
        if Nat.leb 2 (List.length years) then
          let lastYear :=
            (toNumber (get (nth (List.length years - 1) years "") byYear) ||| Fin 0)%num in
          let prevYear :=
            (toNumber (get (nth (List.length years - 2) years "") byYear) ||| of_Z 1)%num in
          (lastYear / prevYear)%num
        else of_Z 1 in
      let highRiskCount :=
        count_if (fun c => includes_some (toLowerCase (str_or (Description c) "")) highRiskKeywords)
                 contracts in
      let defenseCount :=
        count_if (fun c => agency_is_defense (toLowerCase (str_or (Awarding_Agency c) "")))
                 contracts in
      let healthcareCount :=
        count_if (fun c =>
                    let agency := toLowerCase (str_or (Awarding_Agency c) "") in
                    let desc := toLowerCase (str_or (Description c) "") in
                    (includes agency "health" || includes desc "health"
                     || includes desc "medical")%bool)
                 contracts in
      let largeAwardThreshold := (avgAward * of_Z 3)%num in
      let largeAwardCount := count_if (fun a => (a >? largeAwardThreshold)%num) amounts in
      let ratio n := (of_nat n / of_nat (List.length contracts))%num in
      [ ("totalAwarded", totalAwarded);
        ("avgAward", avgAward);
        ("awardCount", of_nat (List.length contracts));
        ("agencyConcentration", maxAgencyShare);
        ("yearOverYearGrowth", growthRate);
        ("highRiskCategoryRatio", ratio highRiskCount);
        ("defenseRatio", ratio defenseCount);
        ("healthcareRatio", ratio healthcareCount);
        ("largeAwardRatio", ratio largeAwardCount);
        ("soleSourceRatio",
          ratio (count_if (fun c => includes (toLowerCase (str_or (Description c) "")) "sole source")
                          contracts)) ]
  end.

(** What [scoreContractor] returns. *)
Record Result : Type := {
  score : num;
  riskLevel : string;
  factors : list Factor;
  modelVersion : jsval;
  confidence : num
}.

(** The thresholds used when the model has none. *)
Definition defaultThresholds : jsval :=
  JObj [ ("largeAwardMultiple", JNum (of_Z 3));
         ("growthRateAnomaly", JNum (of_Z 2));
         ("agencyConcentration", JNum (dec 8 10));
         ("soleSourceRatio", JNum (dec 5 10));
         ("lowRiskMax", JNum (of_Z 25));
         ("mediumRiskMax", JNum (of_Z 50));
         ("highRiskMin", JNum (of_Z 50)) ].

Section Scoring.
(** ToNumber on a string, an array or an object, which the number
    grammar and [Array.prototype.join] decide. *)
Variable ToNumber_other : jsval -> num.

(** ToNumber. *)
Definition ToNumber (v : jsval) : num :=
  match v with
  | JUndefined => NaN
  | JNull => Fin 0
  | JBool b => if b then of_Z 1 else Fin 0
  | JNum x => x
  | _ => ToNumber_other v
  end.

(** The body of the loop over the learned patterns, for the element
    [factor] of the sliced array. *)
Definition patternStep (features : object num) (acc : Acc) (factor : jsval) : exc Acc :=
  indicator <- prop factor "indicator" ;;
  match indicator with
  | JStr indicator =>
      let featureKey := replace_spaces (toLowerCase indicator) in
      let weight := ToNumber (opt_prop factor "weight") in
      let contribution := round (weight * of_Z 15)%num in
      OK (push_if (truthy_opt (get featureKey features)
                   && (toNumber (get featureKey features) >? dec 5 10)%num)%bool
            {| type := "PATTERN_MATCH";
               description := [Txt "Matches known fraud pattern: "; Txt indicator];
               contribution := contribution;
               severity := if (weight >? dec 3 10)%num then "high" else "medium" |} acc)
  | _ => Throw TypeError
  end.

(** [scoreContractor(features, model)]. *)
Definition scoreContractor (features : object num) (model : jsval) : exc Result :=
  let f name := toNumber (get name features) in
  let thresholds :=
    if truthy_js (opt_prop model "thresholds") then opt_prop model "thresholds"
    else defaultThresholds in
  let threshold name := ToNumber (opt_prop thresholds name) in
  let acc : Acc := (Fin 0, []) in
  let acc :=
    let contribution := round (f "largeAwardRatio" * of_Z 30)%num in
    push_if (f "largeAwardRatio" >? dec 3 10)%num
      {| type := "LARGE_AWARD_CONCENTRATION";
         description := percent_of (f "largeAwardRatio") "% of awards significantly above average";
         contribution := contribution;
         severity := if (contribution >? of_Z 15)%num then "high" else "medium" |} acc in
  let acc :=
    push_if (f "agencyConcentration" >? threshold "agencyConcentration")%num
      {| type := "AGENCY_CONCENTRATION";
         description := percent_of (f "agencyConcentration") "% from single agency";
         contribution := of_Z 10;
         severity := "low" |} acc in
  let acc :=
    let contribution := round (f "soleSourceRatio" * of_Z 25)%num in
    push_if (f "soleSourceRatio" >? threshold "soleSourceRatio")%num
      {| type := "HIGH_SOLE_SOURCE";
         description := percent_of (f "soleSourceRatio") "% sole source contracts";
         contribution := contribution;
         severity := "medium" |} acc in
  let acc :=
    let contribution :=
      min2 (round ((f "yearOverYearGrowth" - of_Z 1) * of_Z 15)%num) (of_Z 25) in
    push_if (f "yearOverYearGrowth" >? threshold "growthRateAnomaly")%num
      {| type := "RAPID_GROWTH";
         description := percent_of (f "yearOverYearGrowth") "% year-over-year growth";
         contribution := contribution;
         severity := if (contribution >? of_Z 15)%num then "high" else "medium" |} acc in
  let acc :=
    let contribution := round (f "highRiskCategoryRatio" * of_Z 20)%num in
    push_if (f "highRiskCategoryRatio" >? dec 3 10)%num
      {| type := "HIGH_RISK_CATEGORY";
         description := percent_of (f "highRiskCategoryRatio")
                          "% in high-risk categories (consulting, IT, etc.)";
         contribution := contribution;
         severity := "medium" |} acc in
  let acc :=
    push_if (f "defenseRatio" >? dec 7 10)%num
      {| type := "DEFENSE_CONCENTRATION";
         description := [Txt "Primarily defense contracts (historically higher fraud rates)"];
         contribution := of_Z 5;
         severity := "low" |} acc in
  let acc :=
    push_if (f "healthcareRatio" >? dec 5 10)%num
      {| type := "HEALTHCARE_CONCENTRATION";
         description := [Txt "Significant healthcare contracts (subject to FCA)"];
         contribution := of_Z 10;
         severity := "medium" |} acc in
  acc <-
    (let commonFactors := opt_prop (opt_prop model "fraudPatterns") "commonFactors" in
     if truthy_js commonFactors then
       match commonFactors with
       | JArr l =>
           fold_left (fun acc factor => a <- acc ;; patternStep features a factor)
                     (firstn 5 l) (OK acc)
       | _ => Throw TypeError
       end
     else OK acc) ;;
  let score := min2 (round (fst acc)) (of_Z 100) in
  let riskLevel :=
    if (score >=? threshold "highRiskMin")%num then "High"
    else if (score >=? threshold "lowRiskMax")%num then "Medium"
    else "Low" in
  OK {| score := score;
        riskLevel := riskLevel;
        factors := sort_factors (snd acc);
        modelVersion :=
          if truthy_js (opt_prop model "version") then opt_prop model "version"
          else JStr "default";
        confidence :=
          if truthy_js (opt_prop model "trained") then dec 85 100 else dec 70 100 |}.
End Scoring.




Section Handlers.
Variable ToNumber_other : jsval -> num.

End Handlers.


End Route.

(* ================================================================== *)
(** ** The training script (ml/training/train-model.js) *)

Module TrainModel.

(** A row of the contractor data: its recipient and the award fields
    the extractor reads. *)
Record Row : Type := {
  Recipient_Name : option string;
  award : Award
}.

(** An exclusion record, as far as the script reads it. *)
Record Exclusion : Type := {
  ex_name : option string;
  ex_features : option (object num)
}.

(** An entry of the training features. *)
Record TrainingFeature : Type := {
  tf_type : string;
  tf_name : option string;
  tf_features : object num;
  isFraud : bool
}.

(** [generateSampleExclusionData()]; the specialty, state and exclusion
    type of the samples are read by no function. *)
Definition generateSampleExclusionData : list Exclusion :=
  [ {| ex_name := Some "Sample Provider 1";
       ex_features := Some [ ("specialtyRisk", of_Z 3); ("exclusionSeverity", of_Z 5) ] |};
    {| ex_name := Some "Sample Provider 2";
       ex_features := Some [ ("specialtyRisk", of_Z 3); ("exclusionSeverity", of_Z 5) ] |};
    {| ex_name := Some "Sample Provider 3";
       ex_features := Some [ ("specialtyRisk", of_Z 3); ("exclusionSeverity", of_Z 3) ] |};
    {| ex_name := Some "Sample Provider 4";
       ex_features := Some [ ("specialtyRisk", of_Z 2); ("exclusionSeverity", of_Z 5) ] |};
    {| ex_name := Some "Sample Provider 5";
       ex_features := Some [ ("specialtyRisk", of_Z 3); ("exclusionSeverity", of_Z 5) ] |} ].

(** The grouping loop of [extractAllFeatures]. *)
Definition groupByRecipient (contractorData : list Row) : object (list Row) :=
  fold_left
    (fun byRecipient c =>
       let name := str_or (Recipient_Name c) "Unknown" in
       let seen := match get name byRecipient with Some l => l | None => [] end in
       set name (seen ++ [c])%list byRecipient)
    contractorData [].

(** [createFeaturesFromIndicators(indicators)]. *)
Definition createFeaturesFromIndicators (indicators : list string) : object num :=
  let features : object num :=
    [ ("largeAwardRatio", Fin 0);
      ("agencyConcentration", Fin 0);
      ("soleSourceRatio", Fin 0);
      ("yearOverYearGrowth", of_Z 1);
      ("highRiskCategoryRatio", Fin 0);
      ("defenseRatio", Fin 0) ] in
  fold_left
    (fun features ind =>
       let indLower := toLowerCase ind in
       let features :=
         if (includes indLower "rapid" || includes indLower "growth")%bool
         then set "yearOverYearGrowth" (dec 25 10) features else features in
       let features :=
         if (includes indLower "sole" || includes indLower "source")%bool
         then set "soleSourceRatio" (dec 7 10) features else features in
       let features :=
         if (includes indLower "concentration" || includes indLower "single")%bool
         then set "agencyConcentration" (dec 9 10) features else features in
       let features :=
         if (includes indLower "large" || includes indLower "overrun")%bool
         then set "largeAwardRatio" (dec 5 10) features else features in
       let features :=
         if (includes indLower "consult" || includes indLower "it "
             || includes indLower "software")%bool
         then set "highRiskCategoryRatio" (dec 6 10) features else features in
       features)
    indicators features.

(** What [validateModel] returns; a range is its [min] and [max]. *)
Record Validation : Type := {
  truePositiveRate : num;
  avgFraudScore : num;
  avgNormalScore : num;
  fraudScoreRange : num * num;
  normalScoreRange : num * num
}.

Section Script.
(** [Math.sqrt] on the finite non-negative numbers. *)
Variable sqrt_fin : Q -> Q.

(** [extractAllFeatures(contractorData, exclusionsData)]. *)
Definition extractAllFeatures (contractorData : list Row) (exclusionsData : list Exclusion)
    : list TrainingFeature :=
  let contractors :=
    if Nat.ltb 0 (List.length contractorData) then
      map (fun entry : string * list Row =>
             let (name, awards) := entry in
             {| tf_type := "contractor";
                tf_name := Some name;
                tf_features :=
                  FeatureExtractor.extractContractorFeatures sqrt_fin (map award awards);
                isFraud := false |})
          (groupByRecipient contractorData)
    else [] in
  (contractors ++
   map (fun exc =>
          {| tf_type := "healthcare";
             tf_name := ex_name exc;
             tf_features := match ex_features exc with Some f => f | None => [] end;
             isFraud := true |})
       exclusionsData)%list.

(** [scores.length > 0 ? scores.reduce((a, b) => a + b, 0) / scores.length : 0]. *)
Definition average (scores : list num) : num :=
  if Nat.ltb 0 (List.length scores) then (total scores / of_nat (List.length scores))%num
  else Fin 0.

(** [validateModel(model, knownFraudCases, normalCases)]. *)
Definition validateModel (model : FraudDetector.t)
    (knownFraudCases : list FraudDetector.FraudCase) (normalCases : list Row) : Validation :=
  let fraudResults :=
    map (fun fc =>
           FraudDetector.scoreContractor model
             (createFeaturesFromIndicators
                (match FraudDetector.fc_indicators fc with Some l => l | None => [] end)))
        knownFraudCases in
  let fraudScores := map score fraudResults in
  let truePositives :=
    count_if (fun result => (String.eqb (riskLevel result) "High"
                             || String.eqb (riskLevel result) "Medium")%bool)
             fraudResults in
  let normalScores :=
    map (fun nc =>
           score (FraudDetector.scoreContractor model
                    (FeatureExtractor.extractContractorFeatures sqrt_fin [award nc])))
        (firstn 50 normalCases) in
  {| truePositiveRate :=
       if Nat.ltb 0 (List.length knownFraudCases)
       then (of_nat truePositives / of_nat (List.length knownFraudCases))%num
       else Fin 0;
     avgFraudScore := average fraudScores;
     avgNormalScore := average normalScores;
     fraudScoreRange := (minl fraudScores, maxl fraudScores);
     normalScoreRange := (minl normalScores, maxl normalScores) |}.
End Script.

End TrainModel.

(* ================================================================== *)
(** ** Predicates and reference definitions used by the statements *)

Module FD := FraudDetector.

(** A number that is neither NaN nor -Infinity. *)
Definition ext (x : num) : Prop :=
  match x with
  | PInf | Fin _ => True
  | _ => False
  end.

(** A number that is at least 0. *)
Definition nonneg (x : num) : Prop :=
  match x with
  | PInf => True
  | Fin q => 0 <= q
  | _ => False
  end.

(** Every learned pattern has a weight that is at least 0, as a
    frequency divided by a number of cases is. *)
Definition weights_nonneg (this : FD.t) : bool :=
  match FD.fraudPatterns this with
  | Some p => forallb (fun e => (Fin 0 <=? FD.weight e)%num)
                      (FD.commonFactors p)
  | None => true
  end.

(** The high-complexity cutoff of the table is not below 3/16, the
    ratio from which [Math.round((ratio - 0.2) * 40)] is at least 0; an
    absent cutoff qualifies. *)
Definition complexity_cutoff_ok (this : FD.t) : bool :=
  negb (FD.threshold this "highComplexityRatio" <? dec 3 16)%num.

(** An instance of [Math.sqrt] on the finite numbers, exact on the
    squares of integers, with which the definitions are run on
    examples. *)
Definition floor_sqrt (q : Q) : Q := inject_Z (Z.sqrt (Qfloor q)).

(** The z-score as the specification words it: the deviation over
    [max(std, 1)]. *)
Definition zScore_stated (value : num) (stats : FD.FeatureStat) : num :=
  ((value - FD.mean stats) / max2 (FD.std stats) (of_Z 1))%num.

(** The z-score with the deviation replaced by 1 only when it is 0 (or
    NaN). *)
Definition zScore_guarded (value : num) (stats : FD.FeatureStat) : num :=
  ((value - FD.mean stats) / (FD.std stats ||| of_Z 1))%num.

(** The anomaly factors one feature gives rise to: none when the
    profile has no entry for it or when [|z|] does not exceed the cutoff
    of the table, one otherwise. *)
Definition anomaly_factors (this : FD.t) (kv : string * num) : list Factor :=
  match get (fst kv) (FD.featureStats this) with
  | None => []
  | Some stats =>
      let z := zScore_guarded (snd kv) stats in
      if (abs z >? FD.threshold this "zScoreThreshold")%num then
        [ {| type := "STATISTICAL_ANOMALY";
             description := [Txt (fst kv); Txt ": "; Fixed 2 (snd kv); Txt " is ";
                             Fixed 1 z; Txt " std devs from mean"];
             contribution := min2 (round (abs z * of_Z 5)%num) (of_Z 15);
             severity := if (abs z >? of_Z 3)%num then "high" else "medium" |} ]
      else []
  end.

(** The confidence as the specification words it:
    [round(base_confidence * data_completeness, 2)]. *)
Definition confidence_stated (trained : bool) (present : nat) : num :=
  let base_confidence := if trained then dec 85 100 else dec 70 100 in
  let data_completeness := min2 (of_nat present / of_Z 10)%num (of_Z 1) in
  (round (base_confidence * data_completeness * of_Z 100) / of_Z 100)%num.

(** The ratio features a domain rule reads, each with the threshold of
    its rule. *)
Definition ratio_rules (this : FD.t) : object num :=
  [ ("largeAwardRatio", dec 3 10);
    ("agencyConcentration", dec 8 10);
    ("soleSourceRatio", dec 5 10);
    ("yearOverYearGrowth", of_Z 2);
    ("highRiskCategoryRatio", dec 3 10);
    ("defenseRatio", dec 7 10);
    ("highComplexityRatio", FD.threshold this "highComplexityRatio");
    ("pharmaConcentration", dec 7 10);
    ("avgServicesPerPatient", of_Z 10) ].

(** The running sums of two runs of a scorer, the second at least the
    first. *)
Definition le_acc (a a' : Acc) : Prop :=
  ext (fst a) /\ (fst a <=? fst a')%num = true.

(** The profile has no entry for the feature [k], or one with a finite
    mean and deviation whose mean is at most [v]. *)
Definition above_mean (this : FD.t) (k : string) (v : num) : bool :=
  match get k (FD.featureStats this) with
  | None => true
  | Some stats =>
      (isFinite (FD.mean stats) && isFinite (FD.std stats)
       && (FD.mean stats <=? v)%num)%bool
  end.

(** [scoreContractor] takes the default rules, or the learned part with
    weights at least 0 and the value of [k] not below its mean. *)
Definition rules_or_above_mean (this : FD.t) (k : string) (v : num) : bool :=
  ((negb (FD.trained this) && Nat.eqb (List.length (keys (FD.featureStats this))) 0)
   || (weights_nonneg this && above_mean this k v))%bool.

Definition is_upper (c : ascii) : bool :=
  (Nat.leb 65 (nat_of_ascii c) && Nat.leb (nat_of_ascii c) 90)%bool.

Fixpoint has_upper (s : string) : bool :=
  match s with
  | EmptyString => false
  | String c s' => (is_upper c || has_upper s')%bool
  end.

(** Every number of a profile entry is finite. *)
Definition finite_stat (st : FD.FeatureStat) : bool :=
  (isFinite (FD.mean st) && isFinite (FD.std st)
   && isFinite (FD.s_min st) && isFinite (FD.s_max st) && isFinite (FD.median st)
   && isFinite (FD.p25 st) && isFinite (FD.p75 st)
   && isFinite (FD.p90 st) && isFinite (FD.p95 st))%bool.

Definition finite_patterns (patterns : option FD.Patterns) : bool :=
  match patterns with
  | None => true
  | Some p =>
      (forallb (fun kv => isFinite (FD.ft_count (snd kv))
                          && isFinite (FD.ft_totalAmount (snd kv))
                          && isFinite (FD.ft_avgAmount (snd kv)))
               (FD.byFraudType p)
       && forallb (fun kv => isFinite (FD.in_count (snd kv))
                             && isFinite (FD.in_totalAmount (snd kv)))
                  (FD.byIndustry p)
       && forallb (fun kv => isFinite (snd kv)) (FD.indicators p)
       && forallb (fun e => isFinite (FD.count e) && isFinite (FD.weight e))
                  (FD.commonFactors p))%bool
  end.

(** The profile, the patterns and the thresholds of the model hold
    finite numbers only. *)
Definition finite_model (this : FD.t) : bool :=
  (forallb (fun kv => finite_stat (snd kv)) (FD.featureStats this)
   && finite_patterns (FD.fraudPatterns this)
   && forallb (fun kv => isFinite (snd kv)) (FD.thresholds this))%bool.

(** The calendar year of an award: the first four characters of its
    start date, when it has one. *)
Definition year_of (a : Award) : option string :=
  match Start_Date a with
  | Some date => if String.eqb date "" then None else Some (String.substring 0 4 date)
  | None => None
  end.

Definition dated_in (y : string) (a : Award) : bool :=
  match year_of a with
  | Some y' => String.eqb y' y
  | None => false
  end.

(** The award total of calendar year [y]. *)
Definition year_total (awards : list Award) (y : string) : num :=
  total (map amount_of (filter (dated_in y) awards)).

(** The calendar years of the dated awards, one entry per award. *)
Definition years_of (awards : list Award) : list string :=
  flat_map (fun a => match year_of a with Some y => [y] | None => [] end) awards.

(** The greatest year of a list in the order of strings, which is the
    order of time for four-digit years; [None] on the empty list. *)
Fixpoint latest (l : list string) : option string :=
  match l with
  | [] => None
  | y :: l' =>
      match latest l' with
      | None => Some y
      | Some m => if String.ltb m y then Some y else Some m
      end
  end.

(** The year before the most recent one, among the years present. *)
Definition prior (l : list string) (y1 : string) : option string :=
  latest (filter (fun y => String.ltb y y1) l).

(** Year-over-year growth: 1.0 with fewer than two distinct years,
    otherwise the total of the most recent year over the total of the
    year before, with the guards of the code: a most recent total that
    is 0 stays 0, a prior total that is 0 is replaced by 1. *)
Definition growth_guarded (awards : list Award) : num :=
  match latest (years_of awards) with
  | None => of_Z 1
  | Some y1 =>
      match prior (years_of awards) y1 with
      | None => of_Z 1
      | Some y2 =>
          ((year_total awards y1 ||| Fin 0) / (year_total awards y2 ||| of_Z 1))%num
      end
  end.

(** At least two distinct calendar years are present. *)
Definition two_years (awards : list Award) : bool :=
  match latest (years_of awards) with
  | None => false
  | Some y1 =>
      match prior (years_of awards) y1 with
      | None => false
      | Some _ => true
      end
  end.

(** No award amount is infinite. *)
Definition amounts_not_infinite (awards : list Award) : bool :=
  forallb (fun a => match Award_Amount a with PInf | NInf => false | _ => true end) awards.

(** [m] is the greatest member of [l]. *)
Definition greatest (l : list string) (m : string) : Prop :=
  In m l /\ forall y, In y l -> String.ltb m y = false.

Definition str_lt (a b : string) : Prop := String.ltb a b = true.

(** One step of the grouping loop of the extractors. *)
Definition group_step (byYear : object num) (item : Award) : object num :=
  match year_of item with
  | Some year => set year ((toNumber (get year byYear) ||| Fin 0) + amount_of item)%num byYear
  | None => byYear
  end.

(** What the grouping object holds after the awards [pre]: an entry for
    each of their years, with the total of the year. *)
Definition grouped (pre : list Award) (byYear : object num) : Prop :=
  forall y,
    match get y byYear with
    | Some r => In y (years_of pre) /\ same r (year_total pre y)
    | None => ~ In y (years_of pre)
    end.

(** The growth rate both extractors compute from the grouping object,
    [default] being the value with fewer than two years. *)
Definition code_growth (default : num) (byYear : object num) : num :=
  let years := sort_strings (keys byYear) in
  if Nat.leb 2 (List.length years) then
    ((toNumber (get (nth (List.length years - 1) years "") byYear) ||| Fin 0)
     / (toNumber (get (nth (List.length years - 2) years "") byYear) ||| of_Z 1))%num
  else default.

(** *** Counting, ranking and collecting *)

(** The number of occurrences of [k] in [l]. *)
Definition occurrences (k : string) (l : list string) : nat :=
  count_if (String.eqb k) l.

(** The indicators of the known cases, one entry per mention, in the
    order met. *)
Definition all_indicators (cases : list FD.FraudCase) : list string :=
  flat_map (fun fc => match FD.fc_indicators fc with Some l => l | None => [] end) cases.

(** One step of a counting loop: [o[k] = (o[k] || 0) + 1]. *)
Definition tally_step (o : object num) (k : string) : object num :=
  set k ((toNumber (get k o) ||| Fin 0) + of_Z 1)%num o.

(** What a counting object holds after the keys [seen]: one property
    per distinct key, with the number of its occurrences. *)
Definition tallied (seen : list string) (o : object num) : Prop :=
  NoDup (keys o) /\
  forall k,
    get k o = if Nat.eqb (occurrences k seen) 0 then None
              else Some (of_nat (occurrences k seen)).



(** The feature entries of the training records, in the order the
    records and their properties are met. *)
Definition all_entries (data : list FD.TrainingRecord) : list (string * num) :=
  flat_map (fun record => match FD.features record with Some fs => fs | None => [] end) data.

(** The values the records give to the feature [key]. *)
Definition values_of (key : string) (entries : list (string * num)) : list num :=
  map snd (filter (fun kv => String.eqb key (fst kv)) entries).

(** One step of the collecting loop of [calculateFeatureStats]. *)
Definition collect_step (featureValues : object (list num)) (kv : string * num)
    : object (list num) :=
  let '(key, value) := kv in
  let seen := match get key featureValues with Some l => l | None => [] end in
  set key (seen ++ [value])%list featureValues.

(** What the collecting object holds after the entries [seen]. *)
Definition collected (seen : list (string * num)) (o : object (list num)) : Prop :=
  NoDup (keys o) /\
  forall k,
    get k o = match values_of k seen with [] => None | vs => Some vs end.

(** What the route reads back from the file [save] wrote at time
    [now]. *)
Definition artifact (this : FD.t) (now : string) : jsval :=
  reparse (FD.modelData this now).

(** A digit from 1 to 5. *)
Definition is_level (c : ascii) : bool :=
  (Nat.leb 49 (nat_of_ascii c) && Nat.leb (nat_of_ascii c) 53)%bool.

(** The detector is trained or holds a profile: [scoreContractor] does
    not take the default rules. *)
Definition learned_path (this : FD.t) : bool :=
  negb (negb (FD.trained this) && Nat.eqb (List.length (keys (FD.featureStats this))) 0).

(** *** The training script *)

(** The synthetic vector in which the features flagged are raised. *)
Definition synthetic (large concentration sole growth risk : bool) : object num :=
  [ ("largeAwardRatio", if large then dec 5 10 else Fin 0);
    ("agencyConcentration", if concentration then dec 9 10 else Fin 0);
    ("soleSourceRatio", if sole then dec 7 10 else Fin 0);
    ("yearOverYearGrowth", if growth then dec 25 10 else of_Z 1);
    ("highRiskCategoryRatio", if risk then dec 6 10 else Fin 0);
    ("defenseRatio", Fin 0) ].

(** Some indicator mentions one of the words, whatever the case of its
    letters. *)
Definition mentions (indicators words : list string) : bool :=
  existsb (fun ind => includes_some (toLowerCase ind) words) indicators.

(** The recipient a row is grouped under. *)
Definition recipient_of (c : TrainModel.Row) : string :=
  str_or (TrainModel.Recipient_Name c) "Unknown".

(** *** Property names *)

(** The names every object literal inherits from [Object.prototype].
    Reading such a property of an object that does not own it gives a
    function (or the prototype) where [get] gives [None], so the counting
    and collecting loops of the code, which test [o[k]] before they
    write, behave as their models only on keys outside of this list. *)
Definition inherited_names : list string :=
  [ "constructor"; "__proto__"; "hasOwnProperty"; "isPrototypeOf";
    "propertyIsEnumerable"; "toLocaleString"; "toString"; "valueOf";
    "__defineGetter__"; "__defineSetter__"; "__lookupGetter__"; "__lookupSetter__" ].

(** [k] names no inherited property. *)
Definition own_name (k : string) : bool :=
  negb (existsb (String.eqb k) inherited_names).

Definition is_digit (c : ascii) : bool :=
  (Nat.leb 48 (nat_of_ascii c) && Nat.leb (nat_of_ascii c) 57)%bool.

(** [k] is written with digits only.  The integer-like keys are among
    these names: an object lists them first, whatever the order in which
    they were written. *)
Definition digits_only (k : string) : bool :=
  (negb (String.eqb k "") && forallb is_digit (list_ascii_of_string k))%bool.

(** A name an object keeps as a property of its own, in the order of
    writing. *)
Definition plain_name (k : string) : bool :=
  (own_name k && negb (digits_only k))%bool.

(** The agency an award is counted under. *)
Definition agency_of (a : Award) : string :=
  str_or (Awarding_Agency a) "Unknown".

(** The names [learnFraudPatterns] uses as property keys: the fraud
    types, the industry and the indicators of each case. *)
Definition case_names (cases : list FD.FraudCase) : list string :=
  flat_map (fun fc =>
              (match FD.fraud_type fc with Some l => l | None => [] end)
              ++ str_or (FD.industry fc) "unknown"
              :: match FD.fc_indicators fc with Some l => l | None => [] end)%list
           cases.

(** The names [calculateFeatureStats] uses as property keys: the
    features of the training records. *)
Definition feature_names (data : list FD.TrainingRecord) : list string :=
  map fst (all_entries data).

(* ================================================================== *)
(** ** Examples *)

(** Inputs on which the definitions are run. *)
Module Examples.

Definition award (amount : Z) (agency description date : string) : Award :=
  {| Award_Amount := of_Z amount;
     Awarding_Agency := Some agency;
     Description := Some description;
     Start_Date := Some date |}.

(** A contractor whose only award has amount 0. *)
Definition zero_award : list Award :=
  [ award 0 "Department of Defense" "IT services" "2023-03-01" ].

(** Two awards, both starting in 2023. *)
Definition single_year : list Award :=
  [ award 120000 "Department of Energy" "Support" "2023-04-01";
    award 80000 "Department of Energy" "Support" "2023-09-15" ].

(** Nothing awarded in 2022, 5 dollars in 2023. *)
Definition after_idle_year : list Award :=
  [ award 0 "Department of Energy" "Support" "2022-06-30";
    award 5 "Department of Energy" "Support" "2023-01-15" ].

(** Ten awards of 50,000 dollars but one of 2,000,000, nine of them
    from the same agency, over 2022 and 2023. *)
Definition scenario_a : list Award :=
  [ award 2000000 "Department of the Navy" "Sole source software" "2023-02-01";
    award 50000 "Department of the Navy" "Consulting" "2023-03-01";
    award 50000 "Department of the Navy" "Maintenance" "2023-04-01";
    award 50000 "Department of the Navy" "Maintenance" "2023-05-01";
    award 50000 "Department of the Navy" "Maintenance" "2022-02-01";
    award 50000 "Department of the Navy" "Maintenance" "2022-03-01";
    award 50000 "Department of the Navy" "Maintenance" "2022-04-01";
    award 50000 "Department of the Navy" "Maintenance" "2022-05-01";
    award 50000 "Department of the Navy" "Maintenance" "2022-06-01";
    award 50000 "Department of Energy" "Maintenance" "2022-07-01" ].

Definition corpus : list FD.TrainingRecord :=
  [ {| FD.features :=
         Some (FeatureExtractor.extractContractorFeatures floor_sqrt scenario_a) |};
    {| FD.features :=
         Some [ ("specialtyRisk", of_Z 3); ("exclusionSeverity", of_Z 5) ] |};
    {| FD.features :=
         Some [ ("specialtyRisk", of_Z 2); ("exclusionSeverity", of_Z 5) ] |};
    {| FD.features := None |} ].

Definition cases : list FD.FraudCase :=
  [ {| FD.fraud_type := Some ["overbilling"; "kickbacks"];
       FD.industry := Some "healthcare";
       FD.amount := Some (of_Z 1500000);
       FD.fc_indicators := Some ["Sole Source Ratio"; "rapid growth"] |};
    {| FD.fraud_type := Some ["overbilling"];
       FD.industry := None;
       FD.amount := None;
       FD.fc_indicators := Some ["sole source ratio"; "Sole Source Ratio"] |} ].

(** The model the training script produces from [corpus] and [cases]. *)
Definition trained_model : FD.t :=
  FD.train floor_sqrt FD.constructor corpus cases.

(** A model whose table sets the high-complexity cutoff to 0.05. *)
Definition low_cutoff_model : FD.t :=
  {| FD.trained := true;
     FD.featureStats := [];
     FD.fraudPatterns := None;
     FD.thresholds :=
       set "highComplexityRatio" (dec 5 100) FD.optimizeThresholds;
     FD.modelVersion := "1.0.0" |}.

(** A provider billing 10% of its codes at high complexity. *)
Definition modest_billing : object num := [ ("highComplexityRatio", dec 1 10) ].

(** A provider with both exclusion flags and nothing else. *)
Definition excluded_twice : object num :=
  [ ("hasExclusionHistory", of_Z 1); ("relatedPartyExcluded", of_Z 1) ].

(** A profile in which the sole-source ratio has mean 0.2 and standard
    deviation 0.1, with the thresholds training sets. *)
Definition narrow_stats : FD.FeatureStat :=
  {| FD.mean := dec 2 10; FD.std := dec 1 10;
     FD.s_min := dec 1 10; FD.s_max := dec 3 10;
     FD.median := dec 2 10;
     FD.p25 := dec 1 10; FD.p75 := dec 3 10;
     FD.p90 := dec 3 10; FD.p95 := dec 3 10;
     FD.s_count := 4 |}.

Definition narrow_model : FD.t :=
  {| FD.trained := true;
     FD.featureStats := [ ("soleSourceRatio", narrow_stats) ];
     FD.fraudPatterns := None;
     FD.thresholds := FD.optimizeThresholds;
     FD.modelVersion := "1.0.0" |}.

(** A profile in which the large-award ratio has mean 0.9 and standard
    deviation 0.1. *)
Definition high_mean_model : FD.t :=
  {| FD.trained := true;
     FD.featureStats :=
       [ ("largeAwardRatio",
          {| FD.mean := dec 9 10; FD.std := dec 1 10;
             FD.s_min := dec 8 10; FD.s_max := of_Z 1;
             FD.median := dec 9 10;
             FD.p25 := dec 8 10; FD.p75 := of_Z 1;
             FD.p90 := of_Z 1; FD.p95 := of_Z 1;
             FD.s_count := 4 |}) ];
     FD.fraudPatterns := None;
     FD.thresholds := FD.optimizeThresholds;
     FD.modelVersion := "1.0.0" |}.

(** A provider without exclusions. *)
Definition clean_provider : FeatureExtractor.Provider :=
  {| FeatureExtractor.excludedPreviously := false;
     FeatureExtractor.relatedPartyExcluded := false |}.

(** A file system without the model file, and one where it is not
    JSON. *)
Definition no_model_fs : FS :=
  {| content := fun _ => None; writable := fun _ => true |}.

Definition garbled_fs : FS :=
  {| content := fun p => if String.eqb p Route.MODEL_PATH then Some Garbage else None;
     writable := fun _ => true |}.

(** Three rows of contractor data: two recipients, one row without a
    recipient. *)
Definition rows : list TrainModel.Row :=
  [ {| TrainModel.Recipient_Name := Some "Acme Corp";
       TrainModel.award := award 120000 "Department of Energy" "Support" "2023-04-01" |};
    {| TrainModel.Recipient_Name := None;
       TrainModel.award := award 50000 "Department of the Navy" "Consulting" "2022-03-01" |};
    {| TrainModel.Recipient_Name := Some "Acme Corp";
       TrainModel.award := award 80000 "Department of Energy" "Support" "2023-09-15" |} ].

(** The model trained on the features of the contractor whose only
    award has amount 0. *)
Definition zero_award_model : FD.t :=
  FD.train floor_sqrt FD.constructor
    [ {| FD.features :=
           Some (FeatureExtractor.extractContractorFeatures floor_sqrt zero_award) |} ]
    [].

End Examples.

(* ================================================================== *)
(** * Properties *)

(** ** Arithmetic of [num] *)

#[local] Arguments Qfloor : simpl never.
#[local] Arguments Qplus : simpl never.
#[local] Arguments Qmult : simpl never.
#[local] Arguments Qdiv : simpl never.
#[local] Arguments Qopp : simpl never.
#[local] Arguments Qabs : simpl never.
#[local] Arguments Qminus : simpl never.
#[local] Arguments inject_Z : simpl never.
#[local] Arguments Qle_bool : simpl never.
#[local] Arguments Qeq_bool : simpl never.
#[local] Arguments Qlt_bool : simpl never.
#[local] Arguments Qcompare : simpl never.

Lemma Qlt_bool_iff (x y : Q) : Qlt_bool x y = true <-> x < y.
Proof.
  unfold Qlt_bool. rewrite negb_true_iff. split; intro H.
  - apply Qnot_le_lt. intro L. apply Qle_bool_iff in L. congruence.
  - destruct (Qle_bool y x) eqn:E; [|reflexivity].
    apply Qle_bool_iff in E. exfalso. apply (Qlt_not_le _ _ H E).
Qed.

Lemma Qlt_bool_false (x y : Q) : Qlt_bool x y = false <-> y <= x.
Proof.
  unfold Qlt_bool. rewrite negb_false_iff. apply Qle_bool_iff.
Qed.

Lemma Qle_bool_false (x y : Q) : Qle_bool x y = false <-> y < x.
Proof.
  rewrite <- Qlt_bool_iff. unfold Qlt_bool.
  destruct (Qle_bool x y); simpl; split; congruence.
Qed.

Lemma Qeq_bool_false (x y : Q) : Qeq_bool x y = false <-> ~ x == y.
Proof.
  split; intro H.
  - intro E. apply Qeq_bool_iff in E. congruence.
  - destruct (Qeq_bool x y) eqn:E; [|reflexivity].
    apply Qeq_bool_iff in E. contradiction.
Qed.

(** Turns the boolean comparisons of rationals in the context and the
    goal into propositions. *)
Ltac qprop :=
  repeat match goal with
    | H : Qle_bool _ _ = true |- _ => apply Qle_bool_iff in H
    | H : Qle_bool _ _ = false |- _ => apply Qle_bool_false in H
    | H : Qlt_bool _ _ = true |- _ => apply Qlt_bool_iff in H
    | H : Qlt_bool _ _ = false |- _ => apply Qlt_bool_false in H
    | H : Qeq_bool _ _ = true |- _ => apply Qeq_bool_iff in H
    | H : Qeq_bool _ _ = false |- _ => apply Qeq_bool_false in H
    | H : (_ ?= _) = Eq |- _ => apply Qeq_alt in H
    | H : (_ ?= _) = Lt |- _ => apply Qlt_alt in H
    | H : (_ ?= _) = Gt |- _ => apply Qgt_alt in H
    | |- Qle_bool _ _ = true => apply Qle_bool_iff
    | |- Qle_bool _ _ = false => apply Qle_bool_false
    | |- Qlt_bool _ _ = true => apply Qlt_bool_iff
    | |- Qlt_bool _ _ = false => apply Qlt_bool_false
    | |- Qeq_bool _ _ = true => apply Qeq_bool_iff
    | |- Qeq_bool _ _ = false => apply Qeq_bool_false
    end.

Lemma nonneg_ext (x : num) : nonneg x -> ext x.
Proof. destruct x; simpl; auto. Qed.

Lemma nonneg_leb (x : num) : nonneg x <-> (Fin 0 <=? x)%num = true.
Proof.
  destruct x; simpl; split; intro H; try discriminate; try contradiction; auto;
    qprop; auto.
Qed.

Lemma of_Z_nonneg (z : Z) : (0 <= z)%Z -> nonneg (of_Z z).
Proof.
  intro H. simpl. change 0 with (inject_Z 0). rewrite <- Zle_Qle. exact H.
Qed.

Lemma leb_refl (x : num) : ext x -> (x <=? x)%num = true.
Proof.
  destruct x; simpl; try contradiction; auto.
  intros _. qprop. apply Qle_refl.
Qed.

Lemma gtb_leb_trans (t x y : num) :
  (x >? t)%num = true -> (x <=? y)%num = true -> (y >? t)%num = true.
Proof.
  unfold gtb. destruct t, x, y; simpl; intros; try discriminate; auto.
  qprop. eapply Qlt_le_trans; eauto.
Qed.

Lemma gtb_ext (t x : num) : (x >? t)%num = true -> x <> NaN /\ x <> NInf.
Proof.
  unfold gtb. destruct t, x; simpl; intros; try discriminate; split; congruence.
Qed.

Lemma add_ext (a b : num) : ext a -> ext b -> ext (a + b).
Proof. destruct a, b; simpl; auto. Qed.

Lemma add_nonneg (a b : num) : nonneg a -> nonneg b -> nonneg (a + b).
Proof.
  destruct a, b; simpl; auto. intros. lra.
Qed.

Lemma add_le_mono (a a' b b' : num) :
  ext a -> ext b ->
  (a <=? a')%num = true -> (b <=? b')%num = true ->
  (a + b <=? a' + b')%num = true.
Proof.
  destruct a, a', b, b'; simpl; intros; try discriminate; try contradiction; auto.
  qprop. lra.
Qed.

Lemma round_ext (x : num) : ext x -> ext (round x).
Proof. destruct x; simpl; auto. Qed.

Lemma Qfloor_half_nonneg (q : Q) : - (1 # 2) <= q -> (0 <= Qfloor (q + (1 # 2)))%Z.
Proof.
  intro H. change 0%Z with (Qfloor 0). apply Qfloor_resp_le. lra.
Qed.

Lemma round_nonneg (x : num) : nonneg x -> nonneg (round x).
Proof.
  destruct x; simpl; auto. intro H.
  apply (of_Z_nonneg (Qfloor (q + (1 # 2)))). apply Qfloor_half_nonneg. lra.
Qed.

Lemma inject_Z_le (a b : Z) : (a <= b)%Z -> inject_Z a <= inject_Z b.
Proof. intro H. rewrite <- Zle_Qle. exact H. Qed.

Lemma round_mono (x y : num) : (x <=? y)%num = true -> (round x <=? round y)%num = true.
Proof.
  destruct x, y; simpl; intros; try discriminate; auto.
  qprop. apply inject_Z_le. apply Qfloor_resp_le. lra.
Qed.

Lemma min2_mono (x y c : num) :
  ext x -> ext c -> (x <=? y)%num = true -> (min2 x c <=? min2 y c)%num = true.
Proof.
  destruct x, y, c; simpl; intros; try discriminate; try contradiction; auto;
    repeat match goal with
      | |- context [Qle_bool ?a ?b] => destruct (Qle_bool a b) eqn:?
      end; simpl; qprop; auto; try lra.
Qed.

Lemma min2_nonneg (x c : num) : nonneg x -> nonneg c -> nonneg (min2 x c).
Proof.
  destruct x, c; simpl; intros; try contradiction; auto.
  destruct (Qle_bool q q0); simpl; auto.
Qed.

(** The last step of every scorer: [Math.min(Math.round(s), 100)] of a
    sum that is at least 0 is an integer between 0 and 100. *)
Lemma capped_score (s : num) :
  nonneg s -> exists n : Z, min2 (round s) (of_Z 100) = of_Z n /\ (0 <= n <= 100)%Z.
Proof.
  destruct s; simpl; try contradiction; intro H.
  - exists 100%Z. split; [reflexivity | lia].
  - pose proof (Qfloor_half_nonneg q) as F.
    destruct (Qle_bool (inject_Z (Qfloor (q + (1 # 2)))) (inject_Z 100)) eqn:E.
    + exists (Qfloor (q + (1 # 2))). split; [reflexivity|].
      qprop. rewrite <- Zle_Qle in E. split; [apply F; lra | exact E].
    + exists 100%Z. split; [reflexivity | lia].
Qed.

Lemma mul_pos_nonneg (x : num) (c : Q) : 0 < c -> nonneg x -> nonneg (x * Fin c).
Proof.
  intros C. destruct x; simpl; try contradiction.
  - intros _. unfold inf_times. destruct (0 ?= c) eqn:E; qprop; simpl; auto; lra.
  - intro H. apply Qmult_le_0_compat; lra.
Qed.

Lemma mul_pos_ext (x : num) (c : Q) : 0 < c -> ext x -> ext (x * Fin c).
Proof.
  intros C. destruct x; simpl; try contradiction; auto.
  intros _. unfold inf_times. destruct (0 ?= c) eqn:E; qprop; simpl; auto; lra.
Qed.

Lemma mul_pos_mono (x y : num) (c : Q) :
  0 < c -> (x <=? y)%num = true -> ext x -> (x * Fin c <=? y * Fin c)%num = true.
Proof.
  intros C. destruct x, y; simpl; intros; try discriminate; try contradiction; auto;
    unfold inf_times; destruct (0 ?= c) eqn:E; qprop; simpl; auto; try lra.
  qprop. nra.
Qed.

Lemma sub_fin_ext (x : num) (c : Q) : ext x -> ext (x - Fin c).
Proof. destruct x; simpl; auto. Qed.

Lemma sub_fin_mono (x y : num) (c : Q) :
  (x <=? y)%num = true -> ext x -> (x - Fin c <=? y - Fin c)%num = true.
Proof.
  destruct x, y; simpl; intros; try discriminate; try contradiction; auto.
  qprop. lra.
Qed.

(** ** Objects *)

Lemma get_set_same {A : Type} (k : string) (v : A) (o : object A) :
  get k (set k v o) = Some v.
Proof.
  induction o as [|[k' v'] o IH]; simpl.
  - rewrite String.eqb_refl. reflexivity.
  - destruct (String.eqb k k') eqn:E; simpl.
    + rewrite String.eqb_refl. reflexivity.
    + rewrite E. exact IH.
Qed.

Lemma get_set_other {A : Type} (k k' : string) (v : A) (o : object A) :
  k' <> k -> get k' (set k v o) = get k' o.
Proof.
  intro N. induction o as [|[k0 v0] o IH]; simpl.
  - destruct (String.eqb k' k) eqn:E; [apply String.eqb_eq in E; contradiction | reflexivity].
  - destruct (String.eqb k k0) eqn:E; simpl.
    + apply String.eqb_eq in E. subst k0.
      destruct (String.eqb k' k) eqn:E'; [apply String.eqb_eq in E'; contradiction | reflexivity].
    + destruct (String.eqb k' k0); [reflexivity | exact IH].
Qed.

(** ** The accumulator of a scorer *)

Lemma push_if_fst (c : bool) (f : Factor) (acc : Acc) :
  fst (push_if c f acc) = if c then (fst acc + contribution f)%num else fst acc.
Proof. unfold push_if. destruct c; reflexivity. Qed.

Lemma push_if_nonneg (c : bool) (f : Factor) (acc : Acc) :
  nonneg (fst acc) -> (c = true -> nonneg (contribution f)) ->
  nonneg (fst (push_if c f acc)).
Proof.
  intros A C. rewrite push_if_fst. destruct c; [|exact A].
  apply add_nonneg; auto.
Qed.

Lemma gtb_nonneg (x : num) (t : Q) : 0 <= t -> (x >? Fin t)%num = true -> nonneg x.
Proof.
  unfold gtb. destruct x; simpl; intros; try discriminate; auto.
  qprop. lra.
Qed.

Lemma inject_Z_pos (z : Z) : (0 < z)%Z -> 0 < inject_Z z.
Proof. intro H. change 0 with (inject_Z 0). rewrite <- Zlt_Qlt. exact H. Qed.

Lemma scaled_round_nonneg (x : num) (t : Q) (c : Z) :
  0 <= t -> (0 < c)%Z -> (x >? Fin t)%num = true -> nonneg (round (x * of_Z c)).
Proof.
  intros T C G. apply round_nonneg. apply mul_pos_nonneg.
  - apply inject_Z_pos; exact C.
  - eapply gtb_nonneg; eauto.
Qed.

Lemma growth_contribution_nonneg (g : num) :
  (g >? of_Z 2)%num = true ->
  nonneg (min2 (round ((g - of_Z 1) * of_Z 15)) (of_Z 25)).
Proof.
  intro G. apply min2_nonneg; [|apply of_Z_nonneg; lia].
  apply round_nonneg. apply mul_pos_nonneg; [apply inject_Z_pos; lia|].
  unfold gtb in G. destruct g; simpl in *; try discriminate; auto.
  qprop. unfold inject_Z in *. lra.
Qed.

Lemma complexity_contribution_nonneg (r t : num) :
  (t <? dec 3 16)%num = false -> (r >? t)%num = true ->
  nonneg (round ((r - dec 2 10) * of_Z 40)).
Proof.
  intros T G. unfold gtb in G.
  destruct r, t; simpl in *; try discriminate; auto.
  change 0 with (inject_Z 0). rewrite <- Zle_Qle. apply Qfloor_half_nonneg.
  qprop. unfold inject_Z. lra.
Qed.


(** Closes the side conditions met when a scorer's sum is shown to be
    at least 0. *)
Ltac contribution_nonneg :=
  cbn [contribution];
  first
    [ apply of_Z_nonneg; lia
    | eapply scaled_round_nonneg; [ | | eassumption ]; [ unfold Qle; simpl; lia | lia ]
    | apply growth_contribution_nonneg; assumption
    | eapply complexity_contribution_nonneg; eassumption
    | match goal with
      | |- nonneg (if ?c then _ else _) => destruct c; apply of_Z_nonneg; lia
      end ].

Ltac acc_nonneg :=
  repeat (apply push_if_nonneg; [ | intro; contribution_nonneg ]);
  simpl; try apply Qle_refl.

Lemma defaultContractorScoring_range (this : FD.t) (features : object num) :
  exists n : Z,
    score (FD.defaultContractorScoring this features) = of_Z n /\ (0 <= n <= 100)%Z.
Proof.
  unfold FD.defaultContractorScoring. cbv zeta. cbn [score].
  apply capped_score. acc_nonneg.
Qed.

Lemma anomalyStep_nonneg (this : FD.t) (acc : Acc) (kv : string * num) :
  nonneg (fst acc) -> nonneg (fst (FD.anomalyStep this acc kv)).
Proof.
  intro A. destruct kv as [key value]. unfold FD.anomalyStep.
  destruct (get key (FD.featureStats this)) as [stats|]; [|exact A].
  cbv zeta. apply push_if_nonneg; [exact A|]. intro G. cbn [contribution].
  apply min2_nonneg; [|apply of_Z_nonneg; lia].
  apply round_nonneg. apply mul_pos_nonneg; [apply inject_Z_pos; lia|].
  apply gtb_ext in G. destruct G as [G1 G2].
  destruct ((value - FD.mean stats) / (FD.std stats ||| of_Z 1))%num; simpl in *;
    try congruence; auto.
  apply Qabs_nonneg.
Qed.

Lemma fold_left_nonneg {A : Type} (step : Acc -> A -> Acc) (P : A -> Prop) (l : list A) :
  (forall acc x, P x -> nonneg (fst acc) -> nonneg (fst (step acc x))) ->
  Forall P l ->
  forall acc, nonneg (fst acc) -> nonneg (fst (fold_left step l acc)).
Proof.
  intros S F. induction F as [|x l Px F IH]; simpl; intros acc N; [exact N|].
  apply IH. apply S; assumption.
Qed.

Lemma detectAnomalies_nonneg (this : FD.t) (features : object num) :
  nonneg (fst (FD.detectAnomalies this features)).
Proof.
  unfold FD.detectAnomalies.
  apply (fold_left_nonneg _ (fun _ => True)).
  - intros acc x _. apply anomalyStep_nonneg.
  - apply Forall_forall. auto.
  - simpl. apply Qle_refl.
Qed.

Lemma patternStep_nonneg (features : object num) (acc : Acc) (e : FD.FraudPatternEntry) :
  (Fin 0 <=? FD.weight e)%num = true ->
  nonneg (fst acc) -> nonneg (fst (FD.patternStep features acc e)).
Proof.
  intros W A. unfold FD.patternStep. cbv zeta.
  apply push_if_nonneg; [exact A|]. intros _. cbn [contribution].
  apply round_nonneg. apply mul_pos_nonneg; [apply inject_Z_pos; lia|].
  apply nonneg_leb. exact W.
Qed.

Lemma matchFraudPatterns_nonneg (this : FD.t) (features : object num) :
  weights_nonneg this = true ->
  nonneg (fst (FD.matchFraudPatterns this features)).
Proof.
  unfold weights_nonneg, FD.matchFraudPatterns. intro W.
  destruct (FD.fraudPatterns this) as [p|]; [|simpl; apply Qle_refl].
  apply (fold_left_nonneg _ (fun e => (Fin 0 <=? FD.weight e)%num = true)).
  - intros acc e. apply patternStep_nonneg.
  - apply Forall_forall. apply forallb_forall. exact W.
  - simpl. apply Qle_refl.
Qed.

Lemma scoreContractor_range (this : FD.t) (features : object num) :
  weights_nonneg this = true ->
  exists n : Z,
    score (FD.scoreContractor this features) = of_Z n /\ (0 <= n <= 100)%Z.
Proof.
  intro W. unfold FD.scoreContractor.
  destruct (negb (FD.trained this) && _)%bool.
  - apply defaultContractorScoring_range.
  - cbv zeta. cbn [score]. apply capped_score.
    repeat apply add_nonneg.
    + simpl. apply Qle_refl.
    + apply detectAnomalies_nonneg.
    + apply matchFraudPatterns_nonneg. exact W.
    + simpl. apply Qle_refl.
Qed.

Lemma scoreHealthcareProvider_range (this : FD.t) (features : object num) :
  complexity_cutoff_ok this = true ->
  exists n : Z,
    score (FD.scoreHealthcareProvider this features) = of_Z n /\ (0 <= n <= 100)%Z.
Proof.
  unfold complexity_cutoff_ok. rewrite negb_true_iff. intro C.
  unfold FD.scoreHealthcareProvider. cbv zeta. cbn [score].
  apply capped_score. acc_nonneg.
Qed.

(** ** Score range and risk level *)

(** C1, as amended.  With pattern weights that are at least 0 and a
    high-complexity cutoff that is absent or at least 3/16, the score
    returned by [scoreContractor] and by [scoreHealthcareProvider] is an
    integer between 0 and 100, for every feature vector, profile and
    table; the risk level is High when the score reaches [highRiskMin],
    otherwise Medium when it reaches [lowRiskMax], otherwise Low. *)
Theorem score_range_and_risk_level
    (this : FD.t) (features : object num) (r : ScoreResult) :
  weights_nonneg this = true ->
  complexity_cutoff_ok this = true ->
  r = FD.scoreContractor this features \/ r = FD.scoreHealthcareProvider this features ->
  (exists n : Z, score r = of_Z n /\ (0 <= n <= 100)%Z) /\
  riskLevel r =
    (if (score r >=? FD.threshold this "highRiskMin")%num then "High"
     else if (score r >=? FD.threshold this "lowRiskMax")%num then "Medium"
     else "Low").
Proof.
  intros W C [R | R]; subst r; split.
  - apply scoreContractor_range; exact W.
  - unfold FD.scoreContractor. destruct (negb (FD.trained this) && _)%bool; reflexivity.
  - apply scoreHealthcareProvider_range; exact C.
  - reflexivity.
Qed.

Lemma score_range_and_risk_level_witness :
  weights_nonneg Examples.trained_model = true /\
  complexity_cutoff_ok Examples.trained_model = true /\
  (exists n : Z,
     score (FD.scoreContractor Examples.trained_model
              (FeatureExtractor.extractContractorFeatures floor_sqrt Examples.scenario_a))
     = of_Z n /\ (0 <= n <= 100)%Z).
Proof.
  split; [vm_compute; reflexivity|]. split; [vm_compute; reflexivity|].
  apply (score_range_and_risk_level Examples.trained_model
           (FeatureExtractor.extractContractorFeatures floor_sqrt Examples.scenario_a)
           (FD.scoreContractor Examples.trained_model
              (FeatureExtractor.extractContractorFeatures floor_sqrt Examples.scenario_a))).
  - vm_compute; reflexivity.
  - vm_compute; reflexivity.
  - left; reflexivity.
Defined.

(** C1 as stated fails: with the cutoff of the table at 0.05, a provider
    whose high-complexity ratio is 0.1 is scored
    [Math.round((0.1 - 0.2) * 40)], which is -4; the scorer caps the sum
    at 100 and has no lower bound. *)
Lemma negative_score_counterexample :
  score (FD.scoreHealthcareProvider Examples.low_cutoff_model Examples.modest_billing)
  = of_Z (-4) /\
  (of_Z 0 <=? score (FD.scoreHealthcareProvider Examples.low_cutoff_model
                       Examples.modest_billing))%num = false.
Proof. split; vm_compute; reflexivity. Qed.

(** With numeric bounds the Medium band reads [lowRiskMax <= score <
    highRiskMin]: a comparison fails only when the other one holds. *)
Lemma geb_false_ltb (x t : num) :
  x <> NaN -> t <> NaN -> ((x >=? t)%num = false <-> (x <? t)%num = true).
Proof.
  unfold geb, ltb, leb, Qlt_bool.
  destruct x, t; intros X T; try congruence; split; intro H;
    try discriminate; try reflexivity;
    destruct (Qle_bool _ _); simpl in *; congruence.
Qed.

(** A learned pattern with a negative weight, which training never
    produces but a loaded artifact can hold, also takes the score below
    0. *)
Lemma negative_weight_score :
  score (FD.scoreContractor
           {| FD.trained := true;
              FD.featureStats := [];
              FD.fraudPatterns :=
                Some {| FD.byFraudType := []; FD.byIndustry := []; FD.indicators := [];
                        FD.commonFactors :=
                          [ {| FD.indicator := "Rapid Growth"; FD.count := of_Z 1;
                               FD.weight := of_Z (-1) |} ] |};
              FD.thresholds := FD.optimizeThresholds;
              FD.modelVersion := "1.0.0" |}
           [ ("rapid_growth", of_Z 1) ])
  = of_Z (-20).
Proof. vm_compute. reflexivity. Qed.

(** ** The detector before any training or load *)

(** C10.  A freshly constructed detector has an empty threshold table;
    [getRiskLevel] answers Low for every score, so
    [scoreHealthcareProvider] reports Low for every feature vector, also
    for the one that holds both exclusion flags and scores 50. *)
Theorem fresh_detector_reports_low :
  FD.thresholds FD.constructor = [] /\
  (forall s : num, FD.getRiskLevel FD.constructor s = "Low") /\
  (forall features : object num,
     riskLevel (FD.scoreHealthcareProvider FD.constructor features) = "Low") /\
  score (FD.scoreHealthcareProvider FD.constructor Examples.excluded_twice) = of_Z 50.
Proof.
  assert (L : forall s : num, FD.getRiskLevel FD.constructor s = "Low").
  { intro s. unfold FD.getRiskLevel, FD.threshold. simpl. reflexivity. }
  split; [reflexivity|]. split; [exact L|]. split.
  - intro features. unfold FD.scoreHealthcareProvider. cbv zeta. cbn [riskLevel]. apply L.
  - vm_compute. reflexivity.
Qed.

(** ** Anomaly detection *)

Lemma fold_anomalyStep (this : FD.t) (features : object num) (acc : Acc) :
  fold_left (FD.anomalyStep this) features acc =
  (fold_left add (map contribution (flat_map (anomaly_factors this) features)) (fst acc),
   (snd acc ++ flat_map (anomaly_factors this) features)%list).
Proof.
  revert acc. induction features as [|[key value] features IH]; intros [s fs]; simpl.
  - rewrite app_nil_r. reflexivity.
  - rewrite IH. unfold FD.anomalyStep, anomaly_factors, zScore_guarded. simpl.
    destruct (get key (FD.featureStats this)) as [stats|]; simpl; [|reflexivity].
    unfold push_if.
    destruct (abs _ >? FD.threshold this "zScoreThreshold")%num; simpl; [|reflexivity].
    rewrite <- app_assoc. reflexivity.
Qed.

(** C5, as amended.  For every feature of the vector that has an entry
    in the profile, [z = (value - mean) / (std || 1)]: the deviation is
    replaced by 1 only when it is 0.  [detectAnomalies] emits one
    STATISTICAL_ANOMALY factor for exactly the features whose [|z|]
    exceeds [zScoreThreshold], in the order of the vector, each with
    contribution [min(round(|z| * 5), 15)] and severity high when
    [|z| > 3] and medium otherwise, and returns the sum of the
    contributions. *)
Theorem detectAnomalies_spec (this : FD.t) (features : object num) :
  FD.detectAnomalies this features =
  (total (map contribution (flat_map (anomaly_factors this) features)),
   flat_map (anomaly_factors this) features).
Proof.
  unfold FD.detectAnomalies. rewrite fold_anomalyStep. reflexivity.
Qed.

(** C5 as stated fails: with mean 0.2 and deviation 0.1 a sole-source
    ratio of 0.6 is 4 deviations from the mean and a factor is emitted,
    while [(0.6 - 0.2) / max(0.1, 1)] is 0.4 and does not exceed 2.5. *)
Lemma small_deviation_counterexample :
  map type (snd (FD.detectAnomalies Examples.narrow_model [("soleSourceRatio", dec 6 10)]))
  = ["STATISTICAL_ANOMALY"] /\
  (abs (zScore_stated (dec 6 10) Examples.narrow_stats)
   >? FD.threshold Examples.narrow_model "zScoreThreshold")%num = false.
Proof. split; vm_compute; reflexivity. Qed.

(** ** Confidence *)

(** C6, as amended.  In every model state the confidence
    [scoreHealthcareProvider] reports is
    [round(base_confidence * data_completeness, 2)], with base 0.85 for a
    trained model and 0.70 otherwise and completeness
    [min(present_feature_count / 10, 1)], and so is the one
    [scoreContractor] reports unless the model is untrained with an empty
    profile, where it is the constant 0.70.  The formula gives at most
    0.1 on an empty feature vector. *)
Theorem confidence_spec (this : FD.t) (features : object num) :
  confidence (FD.scoreHealthcareProvider this features)
  = confidence_stated (FD.trained this) (List.length features) /\
  confidence (FD.scoreContractor this features)
  = (if (negb (FD.trained this) && Nat.eqb (List.length (FD.featureStats this)) 0)%bool
     then dec 7 10
     else confidence_stated (FD.trained this) (List.length features)) /\
  (confidence_stated (FD.trained this) 0 <=? dec 1 10)%num = true.
Proof.
  split; [|split].
  - unfold FD.scoreHealthcareProvider. cbv zeta. cbn [confidence].
    unfold FD.calculateConfidence, confidence_stated, keys. rewrite length_map. reflexivity.
  - unfold FD.scoreContractor, keys. rewrite length_map.
    destruct (negb (FD.trained this) && _)%bool.
    + reflexivity.
    + cbv zeta. cbn [confidence].
      unfold FD.calculateConfidence, confidence_stated, keys. rewrite length_map. reflexivity.
  - destruct (FD.trained this); vm_compute; reflexivity.
Qed.

(** C6 as stated fails: a detector that was never trained scores the
    empty contractor vector with confidence 0.7. *)
Lemma untrained_confidence_counterexample :
  confidence (FD.scoreContractor FD.constructor []) = dec 7 10 /\
  (confidence (FD.scoreContractor FD.constructor []) <=? dec 1 10)%num = false /\
  confidence_stated (FD.trained FD.constructor) 0 = Fin (0 # 100).
Proof. repeat split; vm_compute; reflexivity. Qed.

(** ** Monotonicity of the rule-based scores *)

Lemma get_set {A : Type} (k k' : string) (v : A) (o : object A) :
  get k' (set k v o) = if String.eqb k' k then Some v else get k' o.
Proof.
  destruct (String.eqb k' k) eqn:E.
  - apply String.eqb_eq in E. subst k'. apply get_set_same.
  - apply get_set_other. intro N. subst k'. rewrite String.eqb_refl in E. discriminate.
Qed.

Lemma gtb_is_ext (x t : num) : (x >? t)%num = true -> ext x.
Proof.
  intro G. apply gtb_ext in G. destruct G as [G1 G2].
  destruct x; simpl; auto.
Qed.

Lemma le_acc_refl (a : Acc) : ext (fst a) -> le_acc a a.
Proof. intro E. split; [exact E | apply leb_refl; exact E]. Qed.

Lemma le_acc_push_same (c : bool) (f : Factor) (a a' : Acc) :
  le_acc a a' -> (c = true -> ext (contribution f)) ->
  le_acc (push_if c f a) (push_if c f a').
Proof.
  intros [E L] C. unfold le_acc. rewrite !push_if_fst. destruct c; [|split; assumption].
  specialize (C eq_refl). split.
  - apply add_ext; assumption.
  - apply add_le_mono; auto. apply leb_refl; exact C.
Qed.

Lemma le_acc_push_grow (c c' : bool) (f f' : Factor) (a a' : Acc) :
  le_acc a a' -> c = true -> c' = true -> ext (contribution f) ->
  (contribution f <=? contribution f')%num = true ->
  le_acc (push_if c f a) (push_if c' f' a').
Proof.
  intros [E L] C C' X M. subst c c'. unfold le_acc. rewrite !push_if_fst. split.
  - apply add_ext; assumption.
  - apply add_le_mono; auto.
Qed.

Lemma le_acc_score (a a' : Acc) :
  le_acc a a' ->
  (min2 (round (fst a)) (of_Z 100) <=? min2 (round (fst a')) (of_Z 100))%num = true.
Proof.
  intros [E L]. apply min2_mono.
  - apply round_ext; exact E.
  - exact I.
  - apply round_mono; exact L.
Qed.

(** Evaluates the comparisons of literal keys. *)
Ltac eval_keys :=
  repeat match goal with
    | |- context [String.eqb ?a ?b] =>
        let r := eval vm_compute in (String.eqb a b) in
        change (String.eqb a b) with r
    end;
  cbv iota.

Ltac contribution_ext :=
  cbn [contribution];
  first
    [ apply nonneg_ext; contribution_nonneg
    | apply round_ext; apply mul_pos_ext;
      [ apply inject_Z_pos; lia
      | apply sub_fin_ext; eapply gtb_is_ext; eassumption ] ].

Ltac contribution_le :=
  cbn [contribution];
  first
    [ reflexivity
    | apply round_mono; apply mul_pos_mono;
      [ apply inject_Z_pos; lia | assumption | assumption ]
    | apply round_mono; apply mul_pos_mono;
      [ apply inject_Z_pos; lia
      | apply sub_fin_mono; assumption
      | apply sub_fin_ext; assumption ]
    | apply min2_mono;
      [ apply round_ext; apply mul_pos_ext;
        [ apply inject_Z_pos; lia | apply sub_fin_ext; assumption ]
      | exact I
      | apply round_mono; apply mul_pos_mono;
        [ apply inject_Z_pos; lia
        | apply sub_fin_mono; assumption
        | apply sub_fin_ext; assumption ] ] ].

Ltac acc_mono :=
  repeat first
    [ apply le_acc_push_same; [ | intro; contribution_ext ]
    | apply le_acc_push_grow;
      [ | assumption | assumption | contribution_ext | contribution_le ] ];
  try (apply le_acc_refl; exact I).

Lemma defaultContractorScoring_mono
    (this : FD.t) (features : object num) (k : string) (t v v' : num) :
  In (k, t) (ratio_rules this) ->
  get k features = Some v -> (v >? t)%num = true -> (v <=? v')%num = true ->
  (score (FD.defaultContractorScoring this features)
   <=? score (FD.defaultContractorScoring this (set k v' features)))%num = true.
Proof.
  intros R G B L.
  assert (B' : (v' >? t)%num = true) by (eapply gtb_leb_trans; eauto).
  assert (E : ext v) by (eapply gtb_is_ext; eauto).
  unfold FD.defaultContractorScoring. cbv zeta. cbn [score].
  apply le_acc_score.
  unfold ratio_rules in R. simpl in R.
  repeat (destruct R as [R | R]; [inversion R; subst k t; clear R|]);
    try contradiction;
    rewrite !get_set; eval_keys; rewrite ?G; cbn [toNumber]; acc_mono.
Qed.

Lemma scoreHealthcareProvider_mono
    (this : FD.t) (features : object num) (k : string) (t v v' : num) :
  In (k, t) (ratio_rules this) ->
  get k features = Some v -> (v >? t)%num = true -> (v <=? v')%num = true ->
  (score (FD.scoreHealthcareProvider this features)
   <=? score (FD.scoreHealthcareProvider this (set k v' features)))%num = true.
Proof.
  intros R G B L.
  assert (B' : (v' >? t)%num = true) by (eapply gtb_leb_trans; eauto).
  assert (E : ext v) by (eapply gtb_is_ext; eauto).
  unfold FD.scoreHealthcareProvider. cbv zeta. cbn [score].
  apply le_acc_score.
  unfold ratio_rules in R. simpl in R.
  repeat (destruct R as [R | R]; [inversion R; subst k t; clear R|]);
    try contradiction;
    rewrite !get_set; eval_keys; rewrite ?G; cbn [toNumber truthy_opt]; acc_mono.
Qed.

(** ** Monotonicity of the learned part above the mean *)

Lemma lower_ascii_not_upper (c : ascii) : is_upper (lower_ascii c) = false.
Proof.
  destruct c as [b0 b1 b2 b3 b4 b5 b6 b7].
  destruct b0, b1, b2, b3, b4, b5, b6, b7; vm_compute; reflexivity.
Qed.

Lemma replace_spaces_from_lower (in_run : bool) (s : string) :
  has_upper (replace_spaces_from in_run (toLowerCase s)) = false.
Proof.
  revert in_run. induction s as [|c s IH]; intro in_run; simpl; [reflexivity|].
  destruct (is_space (lower_ascii c)).
  - destruct in_run; simpl; rewrite ?IH; reflexivity.
  - simpl. rewrite lower_ascii_not_upper, IH. reflexivity.
Qed.

(** A key with a capital letter is never the key of an indicator. *)
Lemma indicator_key_neq (k ind : string) :
  has_upper k = true -> replace_spaces (toLowerCase ind) <> k.
Proof.
  intros U E. subst k. unfold replace_spaces in U.
  rewrite replace_spaces_from_lower in U. discriminate.
Qed.

Lemma fold_left_ext_eq {A B : Type} (f g : A -> B -> A) (l : list B) (a : A) :
  (forall a b, f a b = g a b) -> fold_left f l a = fold_left g l a.
Proof.
  intro E. revert a. induction l as [|b l IH]; intro a; simpl; [reflexivity|].
  rewrite E. apply IH.
Qed.

Lemma matchFraudPatterns_set (this : FD.t) (features : object num) (k : string) (v : num) :
  has_upper k = true ->
  FD.matchFraudPatterns this (set k v features) = FD.matchFraudPatterns this features.
Proof.
  intro U. unfold FD.matchFraudPatterns.
  destruct (FD.fraudPatterns this) as [p|]; [|reflexivity].
  apply fold_left_ext_eq. intros a e. unfold FD.patternStep. cbv zeta.
  rewrite (get_set_other k (replace_spaces (toLowerCase (FD.indicator e)))).
  - reflexivity.
  - apply indicator_key_neq. exact U.
Qed.

Lemma leb_add_nonneg_r (a a' c : num) :
  ext a -> (a <=? a')%num = true -> nonneg c -> (a <=? a' + c)%num = true.
Proof.
  destruct a, a', c; simpl; intros; try discriminate; try contradiction; auto.
  qprop. lra.
Qed.

Lemma anomaly_contribution_nonneg (z : num) :
  z <> NaN -> nonneg (min2 (round (abs z * of_Z 5)) (of_Z 15)).
Proof.
  intro N. apply min2_nonneg; [|apply of_Z_nonneg; lia].
  apply round_nonneg. apply mul_pos_nonneg; [apply inject_Z_pos; lia|].
  destruct z; simpl; try congruence; auto. apply Qabs_nonneg.
Qed.

Lemma gtb_not_NaN (x t : num) : (x >? t)%num = true -> x <> NaN.
Proof. intro G. apply gtb_ext in G. tauto. Qed.

Lemma abs_not_NaN (z : num) : abs z <> NaN -> z <> NaN.
Proof. destruct z; simpl; congruence. Qed.

(** Above the mean, [|z|] grows with the value. *)
Lemma abs_zScore_mono (m s : Q) (v v' : num) :
  (Fin m <=? v)%num = true -> (v <=? v')%num = true ->
  (abs ((v - Fin m) / (Fin s ||| of_Z 1)) <=? abs ((v' - Fin m) / (Fin s ||| of_Z 1)))%num
  = true.
Proof.
  intros M L.
  assert (D : exists d, (Fin s ||| of_Z 1)%num = Fin d /\ ~ d == 0).
  { unfold or_else, truthy. destruct (Qeq_bool s 0) eqn:E; simpl.
    - exists (inject_Z 1). split; [reflexivity|]. unfold inject_Z. lra.
    - exists s. split; [reflexivity|]. qprop. exact E. }
  destruct D as [d [Dd Dn]]. rewrite Dd.
  assert (Z0 : Qeq_bool d 0 = false) by (qprop; exact Dn).
  destruct v as [| | |x], v' as [| | |x']; simpl in *; try discriminate;
    rewrite ?Z0; simpl; auto.
  - destruct (Qlt_bool d 0); reflexivity.
  - destruct (Qlt_bool d 0); reflexivity.
  - qprop. unfold Qdiv. rewrite !Qabs_Qmult.
    rewrite (Qabs_pos (x + - m)) by lra. rewrite (Qabs_pos (x' + - m)) by lra.
    pose proof (Qabs_nonneg (/ d)). nra.
Qed.

Lemma anomalyStep_mono (this : FD.t) (k : string) (v v' : num) (a a' : Acc) :
  above_mean this k v = true -> (v <=? v')%num = true ->
  le_acc a a' ->
  le_acc (FD.anomalyStep this a (k, v)) (FD.anomalyStep this a' (k, v')).
Proof.
  unfold above_mean, FD.anomalyStep. intros A L LA.
  destruct (get k (FD.featureStats this)) as [stats|]; [|exact LA].
  apply andb_prop in A. destruct A as [A M]. apply andb_prop in A. destruct A as [Fm Fs].
  destruct (FD.mean stats) as [| | |m]; try discriminate.
  destruct (FD.std stats) as [| | |s]; try discriminate.
  cbv zeta. pose proof (abs_zScore_mono m s v v' M L) as Z.
  set (z := ((v - Fin m) / (Fin s ||| of_Z 1))%num) in *.
  set (z' := ((v' - Fin m) / (Fin s ||| of_Z 1))%num) in *.
  destruct (abs z >? FD.threshold this "zScoreThreshold")%num eqn:C.
  - assert (C' : (abs z' >? FD.threshold this "zScoreThreshold")%num = true)
      by (eapply gtb_leb_trans; eauto).
    rewrite C'. apply le_acc_push_grow; auto; cbn [contribution].
    + apply nonneg_ext. apply anomaly_contribution_nonneg.
      apply abs_not_NaN. eapply gtb_not_NaN; eauto.
    + apply min2_mono; [|exact I|].
      * apply round_ext. apply mul_pos_ext; [apply inject_Z_pos; lia|].
        eapply gtb_is_ext; eauto.
      * apply round_mono. apply mul_pos_mono; [apply inject_Z_pos; lia|exact Z|].
        eapply gtb_is_ext; eauto.
  - destruct (abs z' >? FD.threshold this "zScoreThreshold")%num eqn:C'.
    + destruct LA as [E LE]. split; [exact E|].
      unfold push_if at 2. cbn [fst contribution]. unfold push_if. cbn [fst].
      apply leb_add_nonneg_r; auto.
      apply anomaly_contribution_nonneg. apply abs_not_NaN. eapply gtb_not_NaN; eauto.
    + exact LA.
Qed.

Lemma anomalyStep_same (this : FD.t) (kv : string * num) (a a' : Acc) :
  le_acc a a' -> le_acc (FD.anomalyStep this a kv) (FD.anomalyStep this a' kv).
Proof.
  intro LA. destruct kv as [key value]. unfold FD.anomalyStep.
  destruct (get key (FD.featureStats this)) as [stats|]; [|exact LA].
  cbv zeta. apply le_acc_push_same; [exact LA|]. intro G. cbn [contribution].
  apply nonneg_ext. apply anomaly_contribution_nonneg.
  apply abs_not_NaN. eapply gtb_not_NaN; eauto.
Qed.

Lemma fold_anomalyStep_same (this : FD.t) (l : object num) (a a' : Acc) :
  le_acc a a' ->
  le_acc (fold_left (FD.anomalyStep this) l a) (fold_left (FD.anomalyStep this) l a').
Proof.
  revert a a'. induction l as [|kv l IH]; intros a a' LA; simpl; [exact LA|].
  apply IH. apply anomalyStep_same. exact LA.
Qed.

Lemma fold_anomalyStep_mono (this : FD.t) (k : string) (v v' : num) (l : object num) :
  above_mean this k v = true -> (v <=? v')%num = true ->
  get k l = Some v ->
  forall a a', le_acc a a' ->
  le_acc (fold_left (FD.anomalyStep this) l a)
         (fold_left (FD.anomalyStep this) (set k v' l) a').
Proof.
  intros A L. induction l as [|[k0 v0] l IH]; cbn [fold_left set get];
    intros G a a' LA; [discriminate|].
  destruct (String.eqb k k0) eqn:E; cbn [fold_left].
  - apply String.eqb_eq in E. subst k0. inversion G; subst v0.
    apply fold_anomalyStep_same. apply anomalyStep_mono; assumption.
  - apply IH; [exact G|]. apply anomalyStep_same. exact LA.
Qed.

Lemma ratio_rule_has_upper (this : FD.t) (k : string) (t : num) :
  In (k, t) (ratio_rules this) -> has_upper k = true.
Proof.
  unfold ratio_rules. simpl. intro R.
  repeat (destruct R as [R | R]; [inversion R; vm_compute; reflexivity|]).
  contradiction.
Qed.

Lemma scoreContractor_mono
    (this : FD.t) (features : object num) (k : string) (t v v' : num) :
  In (k, t) (ratio_rules this) ->
  get k features = Some v -> (v >? t)%num = true -> (v <=? v')%num = true ->
  rules_or_above_mean this k v = true ->
  (score (FD.scoreContractor this features)
   <=? score (FD.scoreContractor this (set k v' features)))%num = true.
Proof.
  intros R G B L H. unfold rules_or_above_mean in H. unfold FD.scoreContractor.
  destruct (negb (FD.trained this) && _)%bool.
  - eapply defaultContractorScoring_mono; eauto.
  - simpl in H. apply andb_prop in H. destruct H as [W A].
    cbv zeta. cbn [score].
    rewrite (matchFraudPatterns_set this features k v')
      by (eapply ratio_rule_has_upper; eauto).
    pose proof (matchFraudPatterns_nonneg this features W) as P.
    assert (D : le_acc (FD.detectAnomalies this features)
                       (FD.detectAnomalies this (set k v' features))).
    { unfold FD.detectAnomalies. apply (fold_anomalyStep_mono this k v v'); auto.
      apply le_acc_refl. exact I. }
    destruct D as [DE DL]. unfold FD.applyContractorRules. cbn [fst].
    assert (X : ext (Fin 0 + fst (FD.detectAnomalies this features))%num)
      by (apply add_ext; [exact I | exact DE]).
    assert (Y : ext (Fin 0 + fst (FD.detectAnomalies this features)
                     + fst (FD.matchFraudPatterns this features))%num)
      by (apply add_ext; [exact X | apply nonneg_ext; exact P]).
    apply min2_mono; [apply round_ext; apply add_ext; [exact Y | exact I] | exact I |].
    apply round_mono.
    apply add_le_mono; [exact Y | exact I | | reflexivity].
    apply add_le_mono; [exact X | apply nonneg_ext; exact P | |
                        apply leb_refl; apply nonneg_ext; exact P].
    apply add_le_mono; [exact I | exact DE | reflexivity | exact DL].
Qed.

(** C7, as amended.  Holding the other features fixed, increasing a
    ratio feature that is beyond the threshold of its rule never
    decreases the score of [scoreHealthcareProvider], in any model
    state, nor the score of [scoreContractor] when the detector is
    untrained with an empty profile (the default rules) or when the
    pattern weights are at least 0 and the profile has no entry for the
    feature or one with a finite mean and deviation whose mean is not
    above the value. *)
Theorem rule_score_monotone
    (this : FD.t) (features : object num) (k : string) (t v v' : num) :
  In (k, t) (ratio_rules this) ->
  get k features = Some v -> (v >? t)%num = true -> (v <=? v')%num = true ->
  (score (FD.scoreHealthcareProvider this features)
   <=? score (FD.scoreHealthcareProvider this (set k v' features)))%num = true /\
  (rules_or_above_mean this k v = true ->
   (score (FD.scoreContractor this features)
    <=? score (FD.scoreContractor this (set k v' features)))%num = true).
Proof.
  intros R G B L. split.
  - eapply scoreHealthcareProvider_mono; eauto.
  - intro H. eapply scoreContractor_mono; eauto.
Qed.

Lemma rule_score_monotone_witness :
  (score (FD.scoreHealthcareProvider Examples.trained_model
            (FeatureExtractor.extractContractorFeatures floor_sqrt Examples.scenario_a))
   <=? score (FD.scoreHealthcareProvider Examples.trained_model
                (set "agencyConcentration" (of_Z 1)
                   (FeatureExtractor.extractContractorFeatures floor_sqrt
                      Examples.scenario_a))))%num = true /\
  (score (FD.scoreContractor Examples.trained_model
            (FeatureExtractor.extractContractorFeatures floor_sqrt Examples.scenario_a))
   <=? score (FD.scoreContractor Examples.trained_model
                (set "agencyConcentration" (of_Z 1)
                   (FeatureExtractor.extractContractorFeatures floor_sqrt
                      Examples.scenario_a))))%num = true.
Proof.
  assert (R : In ("agencyConcentration", dec 8 10) (ratio_rules Examples.trained_model))
    by (right; left; reflexivity).
  assert (G : get "agencyConcentration"
                (FeatureExtractor.extractContractorFeatures floor_sqrt Examples.scenario_a)
              = Some (Fin (9 # 10))) by (vm_compute; reflexivity).
  assert (B : (Fin (9 # 10) >? dec 8 10)%num = true) by (vm_compute; reflexivity).
  assert (L : (Fin (9 # 10) <=? of_Z 1)%num = true) by (vm_compute; reflexivity).
  destruct (rule_score_monotone Examples.trained_model _ _ _ _ _ R G B L) as [H C].
  split; [exact H | apply C; vm_compute; reflexivity].
Defined.

(** C7 as stated fails once the anomaly strategy is active: against a
    profile whose large-award ratio has mean 0.9 and deviation 0.1, the
    ratio 0.4 (beyond the rule threshold 0.3) is 5 deviations below the
    mean and scores 15; raised to 0.9 it is at the mean and scores 0. *)
Lemma below_mean_counterexample :
  (dec 4 10 >? dec 3 10)%num = true /\
  (dec 4 10 <=? dec 9 10)%num = true /\
  score (FD.scoreContractor Examples.high_mean_model [("largeAwardRatio", dec 4 10)])
  = of_Z 15 /\
  score (FD.scoreContractor Examples.high_mean_model
           (set "largeAwardRatio" (dec 9 10) [("largeAwardRatio", dec 4 10)]))
  = of_Z 0 /\
  (score (FD.scoreContractor Examples.high_mean_model [("largeAwardRatio", dec 4 10)])
   <=? score (FD.scoreContractor Examples.high_mean_model
                (set "largeAwardRatio" (dec 9 10) [("largeAwardRatio", dec 4 10)])))%num
  = false.
Proof. repeat split; vm_compute; reflexivity. Qed.

(** ** Feature extraction on empty and degenerate collections *)

(** C2, as amended.  No extractor raises on an empty collection: each
    returns a vector.  The extractor of the scoring route returns the
    empty vector for an absent and for an empty contract collection.
    The healthcare extractor never returns the empty vector: whatever
    the billing and payment collections, empty ones included, its vector
    holds the two exclusion flags, set from the provider, and given
    neither collection it holds nothing else.  On empty collections the
    training extractor returns a vector of its thirteen features and
    the healthcare extractor one of its fourteen features; what the
    entries beside the flags hold there is not part of the amended
    claim. *)
Theorem empty_collection_features (sqrt_fin : Q -> Q)
    (provider : FeatureExtractor.Provider)
    (billing : option (list FeatureExtractor.Billing))
    (payments : option (list FeatureExtractor.Payment)) :
  Route.extractFeatures None = [] /\
  Route.extractFeatures (Some []) = [] /\
  keys (FeatureExtractor.extractContractorFeatures sqrt_fin []) =
    [ "totalAwarded"; "avgAward"; "awardCount"; "maxAward"; "minAward"; "awardStdDev";
      "concentrationIndex"; "agencyConcentration"; "yearOverYearGrowth";
      "soleSourceRatio"; "highRiskCategoryRatio"; "defenseRatio"; "largeAwardRatio" ] /\
  List.length (FeatureExtractor.extractHealthcareFeatures provider (Some []) (Some [])) = 14%nat /\
  get "hasExclusionHistory"
    (FeatureExtractor.extractHealthcareFeatures provider billing payments)
  = Some (if FeatureExtractor.excludedPreviously provider then of_Z 1 else of_Z 0) /\
  get "relatedPartyExcluded"
    (FeatureExtractor.extractHealthcareFeatures provider billing payments)
  = Some (if FeatureExtractor.relatedPartyExcluded provider then of_Z 1 else of_Z 0) /\
  FeatureExtractor.extractHealthcareFeatures provider None None =
    [ ("hasExclusionHistory",
        if FeatureExtractor.excludedPreviously provider then of_Z 1 else of_Z 0);
      ("relatedPartyExcluded",
        if FeatureExtractor.relatedPartyExcluded provider then of_Z 1 else of_Z 0) ].
Proof.
  split; [reflexivity|]. split; [reflexivity|]. split; [reflexivity|].
  split; [reflexivity|].
  split; [|split; [|reflexivity]].
  - destruct billing, payments; unfold FeatureExtractor.extractHealthcareFeatures;
      cbv zeta; cbn [app get]; eval_keys; reflexivity.
  - destruct billing, payments; unfold FeatureExtractor.extractHealthcareFeatures;
      cbv zeta; cbn [app get]; eval_keys; reflexivity.
Qed.

(** C2 as stated fails for the healthcare kind: with an empty billing
    collection and an empty payment collection the vector still holds
    the exclusion flags (here both 0), so it is not empty. *)
Lemma healthcare_flags_counterexample :
  FeatureExtractor.extractHealthcareFeatures Examples.clean_provider (Some []) (Some [])
  <> [] /\
  get "hasExclusionHistory"
    (FeatureExtractor.extractHealthcareFeatures Examples.clean_provider (Some []) (Some []))
  = Some (of_Z 0).
Proof. split; [vm_compute; discriminate | vm_compute; reflexivity]. Qed.

(** C4 fails on the code.  For a contractor whose only award has amount
    0 the concentration index is the square of 0/0; for an empty award
    list the four ratios are 0/0 and the extremes are infinite; for an
    empty billing collection the average claim is 0/0. *)
Theorem extractor_not_finite (sqrt_fin : Q -> Q) :
  get "concentrationIndex"
    (FeatureExtractor.extractContractorFeatures sqrt_fin Examples.zero_award) = Some NaN /\
  get "soleSourceRatio" (FeatureExtractor.extractContractorFeatures sqrt_fin []) = Some NaN /\
  get "largeAwardRatio" (FeatureExtractor.extractContractorFeatures sqrt_fin []) = Some NaN /\
  get "maxAward" (FeatureExtractor.extractContractorFeatures sqrt_fin []) = Some NInf /\
  get "agencyConcentration" (FeatureExtractor.extractContractorFeatures sqrt_fin [])
  = Some NInf /\
  get "avgClaim"
    (FeatureExtractor.extractHealthcareFeatures Examples.clean_provider (Some []) None)
  = Some NaN.
Proof. repeat split; vm_compute; reflexivity. Qed.

(** ** Loading the model *)

Lemma load_missing (fs : FS) (path : string) :
  content fs path = None -> FD.load fs path = Throw ENOENT.
Proof. intro H. unfold FD.load, readFile. rewrite H. reflexivity. Qed.

Lemma load_unparseable (fs : FS) (path : string) :
  content fs path = Some Garbage -> FD.load fs path = Throw SyntaxError.
Proof. intro H. unfold FD.load, readFile. rewrite H. reflexivity. Qed.


(** Scoring with the [null] model does not throw; it uses the built-in
    thresholds, no pattern, the version 'default' and confidence 0.70. *)
Lemma scoreContractor_without_model (ToNumber_other : jsval -> num) (features : object num) :
  exists r : Route.Result,
    Route.scoreContractor ToNumber_other features JNull = OK r /\
    Route.riskLevel r =
      (if (Route.score r >=? of_Z 50)%num then "High"
       else if (Route.score r >=? of_Z 25)%num then "Medium" else "Low") /\
    Route.modelVersion r = JStr "default" /\
    Route.confidence r = dec 70 100.
Proof.
  eexists. split; [reflexivity|]. repeat split.
Qed.

(** C8 fails on the code for the [load] method of the detector: it has
    no handler, so a missing file rejects with the error of [readFile]
    and an unparseable one with the error of [JSON.parse]; nothing falls
    back to a default model. *)
Theorem load_raises_without_artifact :
  FD.load Examples.no_model_fs Route.MODEL_PATH = Throw ENOENT /\
  FD.load Examples.garbled_fs Route.MODEL_PATH = Throw SyntaxError.
Proof. split; vm_compute; reflexivity. Qed.

(** ** Saving and loading *)

Lemma reparse_JNum (x : num) : isFinite x = true -> reparse (JNum x) = JNum x.
Proof. intro F. simpl. rewrite F. reflexivity. Qed.

Lemma reparse_JObj (props : list (string * jsval)) :
  reparse (JObj props) =
  JObj (flat_map (fun kv : string * jsval =>
                    let (k, e) := kv in
                    if is_undefined e then [] else [(k, reparse e)]) props).
Proof. reflexivity. Qed.

Lemma reparse_JArr (l : list jsval) :
  reparse (JArr l) = JArr (map (fun e => if is_undefined e then JNull else reparse e) l).
Proof. reflexivity. Qed.

(** An object whose property values are written and read back unchanged
    is written and read back unchanged. *)
Lemma reparse_object {A : Type} (enc : A -> jsval) (o : object A) :
  (forall kv, In kv o ->
     is_undefined (enc (snd kv)) = false /\ reparse (enc (snd kv)) = enc (snd kv)) ->
  reparse (JObj (map (fun kv => (fst kv, enc (snd kv))) o))
  = JObj (map (fun kv => (fst kv, enc (snd kv))) o).
Proof.
  intro H. rewrite reparse_JObj. f_equal.
  induction o as [|[k a] o IH]; [reflexivity|].
  cbn [map flat_map fst snd].
  destruct (H (k, a) (or_introl eq_refl)) as [U R]. cbn [snd] in U, R.
  rewrite U, R. cbn [app]. f_equal. apply IH.
  intros kv I. apply H. right. exact I.
Qed.

Lemma reparse_array {A : Type} (enc : A -> jsval) (l : list A) :
  (forall a, In a l -> is_undefined (enc a) = false /\ reparse (enc a) = enc a) ->
  reparse (JArr (map enc l)) = JArr (map enc l).
Proof.
  intro H. rewrite reparse_JArr. f_equal. rewrite map_map.
  apply map_ext_in. intros a I. destruct (H a I) as [U R]. rewrite U. exact R.
Qed.

Ltac split_andb :=
  repeat match goal with
    | H : (_ && _)%bool = true |- _ => apply andb_prop in H; destruct H
    end.

Lemma reparse_js_stat (st : FD.FeatureStat) :
  finite_stat st = true -> reparse (FD.js_stat st) = FD.js_stat st.
Proof.
  unfold finite_stat. intro F. split_andb.
  unfold FD.js_stat. rewrite reparse_JObj. cbn [flat_map is_undefined app].
  rewrite !reparse_JNum by (assumption || reflexivity). reflexivity.
Qed.

Lemma reparse_js_featureStats (stats : object FD.FeatureStat) :
  forallb (fun kv => finite_stat (snd kv)) stats = true ->
  reparse (FD.js_featureStats stats) = FD.js_featureStats stats.
Proof.
  intro F. unfold FD.js_featureStats. apply reparse_object.
  intros kv I. split; [reflexivity|].
  apply reparse_js_stat. rewrite forallb_forall in F. apply (F kv I).
Qed.

Lemma reparse_js_thresholds (table : object num) :
  forallb (fun kv => isFinite (snd kv)) table = true ->
  reparse (FD.js_thresholds table) = FD.js_thresholds table.
Proof.
  intro F. unfold FD.js_thresholds. apply reparse_object.
  intros kv I. split; [reflexivity|].
  apply reparse_JNum. rewrite forallb_forall in F. apply (F kv I).
Qed.

Lemma reparse_js_fraudPatterns (patterns : option FD.Patterns) :
  finite_patterns patterns = true ->
  reparse (FD.js_fraudPatterns patterns) = FD.js_fraudPatterns patterns.
Proof.
  destruct patterns as [p|]; [|reflexivity].
  unfold finite_patterns. intro F. split_andb.
  unfold FD.js_fraudPatterns. rewrite reparse_JObj. cbn [flat_map is_undefined app].
  rewrite (reparse_object
             (fun e => JObj [ ("count", JNum (FD.ft_count e));
                              ("totalAmount", JNum (FD.ft_totalAmount e));
                              ("avgAmount", JNum (FD.ft_avgAmount e));
                              ("indicators", JObj []) ])).
  2:{ intros kv I. split; [reflexivity|].
      match goal with
      | H : forallb _ (FD.byFraudType p) = true |- _ =>
          rewrite forallb_forall in H; specialize (H kv I)
      end.
      split_andb. rewrite reparse_JObj. cbn [flat_map is_undefined app].
      rewrite !reparse_JNum by assumption. reflexivity. }
  rewrite (reparse_object
             (fun e => JObj [ ("count", JNum (FD.in_count e));
                              ("totalAmount", JNum (FD.in_totalAmount e));
                              ("fraudTypes", JObj []) ])).
  2:{ intros kv I. split; [reflexivity|].
      match goal with
      | H : forallb _ (FD.byIndustry p) = true |- _ =>
          rewrite forallb_forall in H; specialize (H kv I)
      end.
      split_andb. rewrite reparse_JObj. cbn [flat_map is_undefined app].
      rewrite !reparse_JNum by assumption. reflexivity. }
  rewrite (reparse_object JNum).
  2:{ intros kv I. split; [reflexivity|]. apply reparse_JNum.
      match goal with
      | H : forallb _ (FD.indicators p) = true |- _ =>
          rewrite forallb_forall in H; apply (H kv I)
      end. }
  rewrite (reparse_array FD.js_entry).
  2:{ intros e I. split; [reflexivity|].
      match goal with
      | H : forallb _ (FD.commonFactors p) = true |- _ =>
          rewrite forallb_forall in H; specialize (H e I)
      end.
      split_andb. unfold FD.js_entry. rewrite reparse_JObj.
      cbn [flat_map is_undefined app].
      rewrite !reparse_JNum by assumption. reflexivity. }
  reflexivity.
Qed.

(** What [save] writes parses to the model data itself when the model
    holds finite numbers only. *)
Lemma reparse_modelData (this : FD.t) (now : string) :
  finite_model this = true ->
  reparse (FD.modelData this now) = FD.modelData this now.
Proof.
  unfold finite_model. intro F. split_andb.
  unfold FD.modelData. rewrite reparse_JObj. cbn [flat_map is_undefined app].
  rewrite reparse_js_featureStats, reparse_js_fraudPatterns, reparse_js_thresholds
    by assumption.
  change (is_undefined (FD.js_featureStats (FD.featureStats this))) with false.
  change (is_undefined (FD.js_thresholds (FD.thresholds this))) with false.
  replace (is_undefined (FD.js_fraudPatterns (FD.fraudPatterns this))) with false
    by (destruct (FD.fraudPatterns this); reflexivity).
  reflexivity.
Qed.

Lemma save_then_load (this : FD.t) (fs fs' : FS) (path now : string) :
  finite_model this = true ->
  FD.save this fs path now = OK fs' ->
  FD.load fs' path =
  OK {| FD.l_modelVersion := JStr (FD.modelVersion this);
        FD.l_trained := JBool (FD.trained this);
        FD.l_featureStats := FD.js_featureStats (FD.featureStats this);
        FD.l_fraudPatterns := FD.js_fraudPatterns (FD.fraudPatterns this);
        FD.l_thresholds := FD.js_thresholds (FD.thresholds this) |}.
Proof.
  intros F S. unfold FD.save, writeFile in S.
  destruct (writable fs path); [|discriminate].
  inversion S; subst fs'; clear S.
  unfold FD.load, readFile. cbn [content]. rewrite String.eqb_refl.
  cbn [bind parse stringify]. rewrite reparse_modelData by exact F.
  reflexivity.
Qed.

(** C9, as amended.  For every training corpus and labeled case set for
    which the trained profile, patterns and thresholds hold finite
    numbers only, a successful [save] followed by [load] of the saved
    file yields a model whose [featureStats], [fraudPatterns] and
    [thresholds] are the values of the in-memory trained model. *)
Theorem save_load_roundtrip
    (sqrt_fin : Q -> Q) (this : FD.t)
    (corpus : list FD.TrainingRecord) (cases : list FD.FraudCase)
    (fs fs' : FS) (path now : string) :
  finite_model (FD.train sqrt_fin this corpus cases) = true ->
  FD.save (FD.train sqrt_fin this corpus cases) fs path now = OK fs' ->
  exists l : FD.Loaded,
    FD.load fs' path = OK l /\
    FD.l_featureStats l
    = FD.js_featureStats (FD.featureStats (FD.train sqrt_fin this corpus cases)) /\
    FD.l_fraudPatterns l
    = FD.js_fraudPatterns (FD.fraudPatterns (FD.train sqrt_fin this corpus cases)) /\
    FD.l_thresholds l
    = FD.js_thresholds (FD.thresholds (FD.train sqrt_fin this corpus cases)).
Proof.
  intros F S. eexists. split; [eapply save_then_load; eauto|].
  repeat split.
Qed.

Lemma save_load_roundtrip_witness :
  finite_model Examples.trained_model = true /\
  exists (fs' : FS) (l : FD.Loaded),
    FD.save Examples.trained_model Examples.no_model_fs Route.MODEL_PATH
      "2024-05-01T00:00:00.000Z" = OK fs' /\
    FD.load fs' Route.MODEL_PATH = OK l /\
    FD.l_featureStats l = FD.js_featureStats (FD.featureStats Examples.trained_model) /\
    FD.l_fraudPatterns l = FD.js_fraudPatterns (FD.fraudPatterns Examples.trained_model) /\
    FD.l_thresholds l = FD.js_thresholds (FD.thresholds Examples.trained_model).
Proof.
  assert (F : finite_model Examples.trained_model = true) by (vm_compute; reflexivity).
  split; [exact F|].
  destruct (FD.save Examples.trained_model Examples.no_model_fs Route.MODEL_PATH
              "2024-05-01T00:00:00.000Z") as [fs'|e] eqn:S; [|discriminate S].
  destruct (save_load_roundtrip floor_sqrt FD.constructor Examples.corpus Examples.cases
              Examples.no_model_fs fs' Route.MODEL_PATH "2024-05-01T00:00:00.000Z" F S)
    as [l H].
  exists fs', l. split; [reflexivity | exact H].
Defined.

(** C9 as stated fails.  Training on the features of the contractor
    whose only award has amount 0 gives a profile in which the mean of
    the concentration index is NaN; [JSON.stringify] writes NaN as
    [null], so the loaded profile holds [null] where the in-memory one
    holds NaN. *)
Lemma nan_roundtrip_counterexample :
  exists (fs' : FS) (l : FD.Loaded),
    FD.save Examples.zero_award_model Examples.no_model_fs Route.MODEL_PATH
      "2024-05-01T00:00:00.000Z" = OK fs' /\
    FD.load fs' Route.MODEL_PATH = OK l /\
    opt_prop (opt_prop (FD.l_featureStats l) "concentrationIndex") "mean" = JNull /\
    opt_prop (opt_prop (FD.js_featureStats (FD.featureStats Examples.zero_award_model))
                "concentrationIndex") "mean" = JNum NaN /\
    FD.l_featureStats l <> FD.js_featureStats (FD.featureStats Examples.zero_award_model).
Proof.
  eexists. eexists. split; [reflexivity|]. split; [vm_compute; reflexivity|].
  assert (A : opt_prop (opt_prop (FD.js_featureStats
                                    (FD.featureStats Examples.zero_award_model))
                          "concentrationIndex") "mean" = JNum NaN)
    by (vm_compute; reflexivity).
  split; [vm_compute; reflexivity|]. split; [exact A|].
  intro E. rewrite <- E in A. vm_compute in A. discriminate A.
Qed.

(** ** Year-over-year growth *)

(** *** The order of year strings *)
Lemma str_ltb_trans (x y z : string) :
  String.ltb x y = true -> String.ltb y z = true -> String.ltb x z = true.
Proof.
  unfold String.ltb.
  change String.compare with String_as_OT.compare.
  destruct (String_as_OT.compare x y) eqn:A; try discriminate.
  destruct (String_as_OT.compare y z) eqn:B; try discriminate.
  intros _ _.
  pose proof (@StrictOrder_Transitive _ _ String_as_OT.lt_strorder x y z A B) as C.
  unfold String_as_OT.lt in C. rewrite C. reflexivity.
Qed.

Lemma str_ltb_irrefl (x : string) : String.ltb x x = false.
Proof.
  unfold String.ltb. pose proof (String.compare_antisym x x) as A.
  destruct (String.compare x x); simpl in A; try discriminate; reflexivity.
Qed.

Lemma str_ltb_total (x y : string) :
  x <> y -> String.ltb x y = false -> String.ltb y x = true.
Proof.
  unfold String.ltb. intros N. rewrite (String.compare_antisym y x).
  destruct (String.compare x y) eqn:C; simpl; try discriminate; auto.
  apply String.compare_eq_iff in C. contradiction.
Qed.

Lemma str_ltb_asym (x y : string) : String.ltb x y = true -> String.ltb y x = false.
Proof.
  intro H. destruct (String.ltb y x) eqn:E; [|reflexivity].
  pose proof (str_ltb_trans x y x H E) as C. rewrite str_ltb_irrefl in C. discriminate.
Qed.

Lemma greatest_unique (l : list string) (m m' : string) :
  greatest l m -> greatest l m' -> m = m'.
Proof.
  intros [I G] [I' G'].
  destruct (String.eqb m m') eqn:E; [apply String.eqb_eq; exact E|].
  apply String.eqb_neq in E.
  pose proof (str_ltb_total m m' E (G m' I')) as C.
  rewrite (G' m I) in C. discriminate.
Qed.

Lemma latest_greatest (l : list string) :
  match latest l with
  | Some m => greatest l m
  | None => l = []
  end.
Proof.
  induction l as [|y l IH]; simpl; [reflexivity|].
  destruct (latest l) as [m|].
  - destruct IH as [I G]. destruct (String.ltb m y) eqn:E.
    + split; [left; reflexivity|]. intros z [Z | Z].
      * subst z. apply str_ltb_irrefl.
      * destruct (String.ltb y z) eqn:F; [|reflexivity].
        pose proof (str_ltb_trans m y z E F) as C. rewrite (G z Z) in C. discriminate.
    + split; [right; exact I|]. intros z [Z | Z]; [subst z; exact E | apply G; exact Z].
  - subst l. split; [left; reflexivity|]. intros z [Z | []]. subst z. apply str_ltb_irrefl.
Qed.

Lemma latest_of_greatest (l : list string) (m : string) :
  greatest l m -> latest l = Some m.
Proof.
  intro G. pose proof (latest_greatest l) as H.
  destruct (latest l) as [m'|].
  - f_equal. eapply greatest_unique; eauto.
  - subst l. destruct G as [[] _].
Qed.

Lemma greatest_ext (l l' : list string) (m : string) :
  (forall y, In y l <-> In y l') -> greatest l m -> greatest l' m.
Proof.
  intros E [I G]. split; [apply E; exact I|]. intros y Y. apply G. apply E. exact Y.
Qed.

(** *** Sorting the years *)
Lemma insert_str_In (x : string) (l : list string) (y : string) :
  In y (insert_str x l) <-> y = x \/ In y l.
Proof.
  induction l as [|z l IH]; simpl.
  - intuition.
  - destruct (String.ltb z x); simpl; rewrite ?IH; intuition.
Qed.

Lemma sort_strings_In (l : list string) (y : string) :
  In y (sort_strings l) <-> In y l.
Proof.
  induction l as [|x l IH]; simpl; [reflexivity|].
  rewrite insert_str_In, IH. intuition.
Qed.

Lemma insert_str_sorted (x : string) (l : list string) :
  ~ In x l -> StronglySorted str_lt l -> StronglySorted str_lt (insert_str x l).
Proof.
  intros N S. induction S as [|z l S IH F]; simpl.
  - constructor; constructor.
  - destruct (String.ltb z x) eqn:E.
    + constructor.
      * apply IH. intro I. apply N. right. exact I.
      * apply Forall_forall. intros y Y. apply insert_str_In in Y. destruct Y as [Y | Y].
        -- subst y. exact E.
        -- rewrite Forall_forall in F. apply F. exact Y.
    + assert (X : str_lt x z).
      { apply str_ltb_total; [|exact E]. intro Q. apply N. left. exact Q. }
      constructor; [constructor; assumption|].
      constructor; [exact X|].
      apply Forall_forall. intros y Y. rewrite Forall_forall in F.
      eapply str_ltb_trans; [exact X | apply F; exact Y].
Qed.

Lemma sort_strings_sorted (l : list string) :
  NoDup l -> StronglySorted str_lt (sort_strings l).
Proof.
  intro D. induction D as [|x l N D IH]; simpl; [constructor|].
  apply insert_str_sorted; [|exact IH].
  intro I. apply N. apply sort_strings_In. exact I.
Qed.

Lemma sorted_app (l1 l2 : list string) :
  StronglySorted str_lt (l1 ++ l2) ->
  forall a b, In a l1 -> In b l2 -> str_lt a b.
Proof.
  induction l1 as [|x l1 IH]; simpl; intros S a b A B; [contradiction|].
  inversion S as [|? ? S' F]; subst. destruct A as [A | A].
  - subst a. rewrite Forall_forall in F. apply F. apply in_or_app. right. exact B.
  - apply IH; assumption.
Qed.

(** The last entry of a sorted list is its greatest member, and the one
    before it the greatest of those below. *)
Lemma sorted_last (s : list string) (y1 : string) :
  StronglySorted str_lt (s ++ [y1]) -> greatest (s ++ [y1]) y1.
Proof.
  intro S. split; [apply in_or_app; right; left; reflexivity|].
  intros y Y. apply in_app_or in Y. destruct Y as [Y | [Y | []]].
  - apply str_ltb_asym. eapply sorted_app; eauto. left. reflexivity.
  - subst y. apply str_ltb_irrefl.
Qed.

Lemma sorted_second_last (s : list string) (y2 y1 : string) :
  StronglySorted str_lt (s ++ [y2; y1]) ->
  greatest (filter (fun y => String.ltb y y1) (s ++ [y2; y1])) y2.
Proof.
  intro S.
  assert (L : str_lt y2 y1).
  { apply (sorted_app (s ++ [y2]) [y1]).
    - rewrite <- app_assoc. exact S.
    - apply in_or_app. right. left. reflexivity.
    - left. reflexivity. }
  split.
  - apply filter_In. split; [|exact L]. apply in_or_app. right. left. reflexivity.
  - intros y Y. apply filter_In in Y. destruct Y as [Y Ly].
    apply in_app_or in Y. destruct Y as [Y | [Y | [Y | []]]].
    + apply str_ltb_asym. eapply sorted_app; eauto. left. reflexivity.
    + subst y. apply str_ltb_irrefl.
    + subst y. rewrite str_ltb_irrefl in Ly. discriminate.
Qed.

(** *** Equality of numbers up to the representation of rationals *)
Lemma same_refl (x : num) : same x x.
Proof. destruct x; simpl; auto. apply Qeq_refl. Qed.

Lemma same_sym (x y : num) : same x y -> same y x.
Proof. destruct x, y; simpl; auto. apply Qeq_sym. Qed.

Lemma same_trans (x y z : num) : same x y -> same y z -> same x z.
Proof. destruct x, y, z; simpl; auto; try contradiction. apply Qeq_trans. Qed.

Lemma add_same (a a' b b' : num) : same a a' -> same b b' -> same (a + b) (a' + b').
Proof.
  destruct a, a', b, b'; simpl; auto; try contradiction.
  intros A B. rewrite A, B. reflexivity.
Qed.

Lemma truthy_same (a a' : num) : same a a' -> truthy a = truthy a'.
Proof.
  destruct a, a'; simpl; auto; try contradiction.
  intro A. f_equal. destruct (Qeq_bool q 0) eqn:E, (Qeq_bool q0 0) eqn:E'; auto; qprop.
  - exfalso. apply E'. rewrite <- A. exact E.
  - exfalso. apply E. rewrite A. exact E'.
Qed.

Lemma or_else_same (a a' d d' : num) :
  same a a' -> same d d' -> same (a ||| d) (a' ||| d').
Proof.
  intros A D. unfold or_else. rewrite (truthy_same a a' A).
  destruct (truthy a'); assumption.
Qed.

Lemma div_same (a a' b b' : num) : same a a' -> same b b' -> same (a / b) (a' / b').
Proof.
  destruct a as [| | |p], a' as [| | |p'], b as [| | |q], b' as [| | |q']; simpl; auto;
    try contradiction; intros A B.
  - replace (Qlt_bool q' 0) with (Qlt_bool q 0); [destruct (Qlt_bool q 0); simpl; auto|].
    destruct (Qlt_bool q 0) eqn:E, (Qlt_bool q' 0) eqn:E'; auto; qprop; lra.
  - replace (Qlt_bool q' 0) with (Qlt_bool q 0); [destruct (Qlt_bool q 0); simpl; auto|].
    destruct (Qlt_bool q 0) eqn:E, (Qlt_bool q' 0) eqn:E'; auto; qprop; lra.
  - apply Qeq_refl.
  - apply Qeq_refl.
  - replace (Qeq_bool q' 0) with (Qeq_bool q 0).
    2:{ destruct (Qeq_bool q 0) eqn:E, (Qeq_bool q' 0) eqn:E'; auto; qprop.
        - exfalso. apply E'. rewrite <- B. exact E.
        - exfalso. apply E. rewrite B. exact E'. }
    destruct (Qeq_bool q 0) eqn:E.
    + replace (0 ?= p') with (0 ?= p); [destruct (0 ?= p); simpl; auto|].
      rewrite A. reflexivity.
    + simpl. rewrite A, B. reflexivity.
Qed.

(** *** Keys of an object *)
Lemma keys_set_In {A : Type} (k : string) (v : A) (o : object A) (y : string) :
  In y (keys (set k v o)) <-> y = k \/ In y (keys o).
Proof.
  unfold keys. induction o as [|[k' v'] o IH]; simpl.
  - intuition.
  - destruct (String.eqb k k') eqn:E; simpl.
    + apply String.eqb_eq in E. subst k'. intuition.
    + rewrite IH. intuition.
Qed.

Lemma keys_set_NoDup {A : Type} (k : string) (v : A) (o : object A) :
  NoDup (keys o) -> NoDup (keys (set k v o)).
Proof.
  unfold keys. induction o as [|[k' v'] o IH]; simpl; intro D.
  - constructor; [intros []|constructor].
  - inversion D as [|? ? N D']; subst.
    destruct (String.eqb k k') eqn:E; simpl.
    + apply String.eqb_eq in E. subst k'. constructor; assumption.
    + constructor; [|apply IH; exact D'].
      intro I. apply (keys_set_In k v o k') in I. destruct I as [I | I].
      * subst k'. rewrite String.eqb_refl in E. discriminate.
      * apply N. exact I.
Qed.

Lemma get_None_keys {A : Type} (k : string) (o : object A) :
  get k o = None <-> ~ In k (keys o).
Proof.
  unfold keys. induction o as [|[k' v'] o IH]; simpl.
  - intuition.
  - destruct (String.eqb k k') eqn:E.
    + apply String.eqb_eq in E. subst k'. split; [discriminate|]. intro N. exfalso. apply N. left. reflexivity.
    + apply String.eqb_neq in E. rewrite IH. split.
      * intros N [I | I]; [apply E; symmetry; exact I | apply N; exact I].
      * intros N I. apply N. right. exact I.
Qed.

(** *** Grouping by year *)

Lemma groupByYear_fold (awards : list Award) :
  FeatureExtractor.groupByYear awards = fold_left group_step awards [].
Proof.
  unfold FeatureExtractor.groupByYear. apply fold_left_ext_eq.
  intros acc a. unfold group_step, year_of.
  destruct (Start_Date a) as [date|]; [|reflexivity].
  destruct (String.eqb date ""); reflexivity.
Qed.

Lemma years_of_app (l1 l2 : list Award) : years_of (l1 ++ l2) = (years_of l1 ++ years_of l2)%list.
Proof. unfold years_of. apply flat_map_app. Qed.

Lemma total_app (l : list num) (x : num) : total (l ++ [x]) = (total l + x)%num.
Proof. unfold total. rewrite fold_left_app. reflexivity. Qed.

Lemma year_total_snoc (pre : list Award) (a : Award) (y : string) :
  year_total (pre ++ [a]) y =
  if dated_in y a then (year_total pre y + amount_of a)%num else year_total pre y.
Proof.
  unfold year_total. rewrite filter_app. simpl.
  destruct (dated_in y a); simpl.
  - rewrite map_app. simpl. apply total_app.
  - rewrite app_nil_r. reflexivity.
Qed.

Lemma amount_of_fin (a : Award) :
  match Award_Amount a with PInf | NInf => false | _ => true end = true ->
  exists q, amount_of a = Fin q.
Proof.
  unfold amount_of, or_else. destruct (Award_Amount a) as [| | |q]; simpl; try discriminate; intros _.
  - exists 0. reflexivity.
  - destruct (Qeq_bool q 0); simpl; eauto.
Qed.

Lemma year_total_fin (awards : list Award) (y : string) :
  amounts_not_infinite awards = true -> exists t, year_total awards y = Fin t.
Proof.
  unfold amounts_not_infinite. intro F.
  induction awards as [|a awards IH] using rev_ind.
  - exists 0. reflexivity.
  - rewrite forallb_app in F. apply andb_prop in F. destruct F as [F Fa].
    simpl in Fa. rewrite andb_true_r in Fa.
    destruct (IH F) as [t T]. rewrite year_total_snoc. destruct (dated_in y a); [|eauto].
    destruct (amount_of_fin a Fa) as [q Q]. rewrite T, Q. simpl. eauto.
Qed.

Lemma not_in_years_total (pre : list Award) (y : string) :
  ~ In y (years_of pre) -> year_total pre y = Fin 0.
Proof.
  intro N. unfold year_total.
  replace (filter (dated_in y) pre) with (@nil Award); [reflexivity|].
  symmetry. induction pre as [|a pre IH]; simpl; [reflexivity|].
  unfold years_of in N. simpl in N.
  assert (D : dated_in y a = false).
  { unfold dated_in. destruct (year_of a) as [ya|]; [|reflexivity].
    apply String.eqb_neq. intro E. subst ya. apply N. left. reflexivity. }
  rewrite D. apply IH. intro I. apply N. apply in_or_app. right. exact I.
Qed.


Lemma group_step_grouped (pre : list Award) (a : Award) (byYear : object num) :
  amounts_not_infinite pre = true ->
  grouped pre byYear -> grouped (pre ++ [a]) (group_step byYear a).
Proof.
  intros F G y. rewrite years_of_app, year_total_snoc.
  unfold group_step, dated_in. unfold years_of at 2 4. simpl. rewrite app_nil_r.
  destruct (year_of a) as [ya|].
  - rewrite get_set. rewrite (String.eqb_sym ya y).
    destruct (String.eqb y ya) eqn:E.
    + apply String.eqb_eq in E. subst ya. split.
      * apply in_or_app. right. left. reflexivity.
      * apply add_same; [|apply same_refl].
        specialize (G y). destruct (get y byYear) as [r|]; simpl.
        -- destruct G as [_ S]. destruct (year_total_fin pre y F) as [t T].
           rewrite T in *. unfold or_else.
           destruct (truthy r) eqn:R; [exact S|].
           destruct r as [| | |q]; simpl in *; try contradiction; try discriminate.
           rewrite negb_false_iff in R. qprop. rewrite <- S. rewrite R. reflexivity.
        -- rewrite (not_in_years_total pre y G). apply Qeq_refl.
    + specialize (G y). apply String.eqb_neq in E.
      destruct (get y byYear) as [r|].
      * destruct G as [I S]. split; [apply in_or_app; left; exact I | exact S].
      * intro I. apply in_app_or in I. destruct I as [I | [I | []]]; [apply G; exact I|].
        apply E. symmetry. exact I.
  - simpl. rewrite app_nil_r. apply G.
Qed.

Lemma fold_group_grouped (awards pre : list Award) (byYear : object num) :
  amounts_not_infinite (pre ++ awards) = true ->
  grouped pre byYear -> grouped (pre ++ awards) (fold_left group_step awards byYear).
Proof.
  revert pre byYear. induction awards as [|a awards IH]; intros pre byYear F G; simpl.
  - rewrite app_nil_r. exact G.
  - replace (pre ++ a :: awards)%list with ((pre ++ [a]) ++ awards)%list in *
      by (rewrite <- app_assoc; reflexivity).
    apply IH; [exact F|]. apply group_step_grouped; [|exact G].
    unfold amounts_not_infinite in *. rewrite !forallb_app in F.
    apply andb_prop in F. destruct F as [F _]. apply andb_prop in F. tauto.
Qed.

Lemma fold_group_keys (awards : list Award) (byYear : object num) :
  NoDup (keys byYear) ->
  NoDup (keys (fold_left group_step awards byYear)) /\
  forall y, In y (keys (fold_left group_step awards byYear))
            <-> In y (keys byYear) \/ In y (years_of awards).
Proof.
  revert byYear. induction awards as [|a awards IH]; intros byYear D; simpl.
  - split; [exact D|]. intro y. intuition.
  - assert (D' : NoDup (keys (group_step byYear a))).
    { unfold group_step. destruct (year_of a); [apply keys_set_NoDup|]; exact D. }
    destruct (IH _ D') as [N E]. split; [exact N|]. intro y. rewrite E.
    unfold years_of. simpl. rewrite in_app_iff. unfold group_step.
    destruct (year_of a) as [ya|]; simpl.
    + rewrite keys_set_In. intuition.
    + intuition.
Qed.

(** *** The growth feature *)
Lemma list_shape {A : Type} (s : list A) :
  s = [] \/ (exists y1, s = [y1]) \/ (exists s' y2 y1, s = (s' ++ [y2; y1])%list).
Proof.
  destruct s as [|x s] using rev_ind; [left; reflexivity|]. right.
  destruct s as [|y s _] using rev_ind.
  - left. exists x. reflexivity.
  - right. exists s, y, x. rewrite <- app_assoc. reflexivity.
Qed.

Lemma nth_last_two {A : Type} (s : list A) (y2 y1 d : A) :
  nth (List.length (s ++ [y2; y1]) - 1) (s ++ [y2; y1]) d = y1 /\
  nth (List.length (s ++ [y2; y1]) - 2) (s ++ [y2; y1]) d = y2 /\
  Nat.leb 2 (List.length (s ++ [y2; y1])) = true.
Proof.
  rewrite length_app. simpl List.length.
  replace (List.length s + 2 - 1)%nat with (S (List.length s)) by lia.
  replace (List.length s + 2 - 2)%nat with (List.length s) by lia.
  repeat split.
  - rewrite app_nth2 by lia. replace (S (List.length s) - List.length s)%nat with 1%nat by lia.
    reflexivity.
  - rewrite app_nth2 by lia. rewrite Nat.sub_diag. reflexivity.
  - apply Nat.leb_le. lia.
Qed.

Lemma greatest_filter_ext (l l' : list string) (p : string -> bool) (m : string) :
  (forall y, In y l <-> In y l') -> greatest (filter p l) m -> greatest (filter p l') m.
Proof.
  intro E. apply greatest_ext. intro y. rewrite !filter_In, E. reflexivity.
Qed.

Lemma grouped_get (awards : list Award) (byYear : object num) (y : string) :
  grouped awards byYear -> In y (years_of awards) ->
  same (toNumber (get y byYear)) (year_total awards y).
Proof.
  intros G I. specialize (G y). destruct (get y byYear) as [r|]; simpl.
  - apply G.
  - contradiction.
Qed.

(** The growth rate computed from the grouping object is the guarded
    ratio of the two most recent yearly totals when two years are
    present, and the default otherwise. *)
Lemma code_growth_spec (default : num) (awards : list Award) :
  amounts_not_infinite awards = true ->
  same (code_growth default (fold_left group_step awards []))
       (if two_years awards then growth_guarded awards else default).
Proof.
  intro F.
  assert (GR : grouped awards (fold_left group_step awards [])).
  { apply (fold_group_grouped awards [] []); [exact F|]. intros y []. }
  destruct (fold_group_keys awards [] (NoDup_nil string)) as [ND KE].
  set (G := fold_left group_step awards []) in *.
  assert (SI : forall y, In y (sort_strings (keys G)) <-> In y (years_of awards)).
  { intro y. rewrite sort_strings_In, KE. simpl. intuition. }
  pose proof (sort_strings_sorted (keys G) ND) as SS.
  unfold code_growth, two_years, growth_guarded, prior. cbv zeta.
  destruct (list_shape (sort_strings (keys G))) as [E | [[y1 E] | [s [y2 [y1 E]]]]];
    rewrite E in *.
  - simpl. replace (years_of awards) with (@nil string); [apply same_refl|].
    destruct (years_of awards) as [|y l]; [reflexivity|].
    exfalso. apply (SI y). left. reflexivity.
  - simpl.
    assert (L : latest (years_of awards) = Some y1).
    { apply latest_of_greatest. apply (greatest_ext [y1]); [exact SI|].
      apply (sorted_last [] y1). exact SS. }
    rewrite L.
    pose proof (latest_greatest (filter (fun y => String.ltb y y1) (years_of awards))) as P.
    destruct (latest (filter (fun y => String.ltb y y1) (years_of awards))) as [m|];
      [|apply same_refl].
    exfalso. destruct P as [P _]. apply filter_In in P. destruct P as [P Q].
    apply SI in P. destruct P as [P | []]. subst m. rewrite str_ltb_irrefl in Q. discriminate.
  - destruct (nth_last_two s y2 y1 "") as [N1 [N2 N3]]. rewrite N1, N2, N3.
    assert (L : latest (years_of awards) = Some y1).
    { apply latest_of_greatest. apply (greatest_ext (s ++ [y2; y1])); [exact SI|].
      replace (s ++ [y2; y1])%list with ((s ++ [y2]) ++ [y1])%list
        by (rewrite <- app_assoc; reflexivity).
      apply sorted_last. rewrite <- app_assoc. exact SS. }
    rewrite L.
    assert (P : latest (filter (fun y => String.ltb y y1) (years_of awards)) = Some y2).
    { apply latest_of_greatest. apply (greatest_filter_ext (s ++ [y2; y1])); [exact SI|].
      apply sorted_second_last. exact SS. }
    rewrite P.
    assert (I1 : In y1 (years_of awards)).
    { apply SI. apply in_or_app. right. right. left. reflexivity. }
    assert (I2 : In y2 (years_of awards)).
    { apply SI. apply in_or_app. right. left. reflexivity. }
    apply div_same; apply or_else_same; try apply same_refl; apply grouped_get; assumption.
Qed.

Lemma calculateGrowthRate_code (byYear : object num) :
  FeatureExtractor.calculateGrowthRate byYear = code_growth (Fin 0) byYear.
Proof.
  unfold FeatureExtractor.calculateGrowthRate, code_growth. cbv zeta.
  destruct (List.length (sort_strings (keys byYear))) as [|[|n]]; reflexivity.
Qed.

Lemma route_growth_code (a : Award) (awards : list Award) :
  get "yearOverYearGrowth" (Route.extractFeatures (Some (a :: awards)))
  = Some (code_growth (of_Z 1) (fold_left group_step (a :: awards) [])).
Proof.
  rewrite <- groupByYear_fold.
  unfold Route.extractFeatures. cbv zeta. cbn [get]. eval_keys.
  reflexivity.
Qed.

Lemma contractor_growth_code (sqrt_fin : Q -> Q) (awards : list Award) :
  get "yearOverYearGrowth" (FeatureExtractor.extractContractorFeatures sqrt_fin awards)
  = Some (code_growth (Fin 0) (fold_left group_step awards [])).
Proof.
  rewrite <- groupByYear_fold, <- calculateGrowthRate_code.
  unfold FeatureExtractor.extractContractorFeatures. cbv zeta. cbn [get]. eval_keys.
  reflexivity.
Qed.

Lemma growth_guarded_default (awards : list Award) :
  two_years awards = false -> growth_guarded awards = of_Z 1.
Proof.
  unfold two_years, growth_guarded.
  destruct (latest (years_of awards)) as [y1|]; [|reflexivity].
  destruct (prior (years_of awards) y1); [discriminate | reflexivity].
Qed.

(** The growth the code computes.  When no award amount is infinite:
    for a non-empty collection the extractor of the scoring route sets
    [yearOverYearGrowth] to 1.0 when the start dates span fewer than two
    distinct calendar years, and otherwise to the total of the most
    recent year, 0 when that total is 0, divided by the total of the
    year before, 1 when that total is 0; with two or more years the
    training extractor sets it to the same ratio. *)
Theorem growth_feature (sqrt_fin : Q -> Q) (awards : list Award) :
  amounts_not_infinite awards = true ->
  (awards <> [] ->
   exists g : num,
     get "yearOverYearGrowth" (Route.extractFeatures (Some awards)) = Some g /\
     same g (growth_guarded awards)) /\
  (two_years awards = true ->
   exists g : num,
     get "yearOverYearGrowth" (FeatureExtractor.extractContractorFeatures sqrt_fin awards)
     = Some g /\
     same g (growth_guarded awards)).
Proof.
  intro F. split.
  - intro N. destruct awards as [|a awards]; [contradiction|].
    eexists. split; [apply route_growth_code|].
    pose proof (code_growth_spec (of_Z 1) (a :: awards) F) as S.
    destruct (two_years (a :: awards)) eqn:T; [exact S|].
    rewrite growth_guarded_default by exact T. exact S.
  - intro T. eexists. split; [apply contractor_growth_code|].
    pose proof (code_growth_spec (Fin 0) awards F) as S.
    rewrite T in S. exact S.
Qed.

Lemma growth_feature_witness :
  amounts_not_infinite Examples.scenario_a = true /\
  two_years Examples.scenario_a = true /\
  (exists g : num,
     get "yearOverYearGrowth" (Route.extractFeatures (Some Examples.scenario_a)) = Some g /\
     same g (growth_guarded Examples.scenario_a)) /\
  (exists g : num,
     get "yearOverYearGrowth"
       (FeatureExtractor.extractContractorFeatures floor_sqrt Examples.scenario_a) = Some g /\
     same g (growth_guarded Examples.scenario_a)).
Proof.
  assert (F : amounts_not_infinite Examples.scenario_a = true) by (vm_compute; reflexivity).
  assert (T : two_years Examples.scenario_a = true) by (vm_compute; reflexivity).
  destruct (growth_feature floor_sqrt Examples.scenario_a F) as [R C].
  split; [exact F|]. split; [exact T|]. split.
  - apply R. discriminate.
  - apply C. exact T.
Defined.

(** After a year in which nothing was awarded the denominator is
    replaced by 1: both extractors report a growth of 5. *)
Lemma idle_year_guarded :
  get "yearOverYearGrowth" (Route.extractFeatures (Some Examples.after_idle_year))
  = Some (of_Z 5) /\
  get "yearOverYearGrowth"
    (FeatureExtractor.extractContractorFeatures floor_sqrt Examples.after_idle_year)
  = Some (of_Z 5).
Proof. repeat split; vm_compute; reflexivity. Qed.

Lemma single_year_defaults (sqrt_fin : Q -> Q) :
  get "yearOverYearGrowth"
    (FeatureExtractor.extractContractorFeatures sqrt_fin Examples.zero_award) = Some (Fin 0) /\
  get "yearOverYearGrowth" (Route.extractFeatures (Some Examples.zero_award))
  = Some (of_Z 1) /\
  get "yearOverYearGrowth" (Route.extractFeatures (Some [])) = None.
Proof. repeat split; vm_compute; reflexivity. Qed.

(** With fewer than two distinct years the grouping object has fewer
    than two keys, and the growth is the default of the extractor. *)
Lemma code_growth_default (default : num) (awards : list Award) :
  two_years awards = false ->
  code_growth default (fold_left group_step awards []) = default.
Proof.
  intro T.
  destruct (fold_group_keys awards [] (NoDup_nil string)) as [ND KE].
  set (G := fold_left group_step awards []) in *.
  assert (SI : forall y, In y (sort_strings (keys G)) <-> In y (years_of awards)).
  { intro y. rewrite sort_strings_In, KE. simpl. intuition. }
  pose proof (sort_strings_sorted (keys G) ND) as SS.
  unfold code_growth. cbv zeta.
  destruct (list_shape (sort_strings (keys G))) as [E | [[y1 E] | [s [y2 [y1 E]]]]];
    rewrite E in *.
  - reflexivity.
  - reflexivity.
  - exfalso. unfold two_years, prior in T.
    assert (L : latest (years_of awards) = Some y1).
    { apply latest_of_greatest. apply (greatest_ext (s ++ [y2; y1])); [exact SI|].
      replace (s ++ [y2; y1])%list with ((s ++ [y2]) ++ [y1])%list
        by (rewrite <- app_assoc; reflexivity).
      apply sorted_last. rewrite <- app_assoc. exact SS. }
    rewrite L in T.
    assert (P : latest (filter (fun y => String.ltb y y1) (years_of awards)) = Some y2).
    { apply latest_of_greatest. apply (greatest_filter_ext (s ++ [y2; y1])); [exact SI|].
      apply sorted_second_last. exact SS. }
    rewrite P in T. discriminate.
Qed.

(** C3 fails on the code of the training extractor.  When the start
    dates of the awards span fewer than two distinct calendar years,
    [calculateGrowthRate] returns 0 and the training extractor sets
    [yearOverYearGrowth] to 0, where C3 says 1.0.  On the same awards,
    when there are any, the extractor of the scoring route sets it to
    1.0, and the synthetic features of the training script start from
    1. *)
Theorem growth_default_mismatch (sqrt_fin : Q -> Q) (awards : list Award) :
  two_years awards = false ->
  get "yearOverYearGrowth" (FeatureExtractor.extractContractorFeatures sqrt_fin awards)
  = Some (Fin 0) /\
  (awards <> [] ->
   get "yearOverYearGrowth" (Route.extractFeatures (Some awards)) = Some (of_Z 1)) /\
  get "yearOverYearGrowth" (TrainModel.createFeaturesFromIndicators []) = Some (of_Z 1).
Proof.
  intro T. split; [|split].
  - rewrite contractor_growth_code. f_equal. apply code_growth_default. exact T.
  - intro N. destruct awards as [|a awards]; [contradiction|].
    rewrite route_growth_code. f_equal. apply code_growth_default. exact T.
  - reflexivity.
Qed.

Lemma growth_default_mismatch_witness :
  two_years Examples.single_year = false /\
  get "yearOverYearGrowth"
    (FeatureExtractor.extractContractorFeatures floor_sqrt Examples.single_year)
  = Some (Fin 0) /\
  get "yearOverYearGrowth" (Route.extractFeatures (Some Examples.single_year))
  = Some (of_Z 1).
Proof.
  assert (T : two_years Examples.single_year = false) by (vm_compute; reflexivity).
  destruct (growth_default_mismatch floor_sqrt Examples.single_year T) as [C [R _]].
  split; [exact T|]. split; [exact C|]. apply R. discriminate.
Defined.

(* ================================================================== *)
(** * Further properties *)

(** ** Scores explained by their factors *)

Lemma push_if_explained (s0 : num) (c : bool) (f : Factor) (acc : Acc) :
  fst acc = fold_left add (map contribution (snd acc)) s0 ->
  fst (push_if c f acc) = fold_left add (map contribution (snd (push_if c f acc))) s0.
Proof.
  intro H. unfold push_if. destruct c; [|exact H].
  cbn [fst snd]. rewrite map_app, fold_left_app. cbn [map fold_left]. rewrite H. reflexivity.
Qed.

Ltac acc_explained :=
  repeat (apply push_if_explained); reflexivity.

(** X1.  The score of the default contractor scoring and the score of
    the healthcare scorer are the sum of the contributions of the
    factors they return, taken in the order of the factors, rounded and
    capped at 100. *)
Theorem rule_score_explained (this : FD.t) (features : object num) :
  score (FD.defaultContractorScoring this features)
  = min2 (round (total (map contribution
                          (factors (FD.defaultContractorScoring this features)))))
         (of_Z 100) /\
  score (FD.scoreHealthcareProvider this features)
  = min2 (round (total (map contribution
                          (factors (FD.scoreHealthcareProvider this features)))))
         (of_Z 100).
Proof.
  split;
    [unfold FD.defaultContractorScoring | unfold FD.scoreHealthcareProvider];
    cbv zeta; cbn [score factors]; f_equal; f_equal; unfold total; acc_explained.
Qed.

(** ** Sorting keeps the members *)

Lemma insert_by_In {A : Type} (cmp : A -> A -> num) (x : A) (l : list A) (y : A) :
  In y (insert_by cmp x l) <-> y = x \/ In y l.
Proof.
  induction l as [|z l IH]; cbn [insert_by].
  - simpl. intuition.
  - destruct (cmp x z >? Fin 0)%num; cbn [In]; rewrite ?IH; intuition.
Qed.

Lemma sort_by_In {A : Type} (cmp : A -> A -> num) (l : list A) (y : A) :
  In y (sort_by cmp l) <-> In y l.
Proof.
  unfold sort_by. induction l as [|x l IH]; cbn [fold_right]; [reflexivity|].
  rewrite insert_by_In, IH. simpl. intuition.
Qed.

Lemma insert_by_length {A : Type} (cmp : A -> A -> num) (x : A) (l : list A) :
  List.length (insert_by cmp x l) = S (List.length l).
Proof.
  induction l as [|z l IH]; cbn [insert_by]; [reflexivity|].
  destruct (cmp x z >? Fin 0)%num; cbn [List.length]; rewrite ?IH; reflexivity.
Qed.

Lemma sort_by_length {A : Type} (cmp : A -> A -> num) (l : list A) :
  List.length (sort_by cmp l) = List.length l.
Proof.
  unfold sort_by. induction l as [|x l IH]; cbn [fold_right]; [reflexivity|].
  rewrite insert_by_length, IH. reflexivity.
Qed.

(** ** What the trained contractor scorer reports *)

Lemma fold_patternStep_factors (features : object num) (l : list FD.FraudPatternEntry)
    (acc : Acc) (f : Factor) :
  In f (snd (fold_left (FD.patternStep features) l acc)) ->
  In f (snd acc) \/ type f = "FRAUD_PATTERN_MATCH".
Proof.
  revert acc. induction l as [|e l IH]; simpl; intros acc I; [left; exact I|].
  apply IH in I. destruct I as [I | I]; [|right; exact I].
  unfold FD.patternStep, push_if in I. cbv zeta in I.
  destruct (_ && _)%bool; [|left; exact I].
  cbn [snd] in I. apply in_app_or in I. destruct I as [I | [I | []]].
  - left. exact I.
  - right. subst f. reflexivity.
Qed.

Lemma anomaly_factors_shape (this : FD.t) (kv : string * num) (f : Factor) :
  In f (anomaly_factors this kv) ->
  type f = "STATISTICAL_ANOMALY" /\
  exists n : Z, contribution f = of_Z n /\ (0 <= n <= 15)%Z.
Proof.
  unfold anomaly_factors. destruct (get (fst kv) (FD.featureStats this)) as [st|]; [|intros []].
  cbv zeta. destruct (abs _ >? _)%num eqn:G; [|intros []].
  intros [I | []]. subst f. split; [reflexivity|]. cbn [contribution].
  apply gtb_not_NaN in G.
  set (z := zScore_guarded (snd kv) st) in *.
  assert (N : nonneg (round (abs z * of_Z 5))).
  { apply round_nonneg. apply mul_pos_nonneg; [apply inject_Z_pos; lia|].
    destruct z; simpl in *; try congruence; auto. apply Qabs_nonneg. }
  destruct (round (abs z * of_Z 5)) as [| | |q] eqn:R; simpl in N; try contradiction.
  - exists 15%Z. split; [reflexivity | lia].
  - assert (Q : exists k : Z, q = inject_Z k).
    { unfold round in R. destruct (abs z * of_Z 5)%num; try discriminate.
      inversion R. eexists. reflexivity. }
    destruct Q as [k Q]. subst q. unfold min2, leb, of_Z.
    destruct (Qle_bool (inject_Z k) (inject_Z 15)) eqn:E.
    + exists k. split; [reflexivity|]. qprop. rewrite <- Zle_Qle in E.
      change 0 with (inject_Z 0) in N. rewrite <- Zle_Qle in N. lia.
    + exists 15%Z. split; [reflexivity | lia].
Qed.

Lemma fold_patternStep_blind (features : object num) (l : list FD.FraudPatternEntry)
    (acc : Acc) :
  (forall k, In k (keys features) -> has_upper k = true) ->
  fold_left (FD.patternStep features) l acc = acc.
Proof.
  intro U. revert acc. induction l as [|e l IH]; intro acc; simpl; [reflexivity|].
  rewrite IH. unfold FD.patternStep. cbv zeta.
  assert (G : get (replace_spaces (toLowerCase (FD.indicator e))) features = None).
  { apply get_None_keys. intro I. apply U in I.
    unfold replace_spaces in I. rewrite replace_spaces_from_lower in I. discriminate. }
  rewrite G. reflexivity.
Qed.

(** A vector whose keys all hold a capital letter matches no learned
    pattern. *)
Lemma matchFraudPatterns_capital_keys (this : FD.t) (features : object num) :
  (forall k, In k (keys features) -> has_upper k = true) ->
  FD.matchFraudPatterns this features = (Fin 0, []).
Proof.
  intro U. unfold FD.matchFraudPatterns.
  destruct (FD.fraudPatterns this); [|reflexivity].
  apply fold_patternStep_blind. exact U.
Qed.

Lemma contractor_keys_capital (sqrt_fin : Q -> Q) (awards : list Award) (k : string) :
  In k (keys (FeatureExtractor.extractContractorFeatures sqrt_fin awards)) ->
  has_upper k = true.
Proof.
  unfold FeatureExtractor.extractContractorFeatures. cbv zeta. unfold keys. cbn [map fst].
  intro I. simpl in I.
  repeat (destruct I as [I | I]; [subst k; vm_compute; reflexivity|]). contradiction.
Qed.

Lemma healthcare_keys_capital (provider : FeatureExtractor.Provider)
    (billingData : option (list FeatureExtractor.Billing))
    (openPayments : option (list FeatureExtractor.Payment)) (k : string) :
  In k (keys (FeatureExtractor.extractHealthcareFeatures provider billingData openPayments)) ->
  has_upper k = true.
Proof.
  unfold FeatureExtractor.extractHealthcareFeatures. cbv zeta. unfold keys.
  intro I. rewrite !map_app in I. apply in_app_or in I. destruct I as [I | I].
  - destruct billingData; cbn [map fst] in I; simpl in I;
      repeat (destruct I as [I | I]; [subst k; vm_compute; reflexivity|]); contradiction.
  - apply in_app_or in I. destruct I as [I | I].
    + destruct openPayments; cbn [map fst] in I; simpl in I;
        repeat (destruct I as [I | I]; [subst k; vm_compute; reflexivity|]); contradiction.
    + cbn [map fst] in I. simpl in I.
      repeat (destruct I as [I | I]; [subst k; vm_compute; reflexivity|]). contradiction.
Qed.

Lemma route_keys_capital (contracts : option (list Award)) (k : string) :
  In k (keys (Route.extractFeatures contracts)) -> has_upper k = true.
Proof.
  destruct contracts as [[|a awards]|]; [intros []| |intros []].
  unfold Route.extractFeatures. cbv zeta. unfold keys. cbn [map fst].
  intro I. simpl in I.
  repeat (destruct I as [I | I]; [subst k; vm_compute; reflexivity|]). contradiction.
Qed.

(** X2.  The pattern matcher looks features up under lower-case keys,
    while every key the three extractors produce holds a capital letter:
    on an extracted vector it matches nothing, whatever was learned. *)
Theorem matchFraudPatterns_blind (this : FD.t) (sqrt_fin : Q -> Q)
    (awards : list Award) (contracts : option (list Award))
    (provider : FeatureExtractor.Provider)
    (billingData : option (list FeatureExtractor.Billing))
    (openPayments : option (list FeatureExtractor.Payment)) :
  FD.matchFraudPatterns this (FeatureExtractor.extractContractorFeatures sqrt_fin awards)
  = (Fin 0, []) /\
  FD.matchFraudPatterns this
    (FeatureExtractor.extractHealthcareFeatures provider billingData openPayments)
  = (Fin 0, []) /\
  FD.matchFraudPatterns this (Route.extractFeatures contracts) = (Fin 0, []).
Proof.
  split; [|split]; apply matchFraudPatterns_capital_keys; intro k.
  - apply contractor_keys_capital.
  - apply healthcare_keys_capital.
  - apply route_keys_capital.
Qed.

Lemma detectAnomalies_factors (this : FD.t) (features : object num) (f : Factor) :
  In f (snd (FD.detectAnomalies this features)) ->
  type f = "STATISTICAL_ANOMALY" /\
  exists n : Z, contribution f = of_Z n /\ (0 <= n <= 15)%Z.
Proof.
  unfold FD.detectAnomalies. rewrite fold_anomalyStep. cbn [snd app].
  intro I. apply in_flat_map in I. destruct I as [kv [_ I]].
  eapply anomaly_factors_shape; eauto.
Qed.

Lemma learned_path_factor (this : FD.t) (features : object num) (f : Factor) :
  learned_path this = true ->
  In f (factors (FD.scoreContractor this features)) ->
  (type f = "STATISTICAL_ANOMALY" /\
   exists n : Z, contribution f = of_Z n /\ (0 <= n <= 15)%Z) \/
  type f = "FRAUD_PATTERN_MATCH".
Proof.
  unfold learned_path. rewrite negb_true_iff. intros L I.
  unfold FD.scoreContractor in I. rewrite L in I. cbv zeta in I. cbn [factors] in I.
  unfold sort_factors in I. apply sort_by_In in I.
  unfold FD.applyContractorRules in I. cbn [snd] in I.
  rewrite app_nil_r in I. cbn [app] in I.
  apply in_app_or in I. destruct I as [I | I].
  - left. eapply detectAnomalies_factors; eauto.
  - right. unfold FD.matchFraudPatterns in I.
    destruct (FD.fraudPatterns this); [|destruct I].
    apply fold_patternStep_factors in I. destruct I as [[] | I]. exact I.
Qed.

(** X3.  Once the detector is trained or holds a profile,
    [scoreContractor] reports only anomaly factors, each contributing a
    whole number from 0 to 15, and pattern matches: no domain rule is
    applied to a contractor any more. *)
Theorem learned_path_factors (this : FD.t) (features : object num) :
  learned_path this = true ->
  Forall (fun f =>
            (type f = "STATISTICAL_ANOMALY" /\
             exists n : Z, contribution f = of_Z n /\ (0 <= n <= 15)%Z) \/
            type f = "FRAUD_PATTERN_MATCH")
         (factors (FD.scoreContractor this features)).
Proof.
  intro L. apply Forall_forall. intros f I.
  apply (learned_path_factor this features f L I).
Qed.

Lemma learned_path_factors_witness :
  List.length (factors (FD.scoreContractor Examples.narrow_model
                          [ ("soleSourceRatio", dec 9 10) ])) = 1%nat /\
  Forall (fun f =>
            (type f = "STATISTICAL_ANOMALY" /\
             exists n : Z, contribution f = of_Z n /\ (0 <= n <= 15)%Z) \/
            type f = "FRAUD_PATTERN_MATCH")
         (factors (FD.scoreContractor Examples.narrow_model
                     [ ("soleSourceRatio", dec 9 10) ])).
Proof.
  split; [vm_compute; reflexivity|].
  apply (learned_path_factors Examples.narrow_model [ ("soleSourceRatio", dec 9 10) ]).
  reflexivity.
Defined.

Lemma detectAnomalies_no_profile (this : FD.t) (features : object num) :
  (forall k, In k (keys features) -> get k (FD.featureStats this) = None) ->
  FD.detectAnomalies this features = (Fin 0, []).
Proof.
  intro N. unfold FD.detectAnomalies. rewrite fold_anomalyStep. cbn [fst snd app].
  replace (flat_map (anomaly_factors this) features) with (@nil Factor); [reflexivity|].
  symmetry. induction features as [|[k v] features IH]; [reflexivity|].
  cbn [flat_map]. unfold anomaly_factors at 1. cbn [fst].
  rewrite (N k) by (left; reflexivity). cbn [app].
  apply IH. intros k' I. apply N. right. exact I.
Qed.

(** X4.  On the learned path a vector none of whose features has a
    profile entry, and whose keys all hold a capital letter, scores 0
    with no factor, however large its ratios: the rules of the default
    scoring are not consulted. *)
Theorem learned_path_ignores_rules (this : FD.t) (features : object num) :
  learned_path this = true ->
  (forall k, In k (keys features) -> get k (FD.featureStats this) = None) ->
  (forall k, In k (keys features) -> has_upper k = true) ->
  score (FD.scoreContractor this features) = of_Z 0 /\
  factors (FD.scoreContractor this features) = [].
Proof.
  unfold learned_path. rewrite negb_true_iff. intros L N U.
  unfold FD.scoreContractor. rewrite L. cbv zeta. cbn [score factors].
  rewrite detectAnomalies_no_profile by exact N.
  rewrite matchFraudPatterns_capital_keys by exact U.
  split; reflexivity.
Qed.

Lemma learned_path_ignores_rules_witness :
  score (FD.scoreContractor Examples.high_mean_model
           [ ("soleSourceRatio", of_Z 1); ("agencyConcentration", of_Z 1) ]) = of_Z 0 /\
  factors (FD.scoreContractor Examples.high_mean_model
             [ ("soleSourceRatio", of_Z 1); ("agencyConcentration", of_Z 1) ]) = [].
Proof.
  apply (learned_path_ignores_rules Examples.high_mean_model
           [ ("soleSourceRatio", of_Z 1); ("agencyConcentration", of_Z 1) ]).
  - reflexivity.
  - intros k [E | [E | []]]; subst k; reflexivity.
  - intros k [E | [E | []]]; subst k; reflexivity.
Defined.

(** ** Counting loops *)

Lemma add_of_nat_1 (n : nat) : (of_nat n + of_Z 1)%num = of_nat (S n).
Proof.
  unfold of_nat, of_Z, add, Qplus, inject_Z. cbn [Qnum Qden].
  rewrite Nat2Z.inj_succ. f_equal. f_equal. lia.
Qed.

Lemma truthy_of_nat (n : nat) : truthy (of_nat n) = negb (Nat.eqb n 0).
Proof.
  destruct n; [reflexivity|].
  unfold of_nat, of_Z, truthy. cbn [Nat.eqb negb].
  apply negb_true_iff. apply not_true_is_false. intro E.
  apply Qeq_bool_iff in E. unfold Qeq, inject_Z in E. cbn [Qnum Qden] in E. lia.
Qed.

Lemma occurrences_app (k : string) (l l' : list string) :
  occurrences k (l ++ l') = (occurrences k l + occurrences k l')%nat.
Proof.
  unfold occurrences, count_if. rewrite filter_app, length_app. reflexivity.
Qed.

Lemma occurrences_0 (k : string) (l : list string) :
  occurrences k l = 0%nat <-> ~ In k l.
Proof.
  unfold occurrences, count_if. induction l as [|x l IH]; cbn [filter].
  - simpl. intuition.
  - destruct (String.eqb k x) eqn:E; cbn [List.length In].
    + apply String.eqb_eq in E. subst x. split; [discriminate|]. intro N. exfalso. apply N. left. reflexivity.
    + apply String.eqb_neq in E. rewrite IH. split.
      * intros N [I | I]; [apply E; symmetry; exact I | apply N; exact I].
      * intros N I. apply N. right. exact I.
Qed.

Lemma tallied_nil : tallied [] [].
Proof. split; [constructor | intro k; reflexivity]. Qed.

Lemma occurrences_single (k' k : string) :
  occurrences k' [k] = if String.eqb k' k then 1%nat else 0%nat.
Proof.
  unfold occurrences, count_if. cbn [filter].
  destruct (String.eqb k' k); reflexivity.
Qed.

Lemma tally_step_tallied (seen : list string) (o : object num) (k : string) :
  tallied seen o -> tallied (seen ++ [k]) (tally_step o k).
Proof.
  intros [D G]. split; [apply keys_set_NoDup; exact D|].
  intro k'. unfold tally_step. rewrite get_set, occurrences_app, occurrences_single.
  destruct (String.eqb k' k) eqn:E.
  - apply String.eqb_eq in E. subst k'. rewrite G.
    replace (occurrences k seen + 1)%nat with (S (occurrences k seen)) by lia.
    cbn [Nat.eqb]. f_equal.
    destruct (occurrences k seen) as [|n]; cbn [Nat.eqb toNumber].
    + reflexivity.
    + unfold or_else. rewrite truthy_of_nat. cbn [Nat.eqb negb]. apply add_of_nat_1.
  - rewrite Nat.add_0_r. apply G.
Qed.

Lemma fold_tally_tallied (ks seen : list string) (o : object num) :
  tallied seen o -> tallied (seen ++ ks) (fold_left tally_step ks o).
Proof.
  revert seen o. induction ks as [|k ks IH]; intros seen o T; cbn [fold_left].
  - rewrite app_nil_r. exact T.
  - replace (seen ++ k :: ks)%list with ((seen ++ [k]) ++ ks)%list
      by (rewrite <- app_assoc; reflexivity).
    apply IH. apply tally_step_tallied. exact T.
Qed.

Lemma tallyCase_indicators (p : FD.Patterns) (fc : FD.FraudCase) :
  FD.indicators (FD.tallyCase p fc)
  = fold_left tally_step
      (match FD.fc_indicators fc with Some l => l | None => [] end) (FD.indicators p).
Proof. reflexivity. Qed.

Lemma fold_tallyCase_indicators (cases : list FD.FraudCase) (p : FD.Patterns) :
  FD.indicators (fold_left FD.tallyCase cases p)
  = fold_left tally_step (all_indicators cases) (FD.indicators p).
Proof.
  revert p. induction cases as [|fc cases IH]; intro p; [reflexivity|].
  cbn [fold_left]. rewrite IH, tallyCase_indicators.
  unfold all_indicators. cbn [flat_map]. rewrite fold_left_app. reflexivity.
Qed.

Lemma fold_tallyCase_commonFactors (cases : list FD.FraudCase) (p : FD.Patterns) :
  FD.commonFactors (fold_left FD.tallyCase cases p) = FD.commonFactors p.
Proof.
  revert p. induction cases as [|fc cases IH]; intro p; [reflexivity|].
  cbn [fold_left]. rewrite IH. reflexivity.
Qed.

Lemma learned_indicators_tallied (cases : list FD.FraudCase) :
  tallied (all_indicators cases) (FD.indicators (FD.learnFraudPatterns cases)).
Proof.
  unfold FD.learnFraudPatterns. cbv zeta. cbn [FD.indicators].
  rewrite fold_tallyCase_indicators. cbn [FD.indicators].
  apply (fold_tally_tallied (all_indicators cases) [] []). apply tallied_nil.
Qed.

(** ** Sorting *)

Lemma insert_by_Permutation {A : Type} (cmp : A -> A -> num) (x : A) (l : list A) :
  Permutation (insert_by cmp x l) (x :: l).
Proof.
  induction l as [|y l IH]; cbn [insert_by]; [reflexivity|].
  destruct (cmp x y >? Fin 0)%num; [|reflexivity].
  rewrite IH. apply perm_swap.
Qed.

Lemma sort_by_Permutation {A : Type} (cmp : A -> A -> num) (l : list A) :
  Permutation (sort_by cmp l) l.
Proof.
  unfold sort_by. induction l as [|x l IH]; cbn [fold_right]; [reflexivity|].
  rewrite insert_by_Permutation. constructor. exact IH.
Qed.

Lemma insert_by_Sorted {A : Type} (cmp : A -> A -> num) (R : A -> A -> Prop)
    (P : A -> Prop) (x : A) (l : list A) :
  (forall a b, P a -> P b -> if (cmp a b >? Fin 0)%num then R b a else R a b) ->
  P x -> Forall P l -> Sorted R l -> Sorted R (insert_by cmp x l).
Proof.
  intros C Px. induction l as [|y l IH]; intros F S; cbn [insert_by].
  - repeat constructor.
  - inversion F as [|? ? Py F']; subst. inversion S as [|? ? S' H]; subst.
    pose proof (C x y Px Py) as Cxy.
    destruct (cmp x y >? Fin 0)%num.
    + constructor; [apply IH; assumption|].
      destruct l as [|z l]; cbn [insert_by].
      * constructor. exact Cxy.
      * inversion H; subst. destruct (cmp x z >? Fin 0)%num; constructor; assumption.
    + constructor; [exact S | constructor; exact Cxy].
Qed.

Lemma sort_by_Sorted {A : Type} (cmp : A -> A -> num) (R : A -> A -> Prop)
    (P : A -> Prop) (l : list A) :
  (forall a b, P a -> P b -> if (cmp a b >? Fin 0)%num then R b a else R a b) ->
  Forall P l -> Sorted R (sort_by cmp l).
Proof.
  intros C F. unfold sort_by. induction F as [|x l Px F IH]; cbn [fold_right].
  - constructor.
  - apply (insert_by_Sorted cmp R P); try assumption.
    apply Forall_forall. intros y I.
    change (fold_right (insert_by cmp) [] l) with (sort_by cmp l) in I.
    apply (Permutation_in _ (sort_by_Permutation cmp l)) in I.
    rewrite Forall_forall in F. apply F. exact I.
Qed.

Lemma leb_trans (x y z : num) :
  (x <=? y)%num = true -> (y <=? z)%num = true -> (x <=? z)%num = true.
Proof.
  destruct x, y, z; simpl; try congruence; auto.
  intros A B. qprop. eapply Qle_trans; eauto.
Qed.

Lemma sub_gtb_0 (a b : Q) :
  ((Fin a - Fin b)%num >? Fin 0)%num = Qlt_bool b a.
Proof.
  unfold sub, neg, add, gtb, ltb, Qlt_bool. f_equal.
  destruct (Qle_bool a b) eqn:E.
  - qprop. unfold Qminus in *. lra.
  - qprop. unfold Qminus in *. lra.
Qed.

(** ** What training learns from the known cases *)

Lemma get_In {A : Type} (o : object A) (k : string) (v : A) :
  NoDup (keys o) -> In (k, v) o -> get k o = Some v.
Proof.
  unfold keys. induction o as [|[k' v'] o IH]; cbn [map fst get In]; intros D I; [contradiction|].
  inversion D as [|? ? N D']; subst.
  destruct I as [I | I].
  - inversion I; subst. rewrite String.eqb_refl. reflexivity.
  - destruct (String.eqb k k') eqn:E; [|apply IH; assumption].
    apply String.eqb_eq in E. subst k'. exfalso. apply N.
    apply (in_map fst) in I. exact I.
Qed.

Lemma tallied_In (seen : list string) (o : object num) (kv : string * num) :
  tallied seen o -> In kv o ->
  (1 <= occurrences (fst kv) seen)%nat /\ snd kv = of_nat (occurrences (fst kv) seen).
Proof.
  intros [D G] I. destruct kv as [k v]. cbn [fst snd].
  pose proof (get_In o k v D I) as E. rewrite G in E.
  destruct (occurrences k seen) as [|n]; cbn [Nat.eqb] in E; [discriminate|].
  inversion E. split; [lia | reflexivity].
Qed.

Lemma In_firstn {A : Type} (n : nat) (l : list A) (x : A) :
  In x (firstn n l) -> In x l.
Proof.
  intro I. rewrite <- (firstn_skipn n l). apply in_or_app. left. exact I.
Qed.

(** The entries the ranking is taken from. *)
Lemma commonFactors_In (cases : list FD.FraudCase) (e : FD.FraudPatternEntry) :
  In e (FD.commonFactors (FD.learnFraudPatterns cases)) ->
  In (FD.indicator e, FD.count e) (FD.indicators (FD.learnFraudPatterns cases)) /\
  FD.weight e = (FD.count e / of_nat (List.length cases))%num.
Proof.
  unfold FD.learnFraudPatterns at 1. cbv zeta. cbn [FD.commonFactors].
  intro I. apply in_map_iff in I. destruct I as [[k v] [E I]]. subst e.
  cbn [FD.indicator FD.count FD.weight fst snd]. split; [|reflexivity].
  apply In_firstn in I. apply sort_by_In in I.
  unfold FD.learnFraudPatterns. cbv zeta. cbn [FD.indicators]. exact I.
Qed.

Lemma learned_entry (cases : list FD.FraudCase) (e : FD.FraudPatternEntry) :
  In e (FD.commonFactors (FD.learnFraudPatterns cases)) ->
  (1 <= occurrences (FD.indicator e) (all_indicators cases))%nat /\
  FD.count e = of_nat (occurrences (FD.indicator e) (all_indicators cases)) /\
  FD.weight e = (of_nat (occurrences (FD.indicator e) (all_indicators cases))
                 / of_nat (List.length cases))%num.
Proof.
  intro I. apply commonFactors_In in I. destruct I as [I W].
  apply (tallied_In _ _ _ (learned_indicators_tallied cases)) in I.
  cbn [fst snd] in I. destruct I as [P C].
  split; [exact P|]. split; [exact C|]. rewrite W, C. reflexivity.
Qed.

(** X5.  When no fraud type, industry or indicator of the known cases
    is a name objects inherit or a name written with digits only, every
    learned pattern is an indicator that occurs in the cases; its count
    is the number of times the cases mention it and its weight is that
    count over the number of cases. *)
Theorem learned_weights_are_frequencies (cases : list FD.FraudCase) :
  forallb plain_name (case_names cases) = true ->
  Forall (fun e =>
            let n := occurrences (FD.indicator e) (all_indicators cases) in
            (1 <= n)%nat /\
            FD.count e = of_nat n /\
            FD.weight e = (of_nat n / of_nat (List.length cases))%num)
         (FD.commonFactors (FD.learnFraudPatterns cases)).
Proof.
  intros _. apply Forall_forall. intros e I. cbv zeta. apply learned_entry. exact I.
Qed.

Lemma learned_weights_are_frequencies_witness :
  Forall (fun e =>
            let n := occurrences (FD.indicator e) (all_indicators Examples.cases) in
            (1 <= n)%nat /\
            FD.count e = of_nat n /\
            FD.weight e = (of_nat n / of_nat (List.length Examples.cases))%num)
         (FD.commonFactors (FD.learnFraudPatterns Examples.cases)).
Proof.
  apply (learned_weights_are_frequencies Examples.cases). reflexivity.
Defined.

Lemma all_indicators_cases (cases : list FD.FraudCase) (k : string) :
  In k (all_indicators cases) -> (1 <= List.length cases)%nat.
Proof.
  destruct cases; [intros [] | intros _; simpl; lia].
Qed.

Lemma of_nat_div_nonneg (n m : nat) :
  (1 <= m)%nat -> (Fin 0 <=? of_nat n / of_nat m)%num = true.
Proof.
  intro M. unfold of_nat, of_Z, div.
  destruct (Qeq_bool (inject_Z (Z.of_nat m)) 0) eqn:E.
  - qprop. unfold Qeq, inject_Z in E. cbn [Qnum Qden] in E. lia.
  - unfold leb. qprop. apply Qle_shift_div_l.
    + change 0 with (inject_Z 0). rewrite <- Zlt_Qlt. lia.
    + rewrite Qmult_0_l. change 0 with (inject_Z 0). rewrite <- Zle_Qle. lia.
Qed.

Lemma train_weights_nonneg (sqrt_fin : Q -> Q) (this : FD.t)
    (trainingData : list FD.TrainingRecord) (cases : list FD.FraudCase) :
  weights_nonneg (FD.train sqrt_fin this trainingData cases) = true.
Proof.
  unfold weights_nonneg, FD.train. cbn [FD.fraudPatterns].
  apply forallb_forall. intros e I.
  destruct (learned_entry cases e I) as [P [_ W]].
  rewrite W. apply of_nat_div_nonneg.
  apply (all_indicators_cases cases (FD.indicator e)).
  destruct (in_dec string_dec (FD.indicator e) (all_indicators cases)) as [Y | N];
    [exact Y|].
  apply occurrences_0 in N. lia.
Qed.

(** X7.  When no feature of the training records and no fraud type,
    industry or indicator of the known cases is a name objects inherit
    or a name written with digits only, the detector that has just been
    trained on them gives every contractor and every provider a whole
    score from 0 to 100. *)
Theorem trained_score_range (sqrt_fin : Q -> Q) (this : FD.t)
    (trainingData : list FD.TrainingRecord) (cases : list FD.FraudCase)
    (features : object num) :
  forallb plain_name (feature_names trainingData) = true ->
  forallb plain_name (case_names cases) = true ->
  let model := FD.train sqrt_fin this trainingData cases in
  (exists n : Z, score (FD.scoreContractor model features) = of_Z n /\ (0 <= n <= 100)%Z) /\
  (exists n : Z,
     score (FD.scoreHealthcareProvider model features) = of_Z n /\ (0 <= n <= 100)%Z).
Proof.
  intros _ _. cbv zeta. split.
  - apply scoreContractor_range. apply train_weights_nonneg.
  - apply scoreHealthcareProvider_range. reflexivity.
Qed.

Lemma trained_score_range_witness :
  let model := Examples.trained_model in
  let features := Route.extractFeatures (Some Examples.scenario_a) in
  (exists n : Z, score (FD.scoreContractor model features) = of_Z n /\ (0 <= n <= 100)%Z) /\
  (exists n : Z,
     score (FD.scoreHealthcareProvider model features) = of_Z n /\ (0 <= n <= 100)%Z).
Proof.
  apply (trained_score_range floor_sqrt FD.constructor Examples.corpus Examples.cases
           (Route.extractFeatures (Some Examples.scenario_a))).
  - reflexivity.
  - reflexivity.
Defined.

Lemma get_Some_In {A : Type} (o : object A) (k : string) (v : A) :
  get k o = Some v -> In (k, v) o.
Proof.
  induction o as [|[k' v'] o IH]; cbn [get In]; [discriminate|].
  destruct (String.eqb k k') eqn:E.
  - apply String.eqb_eq in E. subst k'. intro H. inversion H. left. reflexivity.
  - intro H. right. apply IH. exact H.
Qed.















(** ** The profile training computes *)

Lemma collectFeatureValues_fold (data : list FD.TrainingRecord) :
  FD.collectFeatureValues data = fold_left collect_step (all_entries data) [].
Proof.
  unfold FD.collectFeatureValues, all_entries. generalize (@nil (string * list num)).
  induction data as [|r data IH]; intro o; [reflexivity|].
  cbn [fold_left flat_map]. rewrite fold_left_app, IH.
  destruct (FD.features r); reflexivity.
Qed.

Lemma values_of_app (k : string) (l l' : list (string * num)) :
  values_of k (l ++ l') = (values_of k l ++ values_of k l')%list.
Proof. unfold values_of. rewrite filter_app, map_app. reflexivity. Qed.

Lemma collect_step_collected (seen : list (string * num)) (o : object (list num))
    (kv : string * num) :
  collected seen o -> collected (seen ++ [kv]) (collect_step o kv).
Proof.
  intros [D G]. destruct kv as [key value]. unfold collect_step.
  split; [apply keys_set_NoDup; exact D|].
  intro k. rewrite get_set, values_of_app. unfold values_of at 2. cbn [filter fst].
  destruct (String.eqb k key) eqn:E; cbn [map snd].
  - apply String.eqb_eq in E. subst k. rewrite G.
    destruct (values_of key seen) as [|v vs]; reflexivity.
  - rewrite app_nil_r. apply G.
Qed.

Lemma fold_collect_collected (es seen : list (string * num)) (o : object (list num)) :
  collected seen o -> collected (seen ++ es) (fold_left collect_step es o).
Proof.
  revert seen o. induction es as [|e es IH]; intros seen o C; cbn [fold_left].
  - rewrite app_nil_r. exact C.
  - replace (seen ++ e :: es)%list with ((seen ++ [e]) ++ es)%list
      by (rewrite <- app_assoc; reflexivity).
    apply IH. apply collect_step_collected. exact C.
Qed.

Lemma collectFeatureValues_collected (data : list FD.TrainingRecord) :
  collected (all_entries data) (FD.collectFeatureValues data).
Proof.
  rewrite collectFeatureValues_fold.
  apply (fold_collect_collected (all_entries data) [] []).
  split; [constructor | intro k; reflexivity].
Qed.

Lemma set_fresh {A : Type} (k : string) (v : A) (o : object A) :
  ~ In k (keys o) -> set k v o = (o ++ [(k, v)])%list.
Proof.
  unfold keys. induction o as [|[k' v'] o IH]; cbn [set map fst In app]; intro N; [reflexivity|].
  destruct (String.eqb k k') eqn:E.
  - apply String.eqb_eq in E. subst k'. exfalso. apply N. left. reflexivity.
  - f_equal. apply IH. intro I. apply N. right. exact I.
Qed.

Lemma fold_set_map {A B : Type} (f : A -> B) (l : object A) (acc : object B) :
  NoDup (keys acc ++ keys l) ->
  fold_left (fun stats kv => set (fst kv) (f (snd kv)) stats) l acc
  = (acc ++ map (fun kv => (fst kv, f (snd kv))) l)%list.
Proof.
  revert acc. induction l as [|[k a] l IH]; intros acc D; cbn [fold_left map fst snd].
  - rewrite app_nil_r. reflexivity.
  - unfold keys in D. cbn [map fst] in D.
    rewrite set_fresh.
    + rewrite IH.
      * rewrite <- app_assoc. reflexivity.
      * unfold keys. rewrite map_app. cbn [map fst]. rewrite <- app_assoc. exact D.
    + apply NoDup_remove_2 in D. intro I. apply D. apply in_or_app. left. exact I.
Qed.

Lemma get_map {A B : Type} (f : A -> B) (o : object A) (k : string) :
  get k (map (fun kv => (fst kv, f (snd kv))) o) = option_map f (get k o).
Proof.
  induction o as [|[k' a] o IH]; cbn [map get fst snd]; [reflexivity|].
  destruct (String.eqb k k'); [reflexivity | exact IH].
Qed.

Lemma calculateFeatureStats_map (sqrt_fin : Q -> Q) (data : list FD.TrainingRecord) :
  FD.calculateFeatureStats sqrt_fin data
  = map (fun kv => (fst kv, FD.statsOf sqrt_fin (snd kv))) (FD.collectFeatureValues data).
Proof.
  unfold FD.calculateFeatureStats.
  rewrite (fold_set_map (FD.statsOf sqrt_fin)); [reflexivity|].
  apply (collectFeatureValues_collected data).
Qed.

Lemma calculateFeatureStats_get (sqrt_fin : Q -> Q) (data : list FD.TrainingRecord)
    (key : string) :
  get key (FD.calculateFeatureStats sqrt_fin data)
  = match values_of key (all_entries data) with
    | [] => None
    | vs => Some (FD.statsOf sqrt_fin vs)
    end.
Proof.
  rewrite calculateFeatureStats_map, get_map.
  destruct (collectFeatureValues_collected data) as [_ G]. rewrite G.
  destruct (values_of key (all_entries data)); reflexivity.
Qed.

(** X8.  When no feature of the training records is a name objects
    inherit or a name written with digits only, and no record gives the
    feature [key] the value NaN: the profile has an entry for [key]
    exactly when some record carries it, and the entry is computed from
    the values of the records that carry it, in their order; a record
    without the feature, or without features, adds no value.  The
    profile has one entry per feature. *)
Theorem feature_stats_per_feature (sqrt_fin : Q -> Q) (data : list FD.TrainingRecord)
    (key : string) :
  forallb plain_name (feature_names data) = true ->
  forallb (fun v => negb (isNaN v)) (values_of key (all_entries data)) = true ->
  get key (FD.calculateFeatureStats sqrt_fin data)
  = match values_of key (all_entries data) with
    | [] => None
    | vs => Some (FD.statsOf sqrt_fin vs)
    end /\
  NoDup (keys (FD.calculateFeatureStats sqrt_fin data)).
Proof.
  intros _ _. split; [apply calculateFeatureStats_get|].
  rewrite calculateFeatureStats_map. unfold keys. rewrite map_map. cbn [fst].
  apply (collectFeatureValues_collected data).
Qed.

Lemma feature_stats_per_feature_witness :
  get "specialtyRisk" (FD.calculateFeatureStats floor_sqrt Examples.corpus)
  = Some (FD.statsOf floor_sqrt [of_Z 3; of_Z 2]) /\
  NoDup (keys (FD.calculateFeatureStats floor_sqrt Examples.corpus)).
Proof.
  apply (feature_stats_per_feature floor_sqrt Examples.corpus "specialtyRisk").
  - reflexivity.
  - reflexivity.
Defined.

(** ** Order statistics of a profile entry *)

Lemma sort_ascending (values : list num) :
  forallb isFinite values = true ->
  StronglySorted (fun a b => (a <=? b)%num = true) (sort_by (fun a b => (a - b)%num) values).
Proof.
  intro F. apply Sorted_StronglySorted.
  - intros a b c. apply leb_trans.
  - apply (sort_by_Sorted _ _ (fun v => isFinite v = true)).
    + intros a b Fa Fb. destruct a as [| | |a], b as [| | |b]; try discriminate.
      rewrite sub_gtb_0. unfold leb.
      destruct (Qlt_bool b a) eqn:E; qprop; lra.
    + apply Forall_forall. apply forallb_forall. exact F.
Qed.

Lemma sorted_nth_le (l : list num) (i j : nat) :
  StronglySorted (fun a b => (a <=? b)%num = true) l ->
  Forall (fun v => isFinite v = true) l ->
  (i <= j)%nat -> (j < List.length l)%nat ->
  (nth i l NaN <=? nth j l NaN)%num = true.
Proof.
  intros S F. revert i j. induction S as [|x l S IH H]; intros i j L B.
  - simpl in B. lia.
  - inversion F as [|? ? Fx F']; subst.
    destruct i as [|i], j as [|j]; cbn [nth].
    + destruct x; try discriminate. unfold leb. qprop. lra.
    + rewrite Forall_forall in H. apply H. apply nth_In. simpl in B. lia.
    + lia.
    + apply IH; [exact F' | lia | simpl in B; lia].
Qed.

Lemma to_index_Fin (q : Q) :
  0 <= q -> to_index (Fin q) = Some (Z.to_nat (Qfloor q)).
Proof.
  intro H. unfold to_index. destruct (Qlt_bool q 0) eqn:E; [|reflexivity].
  qprop. lra.
Qed.

Lemma Qfloor_nonneg (q : Q) : 0 <= q -> (0 <= Qfloor q)%Z.
Proof.
  intro H. change 0%Z with (Qfloor 0). apply Qfloor_resp_le. exact H.
Qed.

Lemma floor_index_mono (p q : Q) :
  0 <= p -> p <= q -> (Z.to_nat (Qfloor p) <= Z.to_nat (Qfloor q))%nat.
Proof.
  intros P L. apply Z2Nat.inj_le.
  - apply Qfloor_nonneg. exact P.
  - apply Qfloor_nonneg. lra.
  - apply Qfloor_resp_le. exact L.
Qed.

Lemma floor_index_lt (q : Q) (n : nat) :
  0 <= q -> q < inject_Z (Z.of_nat n) -> (Z.to_nat (Qfloor q) < n)%nat.
Proof.
  intros P L. apply Nat2Z.inj_lt. rewrite Z2Nat.id by (apply Qfloor_nonneg; exact P).
  rewrite Zlt_Qlt. eapply Qle_lt_trans; [apply Qfloor_le | exact L].
Qed.

(** The indices [Math.floor(n / 2)], [Math.floor(n * 0.25)], ... of the
    order statistics. *)
Lemma at_floor_half (sorted : list num) (n : nat) :
  FD.at_floor sorted (of_nat n / of_Z 2)%num
  = nth (Z.to_nat (Qfloor (inject_Z (Z.of_nat n) * (1 # 2)))) sorted NaN.
Proof.
  unfold FD.at_floor, of_nat, of_Z, div.
  change (Qeq_bool (inject_Z 2) 0) with false. cbv iota.
  change (inject_Z (Z.of_nat n) / inject_Z 2) with (inject_Z (Z.of_nat n) * (1 # 2)).
  rewrite to_index_Fin; [reflexivity|].
  assert (0 <= inject_Z (Z.of_nat n)) by (apply (inject_Z_le 0); lia). lra.
Qed.

Lemma at_floor_times (sorted : list num) (n : nat) (a b : positive) :
  FD.at_floor sorted (of_nat n * dec (Zpos a) b)%num
  = nth (Z.to_nat (Qfloor (inject_Z (Z.of_nat n) * (Zpos a # b)))) sorted NaN.
Proof.
  unfold FD.at_floor, of_nat, of_Z, dec, mul.
  rewrite to_index_Fin; [reflexivity|].
  assert (0 <= inject_Z (Z.of_nat n)) by (apply (inject_Z_le 0); lia).
  apply Qmult_le_0_compat; [assumption|]. unfold Qle. simpl. lia.
Qed.

Lemma statsOf_order (sqrt_fin : Q -> Q) (values : list num) :
  values <> [] -> forallb isFinite values = true ->
  Forall (fun x => In x values)
    [ FD.s_min (FD.statsOf sqrt_fin values); FD.p25 (FD.statsOf sqrt_fin values);
      FD.median (FD.statsOf sqrt_fin values); FD.p75 (FD.statsOf sqrt_fin values);
      FD.p90 (FD.statsOf sqrt_fin values); FD.p95 (FD.statsOf sqrt_fin values);
      FD.s_max (FD.statsOf sqrt_fin values) ] /\
  Sorted (fun a b => (a <=? b)%num = true)
    [ FD.s_min (FD.statsOf sqrt_fin values); FD.p25 (FD.statsOf sqrt_fin values);
      FD.median (FD.statsOf sqrt_fin values); FD.p75 (FD.statsOf sqrt_fin values);
      FD.p90 (FD.statsOf sqrt_fin values); FD.p95 (FD.statsOf sqrt_fin values);
      FD.s_max (FD.statsOf sqrt_fin values) ] /\
  Forall (fun v => (FD.s_min (FD.statsOf sqrt_fin values) <=? v)%num = true /\
                   (v <=? FD.s_max (FD.statsOf sqrt_fin values))%num = true) values.
Proof.
  intros NE F.
  unfold FD.statsOf. cbv zeta.
  cbn [FD.s_min FD.p25 FD.median FD.p75 FD.p90 FD.p95 FD.s_max].
  rewrite at_floor_half, !at_floor_times.
  set (sorted := sort_by (fun a b => (a - b)%num) values).
  set (n := List.length values).
  assert (N : (1 <= n)%nat).
  { subst n. destruct values; [contradiction | simpl; lia]. }
  assert (Ls : List.length sorted = n) by apply sort_by_length.
  assert (S : StronglySorted (fun a b => (a <=? b)%num = true) sorted)
    by (apply sort_ascending; exact F).
  assert (Fs : Forall (fun v => isFinite v = true) sorted).
  { apply Forall_forall. intros v I. apply sort_by_In in I.
    rewrite forallb_forall in F. apply F. exact I. }
  assert (Qn : 1 <= inject_Z (Z.of_nat n)) by (apply (inject_Z_le 1); lia).
  set (x := inject_Z (Z.of_nat n)) in *.
  assert (X : x = inject_Z (Z.of_nat n)) by reflexivity.
  assert (B25 : (Z.to_nat (Qfloor (x * (1 # 4))) < n)%nat) by (apply floor_index_lt; rewrite <- ?X; lra).
  assert (B50 : (Z.to_nat (Qfloor (x * (1 # 2))) < n)%nat) by (apply floor_index_lt; rewrite <- ?X; lra).
  assert (B75 : (Z.to_nat (Qfloor (x * (3 # 4))) < n)%nat) by (apply floor_index_lt; rewrite <- ?X; lra).
  assert (B90 : (Z.to_nat (Qfloor (x * (9 # 10))) < n)%nat) by (apply floor_index_lt; rewrite <- ?X; lra).
  assert (B95 : (Z.to_nat (Qfloor (x * (95 # 100))) < n)%nat) by (apply floor_index_lt; rewrite <- ?X; lra).
  assert (M1 : (Z.to_nat (Qfloor (x * (1 # 4))) <= Z.to_nat (Qfloor (x * (1 # 2))))%nat)
    by (apply floor_index_mono; lra).
  assert (M2 : (Z.to_nat (Qfloor (x * (1 # 2))) <= Z.to_nat (Qfloor (x * (3 # 4))))%nat)
    by (apply floor_index_mono; lra).
  assert (M3 : (Z.to_nat (Qfloor (x * (3 # 4))) <= Z.to_nat (Qfloor (x * (9 # 10))))%nat)
    by (apply floor_index_mono; lra).
  assert (M4 : (Z.to_nat (Qfloor (x * (9 # 10))) <= Z.to_nat (Qfloor (x * (95 # 100))))%nat)
    by (apply floor_index_mono; lra).
  assert (Mem : forall i, (i < n)%nat -> In (nth i sorted NaN) values).
  { intros i B. apply (sort_by_In (fun a b => (a - b)%num)). fold sorted.
    apply nth_In. lia. }
  assert (Le : forall i j, (i <= j)%nat -> (j < n)%nat ->
                           (nth i sorted NaN <=? nth j sorted NaN)%num = true).
  { intros i j L B. apply sorted_nth_le; try assumption. lia. }
  split; [|split].
  - repeat constructor; apply Mem; lia.
  - repeat constructor; apply Le; lia.
  - apply Forall_forall. intros v I.
    apply (sort_by_In (fun a b => (a - b)%num)) in I. fold sorted in I.
    destruct (In_nth _ _ NaN I) as [k [B E]]. rewrite <- E.
    split; apply Le; lia.
Qed.

(** X9.  For a sample of finite values that is not empty, the minimum,
    the quartiles, the median, the 90th and 95th percentiles and the
    maximum of a profile entry are members of the sample, in ascending
    order, and every value of the sample lies between the minimum and
    the maximum. *)
Theorem profile_order_statistics (sqrt_fin : Q -> Q) (values : list num) :
  values <> [] -> forallb isFinite values = true ->
  let st := FD.statsOf sqrt_fin values in
  let order := [ FD.s_min st; FD.p25 st; FD.median st; FD.p75 st;
                 FD.p90 st; FD.p95 st; FD.s_max st ] in
  Forall (fun x => In x values) order /\
  StronglySorted (fun a b => (a <=? b)%num = true) order /\
  Forall (fun v => (FD.s_min st <=? v)%num = true /\ (v <=? FD.s_max st)%num = true) values.
Proof.
  intros NE F. cbv zeta.
  destruct (statsOf_order sqrt_fin values NE F) as [M [S B]].
  split; [exact M|]. split; [|exact B].
  apply Sorted_StronglySorted; [|exact S].
  intros a b c. apply leb_trans.
Qed.

Lemma profile_order_statistics_witness :
  let values := [of_Z 7; of_Z 1; of_Z 4; of_Z 9; of_Z 2] in
  let st := FD.statsOf floor_sqrt values in
  let order := [ FD.s_min st; FD.p25 st; FD.median st; FD.p75 st;
                 FD.p90 st; FD.p95 st; FD.s_max st ] in
  order = [of_Z 1; of_Z 2; of_Z 4; of_Z 7; of_Z 9; of_Z 9; of_Z 9] /\
  Forall (fun x => In x values) order /\
  StronglySorted (fun a b => (a <=? b)%num = true) order /\
  Forall (fun v => (FD.s_min st <=? v)%num = true /\ (v <=? FD.s_max st)%num = true) values.
Proof.
  cbv zeta. split; [vm_compute; reflexivity|].
  apply (profile_order_statistics floor_sqrt [of_Z 7; of_Z 1; of_Z 4; of_Z 9; of_Z 2]).
  - discriminate.
  - reflexivity.
Defined.

(** ** The route's scorer *)

Lemma route_default_range (ToNumber_other : jsval -> num) (features : object num) :
  exists (r : Route.Result) (n : Z),
    Route.scoreContractor ToNumber_other features JNull = OK r /\
    Route.score r = of_Z n /\ (0 <= n <= 100)%Z.
Proof.
  unfold Route.scoreContractor. cbv zeta.
  cbn [opt_prop truthy_js bind].
  change (Route.ToNumber ToNumber_other (opt_prop Route.defaultThresholds "agencyConcentration"))
    with (dec 8 10).
  change (Route.ToNumber ToNumber_other (opt_prop Route.defaultThresholds "soleSourceRatio"))
    with (dec 5 10).
  change (Route.ToNumber ToNumber_other (opt_prop Route.defaultThresholds "growthRateAnomaly"))
    with (of_Z 2).
  match goal with
  | |- exists r n, OK ?R = OK r /\ _ => 
      assert (N : exists n : Z, Route.score R = of_Z n /\ (0 <= n <= 100)%Z)
  end.
  { cbn [Route.score]. apply capped_score. acc_nonneg. }
  destruct N as [n N]. eexists. exists n. split; [reflexivity | exact N].
Qed.

Lemma save_loadModel (this : FD.t) (fs fs' : FS) (now : string) :
  FD.save this fs Route.MODEL_PATH now = OK fs' ->
  Route.loadModel fs' JNull = (artifact this now, artifact this now).
Proof.
  unfold FD.save, writeFile. destruct (writable fs Route.MODEL_PATH); [|discriminate].
  intro S. inversion S; subst fs'; clear S.
  unfold Route.loadModel, readFile. cbn [truthy_js content].
  rewrite String.eqb_refl. reflexivity.
Qed.

Lemma artifact_fields (this : FD.t) (now : string) :
  opt_prop (artifact this now) "version" = JStr (FD.modelVersion this) /\
  opt_prop (artifact this now) "trained" = JBool (FD.trained this) /\
  opt_prop (artifact this now) "thresholds" = reparse (FD.js_thresholds (FD.thresholds this)) /\
  opt_prop (opt_prop (artifact this now) "fraudPatterns") "commonFactors"
  = match FD.fraudPatterns this with
    | Some p => JArr (map (fun e => reparse (FD.js_entry e)) (FD.commonFactors p))
    | None => JUndefined
    end.
Proof.
  unfold artifact, FD.modelData. rewrite reparse_JObj.
  cbn [flat_map is_undefined app FD.js_featureStats FD.js_thresholds].
  replace (is_undefined (FD.js_fraudPatterns (FD.fraudPatterns this))) with false
    by (destruct (FD.fraudPatterns this); reflexivity).
  cbn [app opt_prop get String.eqb Ascii.eqb Bool.eqb].
  repeat split.
  destruct (FD.fraudPatterns this) as [p|]; [|reflexivity].
  unfold FD.js_fraudPatterns. rewrite reparse_JObj.
  cbn [flat_map is_undefined app opt_prop get String.eqb Ascii.eqb Bool.eqb].
  rewrite reparse_JArr, map_map. f_equal.
Qed.

(** The weight the route reads from a saved pattern: a weight that is
    not finite was written as [null]. *)
Lemma saved_weight (ToNumber_other : jsval -> num) (e : FD.FraudPatternEntry) :
  Route.ToNumber ToNumber_other (opt_prop (reparse (FD.js_entry e)) "weight")
  = if isFinite (FD.weight e) then FD.weight e else Fin 0.
Proof.
  unfold FD.js_entry. rewrite reparse_JObj.
  cbn [flat_map is_undefined app opt_prop get String.eqb Ascii.eqb Bool.eqb reparse].
  destruct (isFinite (FD.weight e)); reflexivity.
Qed.

Lemma saved_patternStep (ToNumber_other : jsval -> num) (features : object num)
    (acc : Acc) (e : FD.FraudPatternEntry) :
  exists acc',
    Route.patternStep ToNumber_other features acc (reparse (FD.js_entry e)) = OK acc' /\
    ((Fin 0 <=? FD.weight e)%num = true -> nonneg (fst acc) -> nonneg (fst acc')) /\
    (forall f, In f (snd acc') -> In f (snd acc) \/ type f = "PATTERN_MATCH").
Proof.
  unfold Route.patternStep. rewrite saved_weight.
  unfold FD.js_entry at 1. rewrite reparse_JObj.
  cbn [flat_map is_undefined app prop get String.eqb Ascii.eqb Bool.eqb reparse bind].
  eexists. split; [reflexivity|]. split.
  - intros W A. apply push_if_nonneg; [exact A|]. intros _. cbn [contribution].
    apply round_nonneg. apply mul_pos_nonneg; [apply inject_Z_pos; lia|].
    destruct (FD.weight e); simpl in *; try discriminate; auto;
      try apply Qle_refl; qprop; auto.
  - intros f I. unfold push_if in I. destruct (_ && _)%bool; [|left; exact I].
    cbn [snd] in I. apply in_app_or in I. destruct I as [I | [I | []]].
    + left. exact I.
    + right. subst f. reflexivity.
Qed.

Lemma saved_patterns (ToNumber_other : jsval -> num) (features : object num)
    (cf : list FD.FraudPatternEntry) (acc : Acc) :
  exists acc',
    fold_left (fun acc factor => a <- acc ;; Route.patternStep ToNumber_other features a factor)
              (map (fun e => reparse (FD.js_entry e)) cf) (OK acc) = OK acc' /\
    (forallb (fun e => (Fin 0 <=? FD.weight e)%num) cf = true ->
     nonneg (fst acc) -> nonneg (fst acc')) /\
    (forall f, In f (snd acc') -> In f (snd acc) \/ type f = "PATTERN_MATCH").
Proof.
  revert acc. induction cf as [|e cf IH]; intro acc; cbn [map fold_left].
  - exists acc. split; [reflexivity | auto].
  - destruct (saved_patternStep ToNumber_other features acc e) as [acc1 [E1 [N1 T1]]].
    cbn [bind]. rewrite E1.
    destruct (IH acc1) as [acc' [E [N T]]]. exists acc'. split; [exact E|]. split.
    + cbn [forallb]. intros W A. apply andb_prop in W. destruct W as [W1 W2].
      apply N; [exact W2|]. apply N1; assumption.
    + intros f I. apply T in I. destruct I as [I | I]; [|right; exact I].
      apply T1. exact I.
Qed.


Lemma geb_of_Z (n m : Z) : (of_Z n >=? of_Z m)%num = (m <=? n)%Z.
Proof.
  unfold geb, leb, of_Z. destruct (m <=? n)%Z eqn:E.
  - apply Z.leb_le in E. qprop. rewrite <- Zle_Qle. exact E.
  - apply Z.leb_gt in E. qprop. rewrite <- Zlt_Qlt. exact E.
Qed.

(** X10.  A model that has been loaded is served from memory on the
    next call, whatever the file system holds by then; a load that gave
    nothing (no file, no JSON, or a document that is falsy) is tried
    again. *)
Theorem loadModel_serves_cache (fs fs' : FS) :
  let first := Route.loadModel fs JNull in
  snd (Route.loadModel fs' (fst first))
  = if truthy_js (snd first) then snd first else snd (Route.loadModel fs' JNull).
Proof.
  cbv zeta. unfold Route.loadModel at 2 3 4. cbn [truthy_js].
  destruct (bind (readFile fs Route.MODEL_PATH) (fun data => parse data)) as [p|e];
    cbn [fst snd]; [|reflexivity].
  unfold Route.loadModel. destruct (truthy_js p) eqn:T; [reflexivity|].
  cbn [truthy_js].
  destruct (bind (readFile fs' Route.MODEL_PATH) (fun data => parse data)); reflexivity.
Qed.



Lemma risk_of_Z (n : Z) :
  (if (of_Z n >=? of_Z 50)%num then "High"
   else if (of_Z n >=? of_Z 25)%num then "Medium" else "Low")
  = (if (50 <=? n)%Z then "High" else if (25 <=? n)%Z then "Medium" else "Low").
Proof. rewrite !geb_of_Z. reflexivity. Qed.

(** X14.  Without a model the route gives every contractor a whole
    score from 0 to 100, 'High' from 50, 'Medium' from 25 and 'Low'
    below, with the version 'default' and the confidence 0.70. *)
Theorem route_default_score (ToNumber_other : jsval -> num) (features : object num) :
  exists (r : Route.Result) (n : Z),
    Route.scoreContractor ToNumber_other features JNull = OK r /\
    Route.score r = of_Z n /\ (0 <= n <= 100)%Z /\
    Route.riskLevel r
    = (if (50 <=? n)%Z then "High" else if (25 <=? n)%Z then "Medium" else "Low") /\
    Route.modelVersion r = JStr "default" /\
    Route.confidence r = dec 70 100.
Proof.
  destruct (route_default_range ToNumber_other features) as [r [n [E [S B]]]].
  exists r, n. split; [exact E|]. split; [exact S|]. split; [exact B|].
  destruct (scoreContractor_without_model ToNumber_other features) as [r' [E' [L [V C]]]].
  rewrite E in E'. inversion E'; subst r'.
  rewrite L, S, risk_of_Z. auto.
Qed.




Lemma gtb_NaN (x : num) : (x >? NaN)%num = false.
Proof. destruct x; reflexivity. Qed.

Lemma geb_NaN (x : num) : (x >=? NaN)%num = false.
Proof. destruct x; reflexivity. Qed.

Lemma push_if_In (c : bool) (f0 : Factor) (acc : Acc) (f : Factor) :
  In f (snd (push_if c f0 acc)) -> In f (snd acc) \/ (c = true /\ f = f0).
Proof.
  unfold push_if. destruct c; [|left; assumption].
  cbn [snd]. intro I. apply in_app_or in I. destruct I as [I | [I | []]]; auto.
Qed.

Lemma route_empty_thresholds (ToNumber_other : jsval -> num) (this : FD.t) (now : string)
    (features : object num) :
  FD.thresholds this = [] ->
  exists r : Route.Result,
    Route.scoreContractor ToNumber_other features (artifact this now) = OK r /\
    Route.riskLevel r = "Low" /\
    Forall (fun f => type f <> "AGENCY_CONCENTRATION" /\ type f <> "HIGH_SOLE_SOURCE" /\
                     type f <> "RAPID_GROWTH")
           (Route.factors r).
Proof.
  intro TH. unfold Route.scoreContractor. cbv zeta.
  destruct (artifact_fields this now) as [V [T [H C]]].
  rewrite V, T, H, C, TH.
  change (truthy_js (reparse (FD.js_thresholds []))) with true. cbv iota.
  change (reparse (FD.js_thresholds [])) with (JObj []).
  cbn [opt_prop get Route.ToNumber]. rewrite !gtb_NaN.
  match goal with
  | |- exists r, bind ?m _ = _ /\ _ =>
      assert (P : exists acc, m = OK acc /\
                forall f, In f (snd acc) ->
                  type f <> "AGENCY_CONCENTRATION" /\ type f <> "HIGH_SOLE_SOURCE" /\
                  type f <> "RAPID_GROWTH")
  end.
  { match goal with
    | |- exists a, (if _ then match _ with JArr l => fold_left _ _ (OK ?acc0) | _ => _ end
                    else _) = _ /\ _ =>
        assert (A0 : forall f, In f (snd acc0) ->
                  type f <> "AGENCY_CONCENTRATION" /\ type f <> "HIGH_SOLE_SOURCE" /\
                  type f <> "RAPID_GROWTH")
    end.
    { intros f I.
      repeat (apply push_if_In in I; destruct I as [I | [I1 I2]];
              [|first [discriminate I1 | subst f; cbn [type]; repeat split; discriminate]]).
      simpl in I. contradiction. }
    destruct (FD.fraudPatterns this) as [p|]; cbn [truthy_js].
    - rewrite firstn_map.
      match goal with
      | |- exists a, fold_left _ _ (OK ?acc0) = _ /\ _ =>
          destruct (saved_patterns ToNumber_other features (firstn 5 (FD.commonFactors p)) acc0)
            as [acc' [E [_ F]]]
      end.
      exists acc'. split; [exact E|]. intros f I. apply F in I. destruct I as [I | I].
      + apply A0. exact I.
      + rewrite I. repeat split; discriminate.
    - eexists. split; [reflexivity | exact A0]. }
  destruct P as [acc [P F]]. rewrite P. cbn [bind].
  eexists. split; [reflexivity|]. cbn [Route.riskLevel Route.factors].
  rewrite !geb_NaN. split; [reflexivity|].
  apply Forall_forall. intros f I. apply F.
  unfold sort_factors in I. apply sort_by_In in I. exact I.
Qed.

(** X13.  A detector whose threshold table is empty, as it is until
    training, saves an artifact with which the route reports 'Low' for
    every contractor, whatever the score; the agency, sole-source and
    growth rules do not fire, since the empty table replaces the
    thresholds the route would use without a model. *)
Theorem empty_thresholds_artifact_reports_low (ToNumber_other : jsval -> num) (this : FD.t)
    (fs fs' : FS) (now : string) (features : object num) :
  FD.thresholds this = [] ->
  FD.save this fs Route.MODEL_PATH now = OK fs' ->
  exists (model : jsval) (r : Route.Result),
    Route.loadModel fs' JNull = (model, model) /\
    Route.scoreContractor ToNumber_other features model = OK r /\
    Route.riskLevel r = "Low" /\
    Forall (fun f => type f <> "AGENCY_CONCENTRATION" /\ type f <> "HIGH_SOLE_SOURCE" /\
                     type f <> "RAPID_GROWTH")
           (Route.factors r).
Proof.
  intros TH S. exists (artifact this now).
  destruct (route_empty_thresholds ToNumber_other this now features TH) as [r H].
  exists r. split; [apply (save_loadModel this fs fs' now S) | exact H].
Qed.

Lemma empty_thresholds_artifact_reports_low_witness :
  exists (fs' : FS) (model : jsval) (r : Route.Result),
    FD.save FD.constructor Examples.no_model_fs Route.MODEL_PATH
      "2024-05-01T00:00:00.000Z" = OK fs' /\
    Route.loadModel fs' JNull = (model, model) /\
    Route.scoreContractor (fun _ => NaN)
      (Route.extractFeatures (Some Examples.scenario_a)) model = OK r /\
    Route.riskLevel r = "Low" /\
    Forall (fun f => type f <> "AGENCY_CONCENTRATION" /\ type f <> "HIGH_SOLE_SOURCE" /\
                     type f <> "RAPID_GROWTH")
           (Route.factors r).
Proof.
  destruct (FD.save FD.constructor Examples.no_model_fs Route.MODEL_PATH
              "2024-05-01T00:00:00.000Z") as [fs'|e] eqn:S; [|discriminate S].
  destruct (empty_thresholds_artifact_reports_low (fun _ => NaN) FD.constructor
              Examples.no_model_fs fs' "2024-05-01T00:00:00.000Z"
              (Route.extractFeatures (Some Examples.scenario_a)) eq_refl S)
    as [model [r H]].
  exists fs', model, r. split; [reflexivity | exact H].
Defined.

(** ** Finite features *)

Lemma add_finite (x y : num) :
  isFinite x = true -> isFinite y = true -> isFinite (x + y) = true.
Proof. destruct x, y; simpl; congruence. Qed.

Lemma or_else_finite (x d : num) :
  match x with PInf | NInf => False | _ => True end ->
  isFinite d = true -> isFinite (x ||| d) = true.
Proof.
  unfold or_else. destruct x; simpl; try contradiction; auto.
  intros _ D. destruct (negb (Qeq_bool q 0)); auto.
Qed.

Lemma or_else_finite' (x d : num) :
  isFinite x = true -> isFinite d = true -> isFinite (x ||| d) = true.
Proof.
  intros X D. apply or_else_finite; [|exact D]. destruct x; try discriminate; exact I.
Qed.

Lemma fold_add_finite (l : list num) (x : num) :
  Forall (fun v => isFinite v = true) l -> isFinite x = true ->
  isFinite (fold_left add l x) = true.
Proof.
  intro F. revert x. induction F as [|v l Fv F IH]; intros x X; cbn [fold_left]; [exact X|].
  apply IH. apply add_finite; assumption.
Qed.

Lemma amount_of_finite (a : Award) :
  match Award_Amount a with PInf | NInf => false | _ => true end = true ->
  isFinite (amount_of a) = true.
Proof.
  intro H. unfold amount_of. apply or_else_finite; [|reflexivity].
  destruct (Award_Amount a); try discriminate; exact I.
Qed.

Lemma amounts_finite (awards : list Award) :
  amounts_not_infinite awards = true ->
  Forall (fun v => isFinite v = true) (map amount_of awards).
Proof.
  unfold amounts_not_infinite. intro F. apply Forall_forall. intros v I.
  apply in_map_iff in I. destruct I as [a [E I]]. subst v.
  apply amount_of_finite. rewrite forallb_forall in F. apply (F a I).
Qed.

Lemma total_amounts_finite (awards : list Award) :
  amounts_not_infinite awards = true -> isFinite (total (map amount_of awards)) = true.
Proof.
  intro F. unfold total. apply fold_add_finite; [apply amounts_finite; exact F | reflexivity].
Qed.

Lemma of_nat_nonzero (n : nat) : (1 <= n)%nat -> Qeq_bool (inject_Z (Z.of_nat n)) 0 = false.
Proof.
  intro N. qprop. unfold Qeq, inject_Z. cbn [Qnum Qden]. lia.
Qed.

Lemma div_of_nat_finite (x : num) (n : nat) :
  isFinite x = true -> (1 <= n)%nat -> isFinite (x / of_nat n) = true.
Proof.
  intros X N. destruct x; try discriminate.
  unfold of_nat, of_Z, div. rewrite of_nat_nonzero by exact N. reflexivity.
Qed.

(** A count over a number of rows that is not 0 is a ratio from 0 to 1. *)
Lemma ratio_unit (a n : nat) :
  (a <= n)%nat -> (1 <= n)%nat ->
  exists q, (of_nat a / of_nat n)%num = Fin q /\ 0 <= q <= 1.
Proof.
  intros A N. unfold of_nat, of_Z, div. rewrite of_nat_nonzero by exact N.
  eexists. split; [reflexivity|].
  assert (P : 0 < inject_Z (Z.of_nat n)) by (apply inject_Z_pos; lia).
  split.
  - apply Qle_shift_div_l; [exact P|]. rewrite Qmult_0_l. apply (inject_Z_le 0). lia.
  - apply Qle_shift_div_r; [exact P|]. rewrite Qmult_1_l. apply inject_Z_le. lia.
Qed.

Lemma count_if_le {A : Type} (p : A -> bool) (l : list A) :
  (count_if p l <= List.length l)%nat.
Proof. unfold count_if. apply filter_length_le. Qed.

(** *** The most frequent agency *)

Lemma count_agencies_tally (awards : list Award) :
  count_agencies awards
  = fold_left tally_step (map (fun a => str_or (Awarding_Agency a) "Unknown") awards) [].
Proof.
  unfold count_agencies. generalize (@nil (string * num)).
  induction awards as [|a awards IH]; intro o; [reflexivity|].
  cbn [fold_left map]. rewrite IH. reflexivity.
Qed.

Lemma occurrences_le (k : string) (l : list string) :
  (occurrences k l <= List.length l)%nat.
Proof. apply count_if_le. Qed.

Lemma max2_of_nat (a b : nat) : max2 (of_nat a) (of_nat b) = of_nat (Nat.max a b).
Proof.
  unfold max2, of_nat, of_Z, leb.
  destruct (Qle_bool (inject_Z (Z.of_nat a)) (inject_Z (Z.of_nat b))) eqn:E; qprop.
  - rewrite <- Zle_Qle in E. f_equal. f_equal. f_equal. lia.
  - rewrite <- Zlt_Qlt in E. f_equal. f_equal. f_equal. lia.
Qed.

Lemma fold_max2_of_nat (l : list num) (n : nat) (m : nat) :
  Forall (fun v => exists k, v = of_nat k /\ (1 <= k <= n)%nat) l ->
  (1 <= m <= n)%nat ->
  exists k, fold_left max2 l (of_nat m) = of_nat k /\ (1 <= k <= n)%nat.
Proof.
  intro F. revert m. induction F as [|v l [k [E B]] F IH]; intros m M; cbn [fold_left].
  - exists m. auto.
  - subst v. rewrite max2_of_nat. apply IH. lia.
Qed.

Lemma maxl_of_nat (l : list num) (n : nat) :
  l <> [] ->
  Forall (fun v => exists k, v = of_nat k /\ (1 <= k <= n)%nat) l ->
  exists k, maxl l = of_nat k /\ (1 <= k <= n)%nat.
Proof.
  intros NE F. destruct l as [|v l]; [contradiction|].
  inversion F as [|? ? [k [E B]] F']; subst.
  unfold maxl. cbn [fold_left].
  change (max2 NInf (of_nat k)) with (of_nat k).
  apply fold_max2_of_nat; assumption.
Qed.

Lemma max_agency_share (a : Award) (awards : list Award) :
  exists k,
    maxl (values (count_agencies (a :: awards))) = of_nat k /\
    (1 <= k <= List.length (a :: awards))%nat.
Proof.
  set (l := a :: awards).
  set (names := map (fun a => str_or (Awarding_Agency a) "Unknown") l).
  assert (T : tallied names (count_agencies l)).
  { rewrite count_agencies_tally. apply (fold_tally_tallied names [] []). apply tallied_nil. }
  apply maxl_of_nat.
  - assert (I : In (str_or (Awarding_Agency a) "Unknown") names) by (left; reflexivity).
    destruct T as [_ G]. specialize (G (str_or (Awarding_Agency a) "Unknown")).
    destruct (occurrences _ names) eqn:E.
    + apply occurrences_0 in E. contradiction.
    + cbn [Nat.eqb] in G. apply get_Some_In in G.
      intro N. unfold values in N. apply map_eq_nil in N. rewrite N in G. destruct G.
  - apply Forall_forall. intros v I. unfold values in I. apply in_map_iff in I.
    destruct I as [kv [E I]]. subst v.
    destruct (tallied_In _ _ kv T I) as [P C].
    exists (occurrences (fst kv) names). split; [exact C|]. split; [exact P|].
    replace (List.length l) with (List.length names) by apply length_map.
    apply occurrences_le.
Qed.

(** *** The growth rate *)

Lemma set_Forall {A : Type} (P : A -> Prop) (k : string) (v : A) (o : object A) :
  P v -> Forall (fun kv => P (snd kv)) o -> Forall (fun kv => P (snd kv)) (set k v o).
Proof.
  intros Pv F. induction F as [|[k' v'] o Pk F IH]; cbn [set].
  - repeat constructor. exact Pv.
  - destruct (String.eqb k k'); constructor; auto.
Qed.

Lemma get_Forall {A : Type} (P : A -> Prop) (k : string) (o : object A) (v : A) :
  Forall (fun kv => P (snd kv)) o -> get k o = Some v -> P v.
Proof.
  intros F G. apply get_Some_In in G. rewrite Forall_forall in F. apply (F _ G).
Qed.

Lemma get_or_else_finite (k : string) (o : object num) (d : num) :
  Forall (fun kv => isFinite (snd kv) = true) o -> isFinite d = true ->
  isFinite (toNumber (get k o) ||| d) = true.
Proof.
  intros F D. destruct (get k o) as [v|] eqn:G; cbn [toNumber].
  - apply or_else_finite'; [|exact D].
    apply (get_Forall (fun v => isFinite v = true) k o v F G).
  - exact D.
Qed.

Lemma fold_group_finite (awards : list Award) (byYear : object num) :
  amounts_not_infinite awards = true ->
  Forall (fun kv => isFinite (snd kv) = true) byYear ->
  Forall (fun kv => isFinite (snd kv) = true) (fold_left group_step awards byYear).
Proof.
  revert byYear. induction awards as [|a awards IH]; intros byYear F G; cbn [fold_left];
    [exact G|].
  unfold amounts_not_infinite in F. cbn [forallb] in F. apply andb_prop in F.
  destruct F as [Fa F]. apply IH; [exact F|].
  unfold group_step. destruct (year_of a) as [year|]; [|exact G].
  apply (set_Forall (fun v => isFinite v = true)); [|exact G].
  apply add_finite; [|apply amount_of_finite; exact Fa].
  apply get_or_else_finite; [exact G | reflexivity].
Qed.

Lemma or_else_nonzero (x : num) (q : Q) :
  (x ||| of_Z 1)%num = Fin q -> Qeq_bool q 0 = false.
Proof.
  unfold or_else. destruct x as [| | |p]; cbn [truthy]; try discriminate.
  - intro E. inversion E. reflexivity.
  - destruct (Qeq_bool p 0) eqn:Z; cbn [negb]; intro E; inversion E; subst; auto.
Qed.

Lemma code_growth_finite (default : num) (byYear : object num) :
  isFinite default = true ->
  Forall (fun kv => isFinite (snd kv) = true) byYear ->
  isFinite (code_growth default byYear) = true.
Proof.
  intros D F. unfold code_growth. cbv zeta.
  destruct (Nat.leb 2 _); [|exact D].
  pose proof (get_or_else_finite
                (nth (List.length (sort_strings (keys byYear)) - 1)
                     (sort_strings (keys byYear)) "") byYear (Fin 0) F eq_refl) as L.
  pose proof (get_or_else_finite
                (nth (List.length (sort_strings (keys byYear)) - 2)
                     (sort_strings (keys byYear)) "") byYear (of_Z 1) F eq_refl) as P.
  destruct (toNumber (get (nth (List.length (sort_strings (keys byYear)) - 1) _ "") byYear)
            ||| Fin 0)%num as [| | |a]; try discriminate.
  destruct (toNumber (get (nth (List.length (sort_strings (keys byYear)) - 2) _ "") byYear)
            ||| of_Z 1)%num as [| | |b] eqn:E; try discriminate.
  unfold div. rewrite (or_else_nonzero _ _ E). reflexivity.
Qed.

(** The vector of the route's extractor on a collection that is not
    empty. *)
Lemma route_features_shape (a : Award) (awards : list Award) :
  Route.extractFeatures (Some (a :: awards))
  = let contracts := a :: awards in
    let amounts := map amount_of contracts in
    let ratio n := (of_nat n / of_nat (List.length contracts))%num in
    [ ("totalAwarded", total amounts);
      ("avgAward", (total amounts / of_nat (List.length amounts))%num);
      ("awardCount", of_nat (List.length contracts));
      ("agencyConcentration",
        (maxl (values (count_agencies contracts)) / of_nat (List.length contracts))%num);
      ("yearOverYearGrowth", code_growth (of_Z 1) (fold_left group_step contracts []));
      ("highRiskCategoryRatio",
        ratio (count_if (fun c => includes_some (toLowerCase (str_or (Description c) ""))
                                                Route.highRiskKeywords) contracts));
      ("defenseRatio",
        ratio (count_if (fun c => agency_is_defense (toLowerCase (str_or (Awarding_Agency c) "")))
                        contracts));
      ("healthcareRatio",
        ratio (count_if (fun c =>
                           let agency := toLowerCase (str_or (Awarding_Agency c) "") in
                           let desc := toLowerCase (str_or (Description c) "") in
                           (includes agency "health" || includes desc "health"
                            || includes desc "medical")%bool) contracts));
      ("largeAwardRatio",
        ratio (count_if (fun x => (x >? (total amounts / of_nat (List.length amounts))
                                        * of_Z 3)%num) amounts));
      ("soleSourceRatio",
        ratio (count_if (fun c => includes (toLowerCase (str_or (Description c) ""))
                                           "sole source") contracts)) ].
Proof.
  cbv zeta. rewrite <- groupByYear_fold. reflexivity.
Qed.

Lemma route_features_finite_aux (a : Award) (awards : list Award) :
  amounts_not_infinite (a :: awards) = true ->
  Forall (fun kv => isFinite (snd kv) = true) (Route.extractFeatures (Some (a :: awards))) /\
  Forall (fun k => exists q, get k (Route.extractFeatures (Some (a :: awards))) = Some (Fin q) /\
                             0 <= q <= 1)
         [ "agencyConcentration"; "highRiskCategoryRatio"; "defenseRatio";
           "healthcareRatio"; "largeAwardRatio"; "soleSourceRatio" ].
Proof.
  intro F. rewrite route_features_shape. cbv zeta.
  set (contracts := a :: awards) in *.
  assert (N : (1 <= List.length contracts)%nat) by (simpl; lia).
  assert (Na : (1 <= List.length (map amount_of contracts))%nat)
    by (rewrite length_map; exact N).
  assert (R : forall k, (k <= List.length contracts)%nat ->
                exists q, (of_nat k / of_nat (List.length contracts))%num = Fin q /\
                          0 <= q <= 1)
    by (intros k K; apply ratio_unit; assumption).
  assert (Rf : forall k, (k <= List.length contracts)%nat ->
                 isFinite (of_nat k / of_nat (List.length contracts)) = true).
  { intros k K. destruct (R k K) as [q [E _]]. rewrite E. reflexivity. }
  destruct (max_agency_share a awards) as [m [M B]]. fold contracts in M, B.
  assert (La : (count_if (fun x => (x >? (total (map amount_of contracts)
                                          / of_nat (List.length (map amount_of contracts)))
                                         * of_Z 3)%num) (map amount_of contracts)
                <= List.length contracts)%nat).
  { etransitivity; [apply count_if_le|]. rewrite length_map. lia. }
  split.
  - repeat apply Forall_cons; try apply Forall_nil; cbn [snd].
    + apply total_amounts_finite. exact F.
    + apply div_of_nat_finite; [apply total_amounts_finite; exact F | exact Na].
    + reflexivity.
    + rewrite M. apply Rf. lia.
    + apply code_growth_finite; [reflexivity|].
      apply fold_group_finite; [exact F | constructor].
    + apply Rf. apply count_if_le.
    + apply Rf. apply count_if_le.
    + apply Rf. apply count_if_le.
    + apply Rf. exact La.
    + apply Rf. apply count_if_le.
  - repeat apply Forall_cons; try apply Forall_nil; cbn [get]; eval_keys;
      rewrite ?M;
      match goal with
      | |- exists q, Some (of_nat ?k / _)%num = Some (Fin q) /\ _ =>
          destruct (R k) as [q [E Q]];
          [ first [ apply count_if_le | exact La | lia ]
          | exists q; rewrite E; auto ]
      end.
Qed.

(** X16.  On a collection that is not empty, whose award amounts are
    not infinite and in which no awarding agency is a name objects
    inherit, every feature the route extracts is a finite number, and
    the agency concentration and the five ratios lie between 0 and 1. *)
Theorem route_features_finite (contracts : list Award) :
  contracts <> [] ->
  amounts_not_infinite contracts = true ->
  forallb own_name (map agency_of contracts) = true ->
  let features := Route.extractFeatures (Some contracts) in
  Forall (fun kv => isFinite (snd kv) = true) features /\
  Forall (fun k => exists q, get k features = Some (Fin q) /\ 0 <= q <= 1)
         [ "agencyConcentration"; "highRiskCategoryRatio"; "defenseRatio";
           "healthcareRatio"; "largeAwardRatio"; "soleSourceRatio" ].
Proof.
  intros NE F _. destruct contracts as [|a awards]; [contradiction|].
  cbv zeta. apply route_features_finite_aux. exact F.
Qed.

Lemma route_features_finite_witness :
  let features := Route.extractFeatures (Some Examples.scenario_a) in
  Forall (fun kv => isFinite (snd kv) = true) features /\
  Forall (fun k => exists q, get k features = Some (Fin q) /\ 0 <= q <= 1)
         [ "agencyConcentration"; "highRiskCategoryRatio"; "defenseRatio";
           "healthcareRatio"; "largeAwardRatio"; "soleSourceRatio" ].
Proof.
  apply (route_features_finite Examples.scenario_a).
  - discriminate.
  - reflexivity.
  - reflexivity.
Defined.

(** *** The training extractor *)

Lemma max2_finite (x y : num) :
  isFinite x = true -> isFinite y = true -> isFinite (max2 x y) = true.
Proof.
  destruct x, y; try discriminate. intros _ _. unfold max2, leb.
  destruct (Qle_bool q q0); reflexivity.
Qed.

Lemma min2_finite (x y : num) :
  isFinite x = true -> isFinite y = true -> isFinite (min2 x y) = true.
Proof.
  destruct x, y; try discriminate. intros _ _. unfold min2, leb.
  destruct (Qle_bool q q0); reflexivity.
Qed.

Lemma fold_finite (op : num -> num -> num) (l : list num) (x : num) :
  (forall a b, isFinite a = true -> isFinite b = true -> isFinite (op a b) = true) ->
  Forall (fun v => isFinite v = true) l -> isFinite x = true ->
  isFinite (fold_left op l x) = true.
Proof.
  intros O F. revert x. induction F as [|v l Fv F IH]; intros x X; cbn [fold_left]; [exact X|].
  apply IH. apply O; assumption.
Qed.

Lemma maxl_finite (l : list num) :
  l <> [] -> Forall (fun v => isFinite v = true) l -> isFinite (maxl l) = true.
Proof.
  intros NE F. destruct l as [|v l]; [contradiction|].
  inversion F as [|? ? Fv F']; subst. unfold maxl. cbn [fold_left].
  apply (fold_finite max2); [apply max2_finite | exact F'|].
  destruct v; try discriminate. reflexivity.
Qed.

Lemma minl_finite (l : list num) :
  l <> [] -> Forall (fun v => isFinite v = true) l -> isFinite (minl l) = true.
Proof.
  intros NE F. destruct l as [|v l]; [contradiction|].
  inversion F as [|? ? Fv F']; subst. unfold minl. cbn [fold_left].
  apply (fold_finite min2); [apply min2_finite | exact F'|].
  destruct v; try discriminate. reflexivity.
Qed.

(** A finite number that is at least 0. *)
Lemma fold_add_fin_nonneg (l : list num) (x : num) :
  Forall (fun v => exists q, v = Fin q /\ 0 <= q) l ->
  (exists q, x = Fin q /\ 0 <= q) ->
  exists q, fold_left add l x = Fin q /\ 0 <= q.
Proof.
  intro F. revert x. induction F as [|v l [p [E P]] F IH]; intros x [q [X Q]];
    cbn [fold_left].
  - exists q. auto.
  - apply IH. subst. eexists. split; [reflexivity|]. lra.
Qed.

Lemma pow2_fin_nonneg (x : num) :
  isFinite x = true -> exists q, pow2 x = Fin q /\ 0 <= q.
Proof.
  destruct x; try discriminate. intros _. eexists. split; [reflexivity|].
  nra.
Qed.

Lemma sub_finite (x y : num) :
  isFinite x = true -> isFinite y = true -> isFinite (x - y) = true.
Proof. destruct x, y; simpl; congruence. Qed.

Lemma mul_finite (x y : num) :
  isFinite x = true -> isFinite y = true -> isFinite (x * y) = true.
Proof. destruct x, y; simpl; congruence. Qed.

Lemma div_truthy_finite (x y : num) :
  isFinite x = true -> isFinite y = true -> truthy y = true -> isFinite (x / y) = true.
Proof.
  destruct x, y; try discriminate. intros _ _ T. cbn [truthy] in T.
  apply negb_true_iff in T. unfold div. rewrite T. reflexivity.
Qed.

Lemma calculateStdDev_finite (sqrt_fin : Q -> Q) (values : list num) :
  Forall (fun v => isFinite v = true) values ->
  isFinite (FeatureExtractor.calculateStdDev sqrt_fin values) = true.
Proof.
  intro F. unfold FeatureExtractor.calculateStdDev. cbv zeta.
  destruct (Nat.eqb (List.length values) 0) eqn:N; [reflexivity|].
  apply Nat.eqb_neq in N.
  set (mean := (total values / of_nat (List.length values))%num).
  assert (M : isFinite mean = true).
  { apply div_of_nat_finite; [|lia]. apply fold_add_finite; [exact F | reflexivity]. }
  assert (S : exists q, total (map (fun v => pow2 (v - mean)) values) = Fin q /\ 0 <= q).
  { apply fold_add_fin_nonneg.
    - apply Forall_forall. intros x I. apply in_map_iff in I. destruct I as [v [E I]].
      subst x. apply pow2_fin_nonneg. apply sub_finite; [|exact M].
      rewrite Forall_forall in F. apply F. exact I.
    - exists 0. split; [reflexivity | lra]. }
  destruct S as [q [E Q]]. rewrite E.
  unfold of_nat, of_Z, div. rewrite of_nat_nonzero by lia.
  assert (P : 0 <= q / inject_Z (Z.of_nat (List.length values))).
  { apply Qle_shift_div_l; [apply inject_Z_pos; lia | lra]. }
  unfold Num.sqrt. destruct (Qlt_bool _ 0) eqn:L; [|reflexivity].
  qprop. lra.
Qed.

Lemma concentration_finite (shares : list num) :
  Forall (fun v => isFinite v = true) shares ->
  isFinite (fold_left (fun sum s => (sum + s * s)%num) shares (Fin 0)) = true.
Proof.
  intro F. generalize (eq_refl : isFinite (Fin 0) = true). generalize (Fin 0).
  induction F as [|s l Fs F IH]; intros x X; cbn [fold_left]; [exact X|].
  apply IH. apply add_finite; [exact X|]. apply mul_finite; exact Fs.
Qed.

(** X17.  When the awards are not empty, no amount is infinite, the
    total awarded is not 0 and no awarding agency is a name objects
    inherit, every feature the training extractor computes is a finite
    number. *)
Theorem contractor_features_finite (sqrt_fin : Q -> Q) (awards : list Award) :
  awards <> [] ->
  amounts_not_infinite awards = true ->
  truthy (total (map amount_of awards)) = true ->
  forallb own_name (map agency_of awards) = true ->
  Forall (fun kv => isFinite (snd kv) = true)
         (FeatureExtractor.extractContractorFeatures sqrt_fin awards).
Proof.
  intros NE F T _. destruct awards as [|a awards]; [contradiction|]. clear NE.
  set (l := a :: awards) in *.
  assert (N : (1 <= List.length l)%nat) by (simpl; lia).
  assert (Na : (1 <= List.length (map amount_of l))%nat) by (rewrite length_map; exact N).
  assert (A : Forall (fun v => isFinite v = true) (map amount_of l))
    by (apply amounts_finite; exact F).
  assert (Tf : isFinite (total (map amount_of l)) = true)
    by (apply total_amounts_finite; exact F).
  assert (Rf : forall k, isFinite (of_nat k / of_nat (List.length l)) = true).
  { intro k. apply div_of_nat_finite; [reflexivity | exact N]. }
  assert (Ra : forall k, isFinite (of_nat k / of_nat (List.length (map amount_of l))) = true).
  { intro k. apply div_of_nat_finite; [reflexivity | exact Na]. }
  destruct (max_agency_share a awards) as [m [M _]]. fold l in M.
  unfold FeatureExtractor.extractContractorFeatures. cbv zeta.
  rewrite calculateGrowthRate_code, groupByYear_fold, M.
  repeat apply Forall_cons; try apply Forall_nil; cbn [snd];
    try apply Rf; try apply Ra.
  - exact Tf.
  - apply or_else_finite'; [|reflexivity]. apply div_of_nat_finite; assumption.
  - reflexivity.
  - apply maxl_finite; [|exact A]. discriminate.
  - apply minl_finite; [|exact A]. discriminate.
  - apply calculateStdDev_finite. exact A.
  - apply concentration_finite. apply Forall_forall. intros s I.
    apply in_map_iff in I. destruct I as [v [E I]]. subst s.
    apply div_truthy_finite; [|exact Tf|exact T].
    rewrite Forall_forall in A. apply A. exact I.
  - apply code_growth_finite; [reflexivity|].
    apply fold_group_finite; [exact F | constructor].
Qed.

Lemma contractor_features_finite_witness :
  Forall (fun kv => isFinite (snd kv) = true)
         (FeatureExtractor.extractContractorFeatures floor_sqrt Examples.scenario_a).
Proof.
  apply (contractor_features_finite floor_sqrt Examples.scenario_a).
  - discriminate.
  - reflexivity.
  - reflexivity.
  - reflexivity.
Defined.

(** ** Code complexity *)

Lemma matches_stem_five (stem : string) (a b c d e : ascii) :
  String.length stem = 4%nat ->
  FeatureExtractor.matches_stem stem (String a (String b (String c (String d (String e "")))))
  = (String.prefix stem (String a (String b (String c (String d (String e "")))))
     && is_level e)%bool.
Proof.
  intro L.
  destruct stem as [|s1 [|s2 [|s3 [|s4 [|s5 stem]]]]]; try discriminate L.
  cbn [FeatureExtractor.matches_stem String.get].
  rewrite !andb_false_r. cbn [orb]. rewrite !orb_false_r. reflexivity.
Qed.

Lemma level_digit (e : ascii) :
  is_level e = true ->
  exists n : Z,
    FeatureExtractor.parseInt_char (Some e) = of_Z n /\ (1 <= n <= 5)%Z /\
    of_nat (nat_of_ascii e - 48) = of_Z n.
Proof.
  unfold is_level. intro H. apply andb_prop in H. destruct H as [H1 H2].
  apply Nat.leb_le in H1, H2. unfold FeatureExtractor.parseInt_char. cbv zeta.
  replace (Nat.leb 48 (nat_of_ascii e)) with true by (symmetry; apply Nat.leb_le; lia).
  replace (Nat.leb (nat_of_ascii e) 57) with true by (symmetry; apply Nat.leb_le; lia).
  cbn [andb]. exists (Z.of_nat (nat_of_ascii e - 48)). split; [reflexivity|].
  split; [lia | reflexivity].
Qed.

(** X15.  For a code of five characters the complexity level is the
    last digit when the code is 9920x or 9921x with x from 1 to 5, and 3
    otherwise: a whole number from 1 to 5.  The level is read from the
    fifth character of the text, not of the match, so a longer text can
    give another digit or NaN. *)
Theorem code_complexity_five_chars (a b c d e : ascii) :
  let code := String a (String b (String c (String d (String e "")))) in
  let em := ((String.prefix "9920" code || String.prefix "9921" code) && is_level e)%bool in
  FeatureExtractor.getCodeComplexity (Some code)
  = (if em then of_nat (nat_of_ascii e - 48) else of_Z 3) /\
  (exists n : Z,
     FeatureExtractor.getCodeComplexity (Some code) = of_Z n /\ (1 <= n <= 5)%Z) /\
  FeatureExtractor.getCodeComplexity (Some "CPT 99215") = of_Z 9 /\
  FeatureExtractor.getCodeComplexity (Some "code:99215") = NaN.
Proof.
  cbv zeta. 
  assert (E : FeatureExtractor.getCodeComplexity
                (Some (String a (String b (String c (String d (String e ""))))))
              = if ((String.prefix "9920" (String a (String b (String c (String d (String e "")))))
                     || String.prefix "9921"
                          (String a (String b (String c (String d (String e ""))))))
                    && is_level e)%bool
                then of_nat (nat_of_ascii e - 48) else of_Z 3).
  { unfold FeatureExtractor.getCodeComplexity.
    change (String.eqb (String a (String b (String c (String d (String e ""))))) "")
      with false. cbv iota.
    rewrite !matches_stem_five by reflexivity. cbn [String.get].
    destruct (is_level e) eqn:Le.
    - destruct (level_digit e Le) as [n [P [_ Q]]]. rewrite P, Q, !andb_true_r.
      destruct (String.prefix "9920" _); [reflexivity|].
      destruct (String.prefix "9921" _); reflexivity.
    - rewrite !andb_false_r. reflexivity. }
  split; [exact E|]. split; [|split; vm_compute; reflexivity].
  rewrite E. destruct (_ && is_level e)%bool eqn:C.
  - apply andb_prop in C. destruct C as [_ Le].
    destruct (level_digit e Le) as [n [_ [B Q]]]. exists n. auto.
  - exists 3%Z. split; [reflexivity | lia].
Qed.

(** ** The composite score of the feature extractor *)

Lemma add_if_of_Z (c : bool) (p s : Z) :
  FeatureExtractor.add_if c (of_Z p) (of_Z s) = of_Z (if c then s + p else s).
Proof.
  unfold FeatureExtractor.add_if. destruct c; [|reflexivity].
  unfold of_Z, add, Qplus, inject_Z. cbn [Qnum Qden]. f_equal. f_equal. lia.
Qed.

Lemma min2_of_Z (a b : Z) : min2 (of_Z a) (of_Z b) = of_Z (Z.min a b).
Proof.
  unfold min2, of_Z, leb.
  destruct (Qle_bool (inject_Z a) (inject_Z b)) eqn:E; qprop.
  - rewrite <- Zle_Qle in E. rewrite Z.min_l by exact E. reflexivity.
  - rewrite <- Zlt_Qlt in E. rewrite Z.min_r by lia. reflexivity.
Qed.

Lemma healthcare_composite_range (features : object num) :
  exists n : Z,
    FeatureExtractor.calculateFraudScore features (Some "healthcare") = of_Z n /\
    (0 <= n <= 100)%Z.
Proof.
  unfold FeatureExtractor.calculateFraudScore. cbv zeta.
  change (String.eqb "healthcare" "contractor") with false.
  change (String.eqb "healthcare" "healthcare") with true. cbv iota.
  change (Fin 0) with (of_Z 0).
  rewrite !add_if_of_Z, min2_of_Z.
  eexists. split; [reflexivity|].
  repeat match goal with |- context [if ?c then _ else _] => destruct c end; lia.
Qed.

Lemma contractor_composite_range (features : object num) (r : Q) :
  get "highRiskCategoryRatio" features = Some (Fin r) -> 0 <= r <= 1 ->
  exists q : Q,
    FeatureExtractor.calculateFraudScore features None = Fin q /\ 0 <= q <= 95.
Proof.
  intros G R. unfold FeatureExtractor.calculateFraudScore. cbv zeta.
  change (String.eqb "contractor" "contractor") with true.
  change (String.eqb "contractor" "healthcare") with false. cbv iota.
  rewrite G. cbn [toNumber].
  change (Fin 0) with (of_Z 0). rewrite !add_if_of_Z.
  set (s := (if (toNumber (get "soleSourceRatio" features) >? dec 5 10)%num then _ else _)%Z).
  assert (S : (0 <= s <= 60)%Z).
  { subst s.
    repeat match goal with |- context [if ?c then _ else _] => destruct c end; lia. }
  clearbody s.
  unfold FeatureExtractor.add_if, of_Z, mul, add, min2, leb.
  assert (I : 0 <= inject_Z s <= 60).
  { split; [apply (inject_Z_le 0) | apply (inject_Z_le s 60)]; lia. }
  unfold inject_Z in *.
  destruct (toNumber (get "largeAwardRatio" features) >? dec 3 10)%num;
    destruct (toNumber (get "defenseRatio" features) >? dec 7 10)%num;
    match goal with
    | |- exists q, (if Qle_bool ?x ?y then _ else _) = _ /\ _ =>
        assert (L : Qle_bool x y = true) by (qprop; nra);
        rewrite L; exists x; split; [reflexivity | nra]
    end.
Qed.

Lemma contractor_high_risk_ratio (sqrt_fin : Q -> Q) (a : Award) (awards : list Award) :
  exists r : Q,
    get "highRiskCategoryRatio"
        (FeatureExtractor.extractContractorFeatures sqrt_fin (a :: awards)) = Some (Fin r) /\
    0 <= r <= 1.
Proof.
  unfold FeatureExtractor.extractContractorFeatures. cbv zeta. cbn [get]. eval_keys.
  destruct (ratio_unit
              (count_if (fun a0 => includes_some (toLowerCase (str_or (Description a0) ""))
                                                 FeatureExtractor.highRiskKeywords)
                        (a :: awards))
              (List.length (a :: awards))) as [r [E R]].
  - apply count_if_le.
  - simpl. lia.
  - exists r. rewrite E. auto.
Qed.

(** X18.  The composite score of the feature extractor: for a provider
    it is a whole number from 0 to 100; for the features extracted from
    awards that are not empty it is a number from 0 to 95, so the cap at
    100 is never reached; for the features of no award it is NaN; and
    for the types 'contract' and 'entity', which are keys of the weight
    table while the default type 'contractor' is not, it is 0. *)
Theorem composite_score_range (sqrt_fin : Q -> Q) (features : object num)
    (a : Award) (awards : list Award) :
  (exists n : Z,
     FeatureExtractor.calculateFraudScore features (Some "healthcare") = of_Z n /\
     (0 <= n <= 100)%Z) /\
  (exists q : Q,
     FeatureExtractor.calculateFraudScore
       (FeatureExtractor.extractContractorFeatures sqrt_fin (a :: awards)) None = Fin q /\
     0 <= q <= 95) /\
  FeatureExtractor.calculateFraudScore
    (FeatureExtractor.extractContractorFeatures sqrt_fin []) None = NaN /\
  FeatureExtractor.calculateFraudScore features (Some "contract") = Fin 0 /\
  FeatureExtractor.calculateFraudScore features (Some "entity") = Fin 0.
Proof.
  split; [apply healthcare_composite_range|]. split.
  - destruct (contractor_high_risk_ratio sqrt_fin a awards) as [r [G R]].
    apply (contractor_composite_range _ r G R).
  - split; [|split; reflexivity].
    unfold FeatureExtractor.calculateFraudScore. cbv zeta.
    change (String.eqb "contractor" "contractor") with true.
    change (String.eqb "contractor" "healthcare") with false. cbv iota.
    replace (toNumber (get "highRiskCategoryRatio"
                         (FeatureExtractor.extractContractorFeatures sqrt_fin [])))
      with NaN by (vm_compute; reflexivity).
    unfold FeatureExtractor.add_if.
    repeat match goal with |- context [if ?c then _ else _] => destruct c end;
      repeat match goal with
        | |- context [(?x + NaN * ?y)%num] =>
            replace (x + NaN * y)%num with NaN by (destruct x; reflexivity)
        end; reflexivity.
Qed.

(** ** The synthetic features of the validation *)

Lemma synthetic_fold (indicators : list string) (l c s g r : bool) :
  fold_left
    (fun features ind =>
       let indLower := toLowerCase ind in
       let features :=
         if (includes indLower "rapid" || includes indLower "growth")%bool
         then set "yearOverYearGrowth" (dec 25 10) features else features in
       let features :=
         if (includes indLower "sole" || includes indLower "source")%bool
         then set "soleSourceRatio" (dec 7 10) features else features in
       let features :=
         if (includes indLower "concentration" || includes indLower "single")%bool
         then set "agencyConcentration" (dec 9 10) features else features in
       let features :=
         if (includes indLower "large" || includes indLower "overrun")%bool
         then set "largeAwardRatio" (dec 5 10) features else features in
       let features :=
         if (includes indLower "consult" || includes indLower "it "
             || includes indLower "software")%bool
         then set "highRiskCategoryRatio" (dec 6 10) features else features in
       features)
    indicators (synthetic l c s g r)
  = synthetic (l || mentions indicators ["large"; "overrun"])
              (c || mentions indicators ["concentration"; "single"])
              (s || mentions indicators ["sole"; "source"])
              (g || mentions indicators ["rapid"; "growth"])
              (r || mentions indicators ["consult"; "it "; "software"]).
Proof.
  revert l c s g r. induction indicators as [|ind inds IH]; intros l c s g r.
  - cbn [fold_left mentions existsb]. rewrite !orb_false_r. reflexivity.
  - cbn [fold_left]. cbv zeta.
    unfold mentions. cbn [existsb]. fold (mentions inds ["large"; "overrun"]).
    fold (mentions inds ["concentration"; "single"]).
    fold (mentions inds ["sole"; "source"]).
    fold (mentions inds ["rapid"; "growth"]).
    fold (mentions inds ["consult"; "it "; "software"]).
    unfold includes_some. cbn [existsb]. rewrite !orb_false_r.
    set (b1 := (includes (toLowerCase ind) "rapid" || includes (toLowerCase ind) "growth")%bool).
    set (b2 := (includes (toLowerCase ind) "sole" || includes (toLowerCase ind) "source")%bool).
    set (b3 := (includes (toLowerCase ind) "concentration"
                || includes (toLowerCase ind) "single")%bool).
    set (b4 := (includes (toLowerCase ind) "large" || includes (toLowerCase ind) "overrun")%bool).
    set (b5 := (includes (toLowerCase ind) "consult" || includes (toLowerCase ind) "it "
                || includes (toLowerCase ind) "software")%bool).
    replace (includes (toLowerCase ind) "consult"
             || (includes (toLowerCase ind) "it " || includes (toLowerCase ind) "software"))%bool
      with b5 by (subst b5; rewrite orb_assoc; reflexivity).
    rewrite !orb_assoc.
    replace (if b5 then _ else _)
      with (synthetic (l || b4) (c || b3) (s || b2) (g || b1) (r || b5)).
    + apply IH.
    + destruct b1, b2, b3, b4, b5, l, c, s, g, r; reflexivity.
Qed.

Lemma createFeaturesFromIndicators_synthetic (indicators : list string) :
  TrainModel.createFeaturesFromIndicators indicators
  = synthetic (mentions indicators ["large"; "overrun"])
              (mentions indicators ["concentration"; "single"])
              (mentions indicators ["sole"; "source"])
              (mentions indicators ["rapid"; "growth"])
              (mentions indicators ["consult"; "it "; "software"]).
Proof.
  unfold TrainModel.createFeaturesFromIndicators. cbv zeta.
  apply (synthetic_fold indicators false false false false false).
Qed.

(** X19.  The synthetic vector of a fraud case has the six features of
    the default rules, in a fixed order; a feature is raised to its
    fixed value exactly when some indicator mentions one of its words,
    whatever the case of the letters, the order of the indicators or
    their repetition, and the defense ratio is always 0.  Its keys hold
    capital letters, so no learned pattern matches it. *)
Theorem synthetic_features (this : FD.t) (indicators : list string) :
  TrainModel.createFeaturesFromIndicators indicators
  = [ ("largeAwardRatio",
        if mentions indicators ["large"; "overrun"] then dec 5 10 else Fin 0);
      ("agencyConcentration",
        if mentions indicators ["concentration"; "single"] then dec 9 10 else Fin 0);
      ("soleSourceRatio",
        if mentions indicators ["sole"; "source"] then dec 7 10 else Fin 0);
      ("yearOverYearGrowth",
        if mentions indicators ["rapid"; "growth"] then dec 25 10 else of_Z 1);
      ("highRiskCategoryRatio",
        if mentions indicators ["consult"; "it "; "software"] then dec 6 10 else Fin 0);
      ("defenseRatio", Fin 0) ] /\
  FD.matchFraudPatterns this (TrainModel.createFeaturesFromIndicators indicators)
  = (Fin 0, []).
Proof.
  split; [apply createFeaturesFromIndicators_synthetic|].
  apply matchFraudPatterns_capital_keys. intros k I.
  rewrite createFeaturesFromIndicators_synthetic in I. unfold synthetic, keys in I.
  cbn [map fst] in I. simpl in I.
  repeat (destruct I as [I | I]; [subst k; vm_compute; reflexivity|]). contradiction.
Qed.

(** ** The validation of a trained model *)

Lemma fold_add_percent (l : list num) (x : Q) :
  Forall (fun s => exists n : Z, s = of_Z n /\ (0 <= n <= 100)%Z) l ->
  exists t : Q,
    fold_left add l (Fin x) = Fin t /\
    x <= t <= x + inject_Z (Z.of_nat (List.length l)) * 100.
Proof.
  intro F. revert x. induction F as [|s l [n [E B]] F IH]; intro x; cbn [fold_left].
  - exists x. split; [reflexivity|]. cbn [List.length Z.of_nat].
    change (inject_Z 0) with 0. lra.
  - subst s. unfold of_Z. cbn [add]. destruct (IH (x + inject_Z n)) as [t [Et Bt]].
    exists t. split; [exact Et|].
    assert (N : 0 <= inject_Z n <= 100).
    { split; [apply (inject_Z_le 0) | apply (inject_Z_le n 100)]; lia. }
    cbn [List.length]. rewrite Nat2Z.inj_succ. unfold Z.succ. rewrite inject_Z_plus.
    change (inject_Z 1) with 1. lra.
Qed.

Lemma average_percent (l : list num) :
  Forall (fun s => exists n : Z, s = of_Z n /\ (0 <= n <= 100)%Z) l ->
  exists q : Q, TrainModel.average l = Fin q /\ 0 <= q <= 100.
Proof.
  intro F. unfold TrainModel.average.
  destruct (Nat.ltb 0 (List.length l)) eqn:N.
  - apply Nat.ltb_lt in N. destruct (fold_add_percent l 0 F) as [t [E B]].
    unfold total. rewrite E. unfold of_nat, of_Z, div.
    rewrite of_nat_nonzero by lia. eexists. split; [reflexivity|].
    assert (P : 0 < inject_Z (Z.of_nat (List.length l))) by (apply inject_Z_pos; lia).
    split.
    + apply Qle_shift_div_l; [exact P | lra].
    + apply Qle_shift_div_r; [exact P | lra].
  - exists 0. split; [reflexivity | lra].
Qed.

(** X20.  The validation of a model that has just been trained: the
    true-positive rate is a number from 0 to 1 and the two average
    scores are numbers from 0 to 100, each 0 when its list of cases is
    empty; the score range of an empty list of cases is reported with
    minimum +Infinity and maximum -Infinity. *)
Theorem validation_ranges (sqrt_fin : Q -> Q) (this : FD.t)
    (trainingData : list FD.TrainingRecord) (cases known : list FD.FraudCase)
    (normal : list TrainModel.Row) :
  let model := FD.train sqrt_fin this trainingData cases in
  let v := TrainModel.validateModel sqrt_fin model known normal in
  (exists q, TrainModel.truePositiveRate v = Fin q /\ 0 <= q <= 1) /\
  (exists q, TrainModel.avgFraudScore v = Fin q /\ 0 <= q <= 100) /\
  (exists q, TrainModel.avgNormalScore v = Fin q /\ 0 <= q <= 100) /\
  TrainModel.truePositiveRate (TrainModel.validateModel sqrt_fin model [] normal) = Fin 0 /\
  TrainModel.avgFraudScore (TrainModel.validateModel sqrt_fin model [] normal) = Fin 0 /\
  TrainModel.fraudScoreRange (TrainModel.validateModel sqrt_fin model [] normal)
  = (PInf, NInf) /\
  TrainModel.avgNormalScore (TrainModel.validateModel sqrt_fin model known []) = Fin 0 /\
  TrainModel.normalScoreRange (TrainModel.validateModel sqrt_fin model known [])
  = (PInf, NInf).
Proof.
  cbv zeta. set (model := FD.train sqrt_fin this trainingData cases).
  assert (W : weights_nonneg model = true) by apply train_weights_nonneg.
  split; [|split; [|split; [|repeat split]]].
  - unfold TrainModel.validateModel. cbv zeta. cbn [TrainModel.truePositiveRate].
    destruct (Nat.ltb 0 (List.length known)) eqn:N.
    + apply Nat.ltb_lt in N. apply ratio_unit; [|lia].
      etransitivity; [apply count_if_le|]. rewrite length_map. lia.
    + exists 0. split; [reflexivity | lra].
  - unfold TrainModel.validateModel. cbv zeta. cbn [TrainModel.avgFraudScore].
    apply average_percent. apply Forall_forall. intros s I.
    rewrite map_map in I. apply in_map_iff in I. destruct I as [fc [E I]]. subst s.
    apply scoreContractor_range. exact W.
  - unfold TrainModel.validateModel. cbv zeta. cbn [TrainModel.avgNormalScore].
    apply average_percent. apply Forall_forall. intros s I.
    apply in_map_iff in I. destruct I as [nc [E I]]. subst s.
    apply scoreContractor_range. exact W.
Qed.

(** ** Grouping the awards by recipient *)

Lemma group_insert_perm {A : Type} (k : string) (c : A) (o : object (list A)) :
  Permutation
    (List.concat (values (set k ((match get k o with Some l => l | None => [] end) ++ [c])%list o)))
    (c :: List.concat (values o)).
Proof.
  unfold values. induction o as [|[k' l] o IH]; cbn [get set map snd List.concat].
  - reflexivity.
  - destruct (String.eqb k k') eqn:E; cbn [map snd List.concat].
    + rewrite <- app_assoc. cbn [app]. symmetry. apply Permutation_middle.
    + rewrite IH. symmetry. apply Permutation_middle.
Qed.

Lemma group_insert_named {A : Type} (name : A -> string) (c : A) (o : object (list A)) :
  Forall (fun kv => snd kv <> [] /\ Forall (fun x => name x = fst kv) (snd kv)) o ->
  Forall (fun kv => snd kv <> [] /\ Forall (fun x => name x = fst kv) (snd kv))
         (set (name c) ((match get (name c) o with Some l => l | None => [] end) ++ [c])%list o).
Proof.
  intro F. induction F as [|[k' l] o [NE N] F IH]; cbn [get set].
  - constructor; [|constructor]. cbn [fst snd]. split; [discriminate|].
    constructor; [reflexivity | constructor].
  - cbn [fst snd] in NE, N. destruct (String.eqb (name c) k') eqn:E.
    + apply String.eqb_eq in E. constructor; [|exact F]. cbn [fst snd]. split.
      * intro H. apply app_eq_nil in H. destruct H as [_ H]. discriminate.
      * apply Forall_app. split; [rewrite E; exact N|].
        constructor; [reflexivity | constructor].
    + constructor; [|exact IH]. cbn [fst snd]. auto.
Qed.

Lemma groupByRecipient_spec (rows : list TrainModel.Row) :
  NoDup (keys (TrainModel.groupByRecipient rows)) /\
  Permutation (List.concat (values (TrainModel.groupByRecipient rows))) rows /\
  Forall (fun kv => snd kv <> [] /\ Forall (fun c => recipient_of c = fst kv) (snd kv))
         (TrainModel.groupByRecipient rows).
Proof.
  unfold TrainModel.groupByRecipient.
  assert (G : forall (l pre : list TrainModel.Row) (o : object (list TrainModel.Row)),
             NoDup (keys o) /\
             Permutation (List.concat (values o)) pre /\
             Forall (fun kv => snd kv <> [] /\
                               Forall (fun c => recipient_of c = fst kv) (snd kv)) o ->
             let o' :=
               fold_left
                 (fun byRecipient c =>
                    let name := str_or (TrainModel.Recipient_Name c) "Unknown" in
                    let seen := match get name byRecipient with Some l => l | None => [] end in
                    set name (seen ++ [c])%list byRecipient) l o in
             NoDup (keys o') /\
             Permutation (List.concat (values o')) (pre ++ l) /\
             Forall (fun kv => snd kv <> [] /\
                               Forall (fun c => recipient_of c = fst kv) (snd kv)) o').
  { induction l as [|c l IH]; intros pre o [D [P F]]; cbn [fold_left]; cbv zeta.
    - rewrite app_nil_r. auto.
    - replace (pre ++ c :: l)%list with ((pre ++ [c]) ++ l)%list
        by (rewrite <- app_assoc; reflexivity).
      apply IH. split; [apply keys_set_NoDup; exact D|]. split.
      + rewrite group_insert_perm. rewrite P. apply Permutation_cons_append.
      + apply (group_insert_named recipient_of c o F). }
  apply (G rows [] []). split; [constructor|]. split; [reflexivity | constructor].
Qed.

Lemma extractAllFeatures_entries (sqrt_fin : Q -> Q) (rows : list TrainModel.Row)
    (exclusions : list TrainModel.Exclusion) :
  TrainModel.extractAllFeatures sqrt_fin rows exclusions
  = (map (fun entry : string * list TrainModel.Row =>
            {| TrainModel.tf_type := "contractor";
               TrainModel.tf_name := Some (fst entry);
               TrainModel.tf_features :=
                 FeatureExtractor.extractContractorFeatures sqrt_fin
                   (map TrainModel.award (snd entry));
               TrainModel.isFraud := false |})
         (TrainModel.groupByRecipient rows)
     ++ map (fun exc =>
               {| TrainModel.tf_type := "healthcare";
                  TrainModel.tf_name := TrainModel.ex_name exc;
                  TrainModel.tf_features :=
                    match TrainModel.ex_features exc with Some f => f | None => [] end;
                  TrainModel.isFraud := true |})
            exclusions)%list.
Proof.
  unfold TrainModel.extractAllFeatures. cbv zeta.
  destruct rows as [|c rows]; cbn [List.length Nat.ltb Nat.leb].
  - reflexivity.
  - f_equal. apply map_ext. intros [name awards]. reflexivity.
Qed.

(** X21.  When no recipient of the rows is a name objects inherit or a
    name written with digits only, and no awarding agency of the rows
    is a name objects inherit: the training features hold one
    contractor record per recipient, computed from the awards of the
    recipient's group, followed by one record per exclusion; every row
    is in the group of exactly one recipient, that of its name
    ('Unknown' without a name); no group is empty; the contractor
    records are labeled as not fraud and the exclusion records as
    fraud. *)
Theorem training_features_partition (sqrt_fin : Q -> Q) (rows : list TrainModel.Row)
    (exclusions : list TrainModel.Exclusion) :
  forallb plain_name (map recipient_of rows) = true ->
  forallb own_name (map (fun c => agency_of (TrainModel.award c)) rows) = true ->
  let groups := TrainModel.groupByRecipient rows in
  let out := TrainModel.extractAllFeatures sqrt_fin rows exclusions in
  NoDup (keys groups) /\
  Permutation (List.concat (values groups)) rows /\
  Forall (fun kv => snd kv <> [] /\ Forall (fun c => recipient_of c = fst kv) (snd kv))
         groups /\
  map TrainModel.tf_name out
  = (map Some (keys groups) ++ map TrainModel.ex_name exclusions)%list /\
  map TrainModel.isFraud out
  = (repeat false (List.length groups) ++ repeat true (List.length exclusions))%list /\
  map TrainModel.tf_features (firstn (List.length groups) out)
  = map (fun kv => FeatureExtractor.extractContractorFeatures sqrt_fin
                     (map TrainModel.award (snd kv))) groups.
Proof.
  intros _ _. cbv zeta. destruct (groupByRecipient_spec rows) as [D [P F]].
  split; [exact D|]. split; [exact P|]. split; [exact F|].
  rewrite extractAllFeatures_entries.
  set (groups := TrainModel.groupByRecipient rows).
  split; [|split].
  - rewrite map_app, !map_map. unfold keys. rewrite map_map. reflexivity.
  - rewrite map_app, !map_map. cbn [TrainModel.isFraud]. f_equal.
    + clear. induction groups as [|g groups IH]; [reflexivity|].
      cbn [map List.length repeat]. rewrite IH. reflexivity.
    + clear. induction exclusions as [|e ex IH]; [reflexivity|].
      cbn [map List.length repeat]. rewrite IH. reflexivity.
  - rewrite firstn_app, length_map, Nat.sub_diag. cbn [firstn]. rewrite app_nil_r.
    rewrite firstn_all2 by (rewrite length_map; lia).
    rewrite map_map. reflexivity.
Qed.

Lemma training_features_partition_witness :
  let groups := TrainModel.groupByRecipient Examples.rows in
  let out := TrainModel.extractAllFeatures floor_sqrt Examples.rows [] in
  NoDup (keys groups) /\
  Permutation (List.concat (values groups)) Examples.rows /\
  Forall (fun kv => snd kv <> [] /\ Forall (fun c => recipient_of c = fst kv) (snd kv))
         groups /\
  map TrainModel.tf_name out = (map Some (keys groups) ++ [])%list /\
  map TrainModel.isFraud out = (repeat false (List.length groups) ++ [])%list /\
  map TrainModel.tf_features (firstn (List.length groups) out)
  = map (fun kv => FeatureExtractor.extractContractorFeatures floor_sqrt
                     (map TrainModel.award (snd kv))) groups.
Proof.
  apply (training_features_partition floor_sqrt Examples.rows []).
  - reflexivity.
  - reflexivity.
Defined.

(** ** The handlers of the route *)







(** ** Normalisation *)

Lemma fold_set_map_key {A B : Type} (f : string -> A -> B) (l : object A) (acc : object B) :
  NoDup (keys acc ++ keys l) ->
  fold_left (fun out kv => set (fst kv) (f (fst kv) (snd kv)) out) l acc
  = (acc ++ map (fun kv => (fst kv, f (fst kv) (snd kv))) l)%list.
Proof.
  revert acc. induction l as [|[k a] l IH]; intros acc D; cbn [fold_left map fst snd].
  - rewrite app_nil_r. reflexivity.
  - unfold keys in D. cbn [map fst] in D.
    rewrite set_fresh.
    + rewrite IH.
      * rewrite <- app_assoc. reflexivity.
      * unfold keys. rewrite map_app. cbn [map fst]. rewrite <- app_assoc. exact D.
    + apply NoDup_remove_2 in D. intro I. apply D. apply in_or_app. left. exact I.
Qed.

Lemma get_map_key {A B : Type} (f : string -> A -> B) (o : object A) (k : string) :
  get k (map (fun kv => (fst kv, f (fst kv) (snd kv))) o) = option_map (f k) (get k o).
Proof.
  induction o as [|[k' a] o IH]; cbn [map get fst snd]; [reflexivity|].
  destruct (String.eqb k k') eqn:E; [|exact IH].
  apply String.eqb_eq in E. subst k'. reflexivity.
Qed.

Lemma normalizeFeatures_map (log1p_fin : Q -> Q) (features : object num)
    (method : option string) (stats : option (object FD.FeatureStat)) :
  NoDup (keys features) ->
  Normalizer.normalizeFeatures log1p_fin features method stats
  = map (fun kv =>
           (fst kv,
            Normalizer.normalizeValue log1p_fin
              (match method with Some m => m | None => "minmax" end) stats (fst kv) (snd kv)))
        features.
Proof.
  intro D. unfold Normalizer.normalizeFeatures. cbv zeta.
  apply (fold_set_map_key
           (Normalizer.normalizeValue log1p_fin
              (match method with Some m => m | None => "minmax" end) stats) features []).
  exact D.
Qed.




(** X25.  With the detector's profile as statistics, for a feature of
    the vector that the profile has an entry for and whose name is not
    one objects inherit: the 'zscore' method gives the feature the
    z-score the anomaly detector compares with its cutoff, whatever its
    value; and the 'minmax' method maps a value that lies between the
    minimum and the maximum of the entry to a number from 0 to 1, also
    when the two coincide. *)
Theorem normalize_by_profile (log1p_fin : Q -> Q) (features : object num)
    (stats : object FD.FeatureStat) (key : string) (st : FD.FeatureStat) (value : num) :
  NoDup (keys features) ->
  own_name key = true ->
  get key features = Some value ->
  get key stats = Some st ->
  get key (Normalizer.normalizeFeatures log1p_fin features (Some "zscore") (Some stats))
  = Some (zScore_guarded value st) /\
  forall v a b : Q,
    value = Fin v -> FD.s_min st = Fin a -> FD.s_max st = Fin b -> a <= v <= b ->
    exists q : Q,
      get key (Normalizer.normalizeFeatures log1p_fin features (Some "minmax") (Some stats))
      = Some (Fin q) /\ 0 <= q <= 1.
Proof.
  intros D _ G S. rewrite !normalizeFeatures_map by exact D.
  rewrite !get_map_key, G. cbn [option_map]. unfold Normalizer.normalizeValue. cbv zeta.
  rewrite S.
  change (String.eqb "zscore" "log") with false.
  change (String.eqb "zscore" "zscore") with true.
  change (String.eqb "minmax" "log") with false.
  change (String.eqb "minmax" "zscore") with false.
  change (String.eqb "minmax" "minmax") with true. cbv iota.
  split; [reflexivity|]. intros v a b V A B R. rewrite V, A, B.
  unfold sub, neg, add, or_else, truthy.
  destruct (Qeq_bool (b + - a) 0) eqn:Z; cbn [negb]; unfold of_Z, div.
  - change (Qeq_bool (inject_Z 1) 0) with false. cbv iota.
    eexists. split; [reflexivity|]. qprop. change (inject_Z 1) with 1.
    split; [apply Qle_shift_div_l | apply Qle_shift_div_r]; lra.
  - rewrite Z. eexists. split; [reflexivity|]. qprop.
    assert (P : 0 < b + - a) by lra.
    split.
    + apply Qle_shift_div_l; [exact P | lra].
    + apply Qle_shift_div_r; [exact P | lra].
Qed.

Lemma normalize_by_profile_witness :
  get "soleSourceRatio"
      (Normalizer.normalizeFeatures floor_sqrt [ ("soleSourceRatio", dec 2 10) ]
         (Some "zscore") (Some (FD.featureStats Examples.narrow_model)))
  = Some (zScore_guarded (dec 2 10) Examples.narrow_stats) /\
  exists q : Q,
    get "soleSourceRatio"
        (Normalizer.normalizeFeatures floor_sqrt [ ("soleSourceRatio", dec 2 10) ]
           (Some "minmax") (Some (FD.featureStats Examples.narrow_model)))
    = Some (Fin q) /\ 0 <= q <= 1.
Proof.
  assert (D : NoDup (keys [ ("soleSourceRatio", dec 2 10) ]))
    by (repeat constructor; intros []).
  destruct (normalize_by_profile floor_sqrt [ ("soleSourceRatio", dec 2 10) ]
              (FD.featureStats Examples.narrow_model) "soleSourceRatio" Examples.narrow_stats
              (dec 2 10) D eq_refl eq_refl eq_refl) as [Z M].
  split; [exact Z|].
  apply (M (2 # 10) (1 # 10) (3 # 10)); try reflexivity.
  split; unfold Qle; simpl; lia.
Defined.

(** ** The order of the factors *)

Lemma fold_patternStep_contributions (features : object num) (l : list FD.FraudPatternEntry)
    (acc : Acc) (f : Factor) :
  In f (snd (fold_left (FD.patternStep features) l acc)) ->
  In f (snd acc) \/
  exists e, In e l /\ contribution f = round (FD.weight e * of_Z 20).
Proof.
  revert acc. induction l as [|e l IH]; cbn [fold_left]; intros acc I; [left; exact I|].
  apply IH in I. destruct I as [I | [e' [I E]]].
  - unfold FD.patternStep, push_if in I. cbv zeta in I.
    destruct (_ && _)%bool; [|left; exact I].
    cbn [snd] in I. apply in_app_or in I. destruct I as [I | [I | []]].
    + left. exact I.
    + right. exists e. split; [left; reflexivity|]. subst f. reflexivity.
  - right. exists e'. split; [right; exact I | exact E].
Qed.

Lemma sort_factors_sorted (fs : list Factor) :
  Forall (fun f => isFinite (contribution f) = true) fs ->
  StronglySorted (fun a b => (contribution b <=? contribution a)%num = true)
                 (sort_factors fs).
Proof.
  intro F. apply Sorted_StronglySorted.
  - intros a b c H1 H2. eapply leb_trans; eauto.
  - unfold sort_factors.
    apply (sort_by_Sorted _ _ (fun f => isFinite (contribution f) = true)); [|exact F].
    intros a b Fa Fb.
    destruct (contribution a) as [| | |x]; try discriminate.
    destruct (contribution b) as [| | |y]; try discriminate.
    rewrite sub_gtb_0. unfold leb.
    destruct (Qlt_bool x y) eqn:E; qprop; lra.
Qed.

Lemma round_finite (x : num) : isFinite x = true -> isFinite (round x) = true.
Proof. destruct x; try discriminate. reflexivity. Qed.

Lemma trained_weight_finite (sqrt_fin : Q -> Q) (this : FD.t)
    (trainingData : list FD.TrainingRecord) (cases : list FD.FraudCase)
    (e : FD.FraudPatternEntry) :
  In e (FD.commonFactors (FD.learnFraudPatterns cases)) ->
  isFinite (FD.weight e) = true.
Proof.
  intro I. destruct (learned_entry cases e I) as [P [_ W]]. rewrite W.
  apply div_of_nat_finite; [reflexivity|].
  apply (all_indicators_cases cases (FD.indicator e)).
  destruct (in_dec string_dec (FD.indicator e) (all_indicators cases)) as [Y | N];
    [exact Y|].
  apply occurrences_0 in N. lia.
Qed.

(** X26.  When no feature of the training records and no fraud type,
    industry or indicator of the known cases is a name objects inherit
    or a name written with digits only, the detector trained on them
    lists the factors of a contractor from the largest contribution
    down; they are the anomalies and the pattern matches it found, each
    once. *)
Theorem trained_factors_sorted (sqrt_fin : Q -> Q) (this : FD.t)
    (trainingData : list FD.TrainingRecord) (cases : list FD.FraudCase)
    (features : object num) :
  forallb plain_name (feature_names trainingData) = true ->
  forallb plain_name (case_names cases) = true ->
  let model := FD.train sqrt_fin this trainingData cases in
  StronglySorted (fun a b => (contribution b <=? contribution a)%num = true)
                 (factors (FD.scoreContractor model features)) /\
  Permutation (factors (FD.scoreContractor model features))
              (snd (FD.detectAnomalies model features)
               ++ snd (FD.matchFraudPatterns model features)).
Proof.
  intros _ _. cbv zeta. set (model := FD.train sqrt_fin this trainingData cases).
  unfold FD.scoreContractor.
  change (negb (FD.trained model)) with false. cbn [andb]. cbv zeta. cbn [factors].
  unfold FD.applyContractorRules. cbn [snd]. rewrite app_nil_r. cbn [app].
  split.
  - apply sort_factors_sorted. apply Forall_forall. intros f I.
    apply in_app_or in I. destruct I as [I | I].
    + destruct (detectAnomalies_factors model features f I) as [_ [n [E _]]].
      rewrite E. reflexivity.
    + unfold FD.matchFraudPatterns in I.
      change (FD.fraudPatterns model) with (Some (FD.learnFraudPatterns cases)) in I.
      apply fold_patternStep_contributions in I. destruct I as [[] | [e [I E]]].
      rewrite E. apply round_finite. apply mul_finite; [|reflexivity].
      apply (trained_weight_finite sqrt_fin this trainingData cases e I).
  - unfold sort_factors. apply sort_by_Permutation.
Qed.

Lemma trained_factors_sorted_witness :
  let model := Examples.trained_model in
  let features := Route.extractFeatures (Some Examples.scenario_a) in
  StronglySorted (fun a b => (contribution b <=? contribution a)%num = true)
                 (factors (FD.scoreContractor model features)) /\
  Permutation (factors (FD.scoreContractor model features))
              (snd (FD.detectAnomalies model features)
               ++ snd (FD.matchFraudPatterns model features)).
Proof.
  apply (trained_factors_sorted floor_sqrt FD.constructor Examples.corpus Examples.cases
           (Route.extractFeatures (Some Examples.scenario_a))).
  - reflexivity.
  - reflexivity.
Defined.

(** ** The two implementations of the default rules *)

Lemma push_if_view (view : Factor -> string * num) (c : bool) (f g : Factor) (a b : Acc) :
  fst a = fst b /\ map view (snd a) = map view (snd b) ->
  contribution f = contribution g -> view f = view g ->
  fst (push_if c f a) = fst (push_if c g b) /\
  map view (snd (push_if c f a)) = map view (snd (push_if c g b)).
Proof.
  intros [F S] C V. unfold push_if. destruct c; cbn [fst snd]; [|auto].
  rewrite F, C, !map_app, S. cbn [map]. rewrite V. auto.
Qed.

Lemma push_if_false (f : Factor) (a : Acc) : push_if false f a = a.
Proof. reflexivity. Qed.

(** X27.  The route without a model and the detector's default scoring
    implement the same rules: for a vector whose healthcare ratio does
    not exceed 0.5, the one rule only the route has, the two scores are
    equal and the two factor lists hold the same types with the same
    contributions, the route's sorted. *)
Theorem route_agrees_with_default_scoring (ToNumber_other : jsval -> num) (this : FD.t)
    (features : object num) :
  (toNumber (get "healthcareRatio" features) >? dec 5 10)%num = false ->
  exists r : Route.Result,
    Route.scoreContractor ToNumber_other features JNull = OK r /\
    Route.score r = score (FD.defaultContractorScoring this features) /\
    Permutation (map (fun f => (type f, contribution f)) (Route.factors r))
                (map (fun f => (type f, contribution f))
                     (factors (FD.defaultContractorScoring this features))).
Proof.
  intro H. unfold Route.scoreContractor. cbv zeta.
  cbn [opt_prop truthy_js bind]. rewrite H.
  change (Route.ToNumber ToNumber_other (opt_prop Route.defaultThresholds "agencyConcentration"))
    with (dec 8 10).
  change (Route.ToNumber ToNumber_other (opt_prop Route.defaultThresholds "soleSourceRatio"))
    with (dec 5 10).
  change (Route.ToNumber ToNumber_other (opt_prop Route.defaultThresholds "growthRateAnomaly"))
    with (of_Z 2).
  eexists. split; [reflexivity|].
  cbn [Route.score Route.factors]. unfold FD.defaultContractorScoring. cbv zeta.
  cbn [score factors]. rewrite !push_if_false.
  match goal with
  | |- min2 (round (fst ?a)) _ = min2 (round (fst ?b)) _ /\
       Permutation (map ?v (sort_factors (snd ?a))) (map ?v (snd ?b)) =>
      assert (E : fst a = fst b /\ map v (snd a) = map v (snd b))
  end.
  { repeat (apply push_if_view; [|reflexivity|reflexivity]). split; reflexivity. }
  destruct E as [E1 E2]. rewrite E1. split; [reflexivity|].
  rewrite <- E2. apply Permutation_map. unfold sort_factors. apply sort_by_Permutation.
Qed.


Lemma route_agrees_with_default_scoring_witness :
  exists r : Route.Result,
    Route.scoreContractor (fun _ => NaN)
      (Route.extractFeatures (Some Examples.scenario_a)) JNull = OK r /\
    Route.score r
    = score (FD.defaultContractorScoring FD.constructor
               (Route.extractFeatures (Some Examples.scenario_a))) /\
    Permutation (map (fun f => (type f, contribution f)) (Route.factors r))
                (map (fun f => (type f, contribution f))
                     (factors (FD.defaultContractorScoring FD.constructor
                                 (Route.extractFeatures (Some Examples.scenario_a))))).
Proof.
  apply (route_agrees_with_default_scoring (fun _ => NaN) FD.constructor
           (Route.extractFeatures (Some Examples.scenario_a))).
  vm_compute. reflexivity.
Defined.

(** ** Exclusions and the healthcare score *)

Lemma le_acc_push_more (c : bool) (f : Factor) (a a' : Acc) :
  le_acc a a' -> (c = true -> nonneg (contribution f)) -> le_acc a (push_if c f a').
Proof.
  intros [E L] N. unfold le_acc. rewrite push_if_fst. destruct c; [|split; assumption].
  split; [exact E|]. apply leb_add_nonneg_r; auto.
Qed.

Lemma exclusion_flags (provider : FeatureExtractor.Provider)
    (billingData : option (list FeatureExtractor.Billing))
    (openPayments : option (list FeatureExtractor.Payment)) :
  truthy_opt (get "hasExclusionHistory"
                (FeatureExtractor.extractHealthcareFeatures provider billingData openPayments))
  = FeatureExtractor.excludedPreviously provider /\
  truthy_opt (get "relatedPartyExcluded"
                (FeatureExtractor.extractHealthcareFeatures provider billingData openPayments))
  = FeatureExtractor.relatedPartyExcluded provider.
Proof.
  unfold FeatureExtractor.extractHealthcareFeatures. cbv zeta.
  destruct billingData, openPayments; cbn [app get]; eval_keys;
    destruct (FeatureExtractor.excludedPreviously provider),
             (FeatureExtractor.relatedPartyExcluded provider); split; reflexivity.
Qed.

Lemma healthcare_score_floor (this : FD.t) (features : object num) :
  complexity_cutoff_ok this = true ->
  (of_Z ((if truthy_opt (get "hasExclusionHistory" features) then 30 else 0)
         + (if truthy_opt (get "relatedPartyExcluded" features) then 20 else 0))
   <=? score (FD.scoreHealthcareProvider this features))%num = true.
Proof.
  unfold complexity_cutoff_ok. rewrite negb_true_iff. intro C.
  unfold FD.scoreHealthcareProvider. cbv zeta. cbn [score].
  set (b1 := truthy_opt (get "hasExclusionHistory" features)).
  set (b2 := truthy_opt (get "relatedPartyExcluded" features)).
  set (F30 := {| type := "PRIOR_EXCLUSION";
                 description := [Txt "Provider has prior exclusion history"];
                 contribution := of_Z 30; severity := "high" |}).
  set (F20 := {| type := "RELATED_PARTY_EXCLUDED";
                 description := [Txt "Related party has been excluded"];
                 contribution := of_Z 20; severity := "high" |}).
  assert (E : of_Z ((if b1 then 30 else 0) + (if b2 then 20 else 0))
              = min2 (round (fst (push_if b2 F20 (push_if b1 F30 (Fin 0, []))))) (of_Z 100))
    by (destruct b1, b2; vm_compute; reflexivity).
  rewrite E. apply le_acc_score.
  apply le_acc_push_more; [|intro; contribution_nonneg].
  apply le_acc_push_same; [|intros _; exact I].
  apply le_acc_push_same; [|intros _; exact I].
  repeat (apply le_acc_push_more; [|intro; contribution_nonneg]).
  apply le_acc_refl. exact I.
Qed.

Lemma leb_of_Z (a b : Z) : (of_Z a <=? of_Z b)%num = (a <=? b)%Z.
Proof. apply (geb_of_Z b a). Qed.

(** X28.  Under a trained detector, a provider that was excluded before
    scores at least 30 and is never reported 'Low'; one with an excluded
    related party scores at least 20; one with both scores at least 50
    and is reported 'High', whatever its billing and payments. *)
Theorem exclusions_raise_score (sqrt_fin : Q -> Q) (this : FD.t)
    (trainingData : list FD.TrainingRecord) (cases : list FD.FraudCase)
    (provider : FeatureExtractor.Provider)
    (billingData : option (list FeatureExtractor.Billing))
    (openPayments : option (list FeatureExtractor.Payment)) :
  let model := FD.train sqrt_fin this trainingData cases in
  let r := FD.scoreHealthcareProvider model
             (FeatureExtractor.extractHealthcareFeatures provider billingData openPayments) in
  (of_Z ((if FeatureExtractor.excludedPreviously provider then 30 else 0)
         + (if FeatureExtractor.relatedPartyExcluded provider then 20 else 0))
   <=? score r)%num = true /\
  (FeatureExtractor.excludedPreviously provider && String.eqb (riskLevel r) "Low")%bool
  = false /\
  (FeatureExtractor.excludedPreviously provider
   && FeatureExtractor.relatedPartyExcluded provider
   && negb (String.eqb (riskLevel r) "High"))%bool = false.
Proof.
  cbv zeta. set (model := FD.train sqrt_fin this trainingData cases).
  set (features :=
         FeatureExtractor.extractHealthcareFeatures provider billingData openPayments).
  assert (C : complexity_cutoff_ok model = true) by reflexivity.
  pose proof (healthcare_score_floor model features C) as L.
  destruct (exclusion_flags provider billingData openPayments) as [E1 E2].
  fold features in E1, E2. rewrite E1, E2 in L.
  split; [exact L|].
  destruct (scoreHealthcareProvider_range model features C) as [n [S B]].
  assert (R : riskLevel (FD.scoreHealthcareProvider model features)
              = (if (50 <=? n)%Z then "High" else if (25 <=? n)%Z then "Medium" else "Low")).
  { change (riskLevel (FD.scoreHealthcareProvider model features))
      with (FD.getRiskLevel model (score (FD.scoreHealthcareProvider model features))).
    rewrite S. unfold FD.getRiskLevel.
    change (FD.threshold model "highRiskMin") with (of_Z 50).
    change (FD.threshold model "lowRiskMax") with (of_Z 25).
    apply risk_of_Z. }
  rewrite R. rewrite S, leb_of_Z in L. apply Z.leb_le in L.
  destruct (FeatureExtractor.excludedPreviously provider),
           (FeatureExtractor.relatedPartyExcluded provider); cbn [andb]; split;
    try reflexivity;
    repeat match goal with
      | |- context [(?a <=? ?b)%Z] =>
          let E := fresh in destruct (a <=? b)%Z eqn:E;
          [apply Z.leb_le in E | apply Z.leb_gt in E]
      end; try reflexivity; lia.
Qed.

(** ** The billing features of a provider *)

Lemma distinct_length {A : Type} (eqb : A -> A -> bool) (l : list A) :
  (List.length (distinct eqb l) <= List.length l)%nat /\
  (l <> [] -> 1 <= List.length (distinct eqb l))%nat.
Proof.
  induction l as [|x l [IH _]]; cbn [distinct List.length].
  - split; [lia | intro H; contradiction].
  - split; [|intros _; lia].
    pose proof (filter_length_le (fun y => negb (eqb x y)) (distinct eqb l)). lia.
Qed.

(** X29.  For billing data that is not empty the extractor reports the
    number of claims, a high-complexity ratio from 0 to 1, a number of
    service types from 1 to the number of claims, and a number of
    services per patient from 1 to the number of claims. *)
Theorem billing_features (provider : FeatureExtractor.Provider)
    (b : FeatureExtractor.Billing) (bs : list FeatureExtractor.Billing)
    (openPayments : option (list FeatureExtractor.Payment)) :
  let n := List.length (b :: bs) in
  let features :=
    FeatureExtractor.extractHealthcareFeatures provider (Some (b :: bs)) openPayments in
  get "claimCount" features = Some (of_nat n) /\
  (exists q, get "highComplexityRatio" features = Some (Fin q) /\ 0 <= q <= 1) /\
  (exists k, get "uniqueServiceTypes" features = Some (of_nat k) /\ (1 <= k <= n)%nat) /\
  (exists q, get "avgServicesPerPatient" features = Some (Fin q) /\
             1 <= q <= inject_Z (Z.of_nat n)).
Proof.
  cbv zeta. unfold FeatureExtractor.extractHealthcareFeatures. cbv zeta.
  set (billing := b :: bs).
  assert (N : (1 <= List.length billing)%nat) by (simpl; lia).
  assert (NE : billing <> []) by discriminate.
  cbn [app get]. eval_keys.
  split; [reflexivity|]. split; [|split].
  - destruct (ratio_unit
                (count_if (fun c => (c >=? of_Z 4)%num)
                          (map (fun b0 => FeatureExtractor.getCodeComplexity
                                            (FeatureExtractor.b_code b0)) billing))
                (List.length (map (fun b0 => FeatureExtractor.getCodeComplexity
                                               (FeatureExtractor.b_code b0)) billing)))
      as [q [E Q]].
    + apply count_if_le.
    + rewrite length_map. exact N.
    + exists q. rewrite E. auto.
  - eexists. split; [reflexivity|].
    destruct (distinct_length opt_str_eqb (map FeatureExtractor.b_serviceType billing))
      as [L1 L2].
    rewrite length_map in L1. split; [|exact L1].
    apply L2. intro H. apply map_eq_nil in H. contradiction.
  - destruct (distinct_length opt_str_eqb (map FeatureExtractor.b_patientId billing))
      as [L1 L2].
    rewrite length_map in L1.
    assert (K : (1 <= List.length (distinct opt_str_eqb
                                     (map FeatureExtractor.b_patientId billing)))%nat).
    { apply L2. intro H. apply map_eq_nil in H. contradiction. }
    set (k := List.length (distinct opt_str_eqb (map FeatureExtractor.b_patientId billing)))
      in *.
    unfold or_else. rewrite truthy_of_nat.
    replace (Nat.eqb k 0) with false by (symmetry; apply Nat.eqb_neq; lia).
    cbn [negb]. unfold of_nat, of_Z, div. rewrite of_nat_nonzero by exact K.
    eexists. split; [reflexivity|].
    assert (Pk : 1 <= inject_Z (Z.of_nat k)) by (apply (inject_Z_le 1); lia).
    assert (Pn : inject_Z (Z.of_nat k) <= inject_Z (Z.of_nat (List.length billing)))
      by (apply inject_Z_le; lia).
    split.
    + apply Qle_shift_div_l; [lra | lra].
    + apply Qle_shift_div_r; [lra|].
      assert (0 <= inject_Z (Z.of_nat (List.length billing))) by lra. nra.
Qed.

(** ** The two extractors *)

(** X30.  On awards that are not empty the training extractor and the
    route's extractor compute the same total, award count, agency
    concentration, defense ratio and sole-source ratio.  Their
    high-risk ratios differ, since the keyword lists differ: an award
    described as an emergency counts for the training extractor only,
    and one described as sole source for the route only. *)
Theorem extractors_agree (sqrt_fin : Q -> Q) (a : Award) (awards : list Award) :
  Forall (fun k =>
            get k (Route.extractFeatures (Some (a :: awards)))
            = get k (FeatureExtractor.extractContractorFeatures sqrt_fin (a :: awards)))
         [ "totalAwarded"; "awardCount"; "agencyConcentration"; "defenseRatio";
           "soleSourceRatio" ] /\
  (let emergency := [ Examples.award 1000 "Department of Energy" "Emergency repairs"
                                     "2023-01-01" ] in
   get "highRiskCategoryRatio" (FeatureExtractor.extractContractorFeatures sqrt_fin emergency)
   = Some (of_Z 1) /\
   get "highRiskCategoryRatio" (Route.extractFeatures (Some emergency)) = Some (of_Z 0)) /\
  (let sole := [ Examples.award 1000 "Department of Energy" "Sole source pumps"
                                "2023-01-01" ] in
   get "highRiskCategoryRatio" (FeatureExtractor.extractContractorFeatures sqrt_fin sole)
   = Some (of_Z 0) /\
   get "highRiskCategoryRatio" (Route.extractFeatures (Some sole)) = Some (of_Z 1)).
Proof.
  split.
  - unfold Route.extractFeatures, FeatureExtractor.extractContractorFeatures. cbv zeta.
    repeat apply Forall_cons; try apply Forall_nil; cbn [get]; eval_keys; reflexivity.
  - cbv zeta. split; split; vm_compute; reflexivity.
Qed.
